(** * Bureau MCP: task-directory naming, report numbering and the current pointer

    A shallow embedding of the utilities and tool handlers of [index.js]
    (the MCP server "bureaumcp"), and the properties of its naming and
    allocation rules.

    Layout of the development:
    - [Js]     : JavaScript strings as UTF-16 code units, comparison, [sort],
                 [String(n)], [padStart], [parseInt];
    - [Path]   : the POSIX flavour of Node's [path.join] and [path.basename];
    - [Re]     : the regular expressions of [index.js], compiled by hand;
    - [Clock]  : calendar dates, [toISOString().split('T')[0]], [setDate];
    - [Fs]     : the task root as a finite map, and the [fs/promises] calls used;
    - [Bureau] : the utilities and the five tool handlers;
    - the theorems. *)

From Stdlib Require Import NArith ZArith List Ascii String Lia Sorted Permutation.
From stdpp Require Import base option list gmap sets.

Set Default Proof Using "Type".

(* ===================================================================== *)
(** * JavaScript strings *)
(* ===================================================================== *)

(** A JavaScript string is a sequence of UTF-16 code units. *)
Abbreviation jsstring := (list N).

Module Js.

Local Open Scope N_scope.

(** A string literal of the source, as code units. *)
Definition str (s : string) : jsstring :=
  map N_of_ascii (list_ascii_of_string s).

(** [String.fromCharCode(n)]: one code unit, [n] taken modulo 2^16. *)
Definition fromCharCode (n : N) : jsstring := [n mod 65536].

(** The abstract relational comparison of two strings: code unit by code
    unit, a proper prefix being smaller. *)
Fixpoint compare (a b : jsstring) : comparison :=
  match a, b with
  | [], [] => Eq
  | [], _ :: _ => Lt
  | _ :: _, [] => Gt
  | x :: a', y :: b' =>
      match N.compare x y with
      | Eq => compare a' b'
      | c => c
      end
  end.

(** [a < b], [a <= b] and [a >= b] on strings. *)
Definition ltb (a b : jsstring) : bool :=
  match compare a b with Lt => true | _ => false end.
Definition leb (a b : jsstring) : bool :=
  match compare a b with Gt => false | _ => true end.
Definition geb (a b : jsstring) : bool := negb (ltb a b).

(** [a === b] on strings. *)
Definition eqb (a b : jsstring) : bool := bool_decide (a = b).

(** [arr.includes(x)]. *)
Definition includes (arr : list jsstring) (x : jsstring) : bool :=
  existsb (eqb x) arr.

(** [s.startsWith(p)]. *)
Fixpoint startsWith (s p : jsstring) : bool :=
  match p, s with
  | [], _ => true
  | _ :: _, [] => false
  | y :: p', x :: s' => (x =? y) && startsWith s' p'
  end.

(** [arr.sort()] with the default comparator: ascending in the order of
    [compare].  The result of a sort is determined by the multiset of the
    strings, so the algorithm is immaterial; insertion is used here. *)
Fixpoint insert (x : jsstring) (l : list jsstring) : list jsstring :=
  match l with
  | [] => [x]
  | y :: l' => if leb x y then x :: y :: l' else y :: insert x l'
  end.

Definition sort (l : list jsstring) : list jsstring :=
  fold_right insert [] l.

(** [arr.slice(0, n)] and [arr.slice(-n)]. *)
Definition slice_to {A} (n : nat) (l : list A) : list A := take n l.
Definition slice_last {A} (n : nat) (l : list A) : list A :=
  drop (length l - n) l.

(** The decimal digits of [String(n)] for a non-negative integer. *)
Fixpoint uint_units (u : Decimal.uint) : jsstring :=
  match u with
  | Decimal.Nil => []
  | Decimal.D0 u => 48 :: uint_units u
  | Decimal.D1 u => 49 :: uint_units u
  | Decimal.D2 u => 50 :: uint_units u
  | Decimal.D3 u => 51 :: uint_units u
  | Decimal.D4 u => 52 :: uint_units u
  | Decimal.D5 u => 53 :: uint_units u
  | Decimal.D6 u => 54 :: uint_units u
  | Decimal.D7 u => 55 :: uint_units u
  | Decimal.D8 u => 56 :: uint_units u
  | Decimal.D9 u => 57 :: uint_units u
  end.

Definition String_of (n : N) : jsstring := uint_units (N.to_uint n).

(** [s.padStart(width, '0')]: never truncates. *)
Definition padStart0 (width : nat) (s : jsstring) : jsstring :=
  repeat 48 (width - length s) ++ s.

(** [parseInt(s, 10)] on a run of decimal digits. *)
Definition parseInt (s : jsstring) : N :=
  fold_left (fun acc c => 10 * acc + (c - 48)) s 0.

(** [Math.max(...numbers)] for a non-empty array of non-negative integers
    (the only use in the source is guarded by [length === 0]). *)
Definition Math_max (numbers : list N) : N := fold_right N.max 0 numbers.

End Js.

(* ===================================================================== *)
(** * The regular expressions of index.js *)
(* ===================================================================== *)

Module Re.

Local Open Scope N_scope.

(** [\d] *)
Definition digit (c : N) : bool := (48 <=? c) && (c <=? 57).

(** [[b-z]] *)
Definition b_to_z (c : N) : bool := (98 <=? c) && (c <=? 122).

(** [.] without the [s] flag: anything but a line terminator
    (LF, CR, U+2028, U+2029). *)
Definition dot (c : N) : bool :=
  negb ((c =? 10) || (c =? 13) || (c =? 8232) || (c =? 8233)).

Definition dash : N := 45.

(** [.*TAIL$]: some run of [.] followed by [tail] and the end of input. *)
Fixpoint dot_star_end (tail s : jsstring) : bool :=
  Js.eqb s tail ||
  match s with
  | [] => false
  | c :: s' => dot c && dot_star_end tail s'
  end.

(** [.+$] *)
Definition dot_plus_end (s : jsstring) : bool :=
  match s with
  | [] => false
  | _ :: _ => forallb dot s
  end.

(** [/^\d{3}-.*\.md$/.test(name)] *)
Definition report_file (name : jsstring) : bool :=
  match name with
  | d1 :: d2 :: d3 :: c :: rest =>
      digit d1 && digit d2 && digit d3 && (c =? dash)
      && dot_star_end (Js.str ".md") rest
  | _ => false
  end.

(** [name.match(/^(\d{3})-/)]: the first capture group, if the match succeeds. *)
Definition report_number (name : jsstring) : option jsstring :=
  match name with
  | d1 :: d2 :: d3 :: c :: _ =>
      if digit d1 && digit d2 && digit d3 && (c =? dash)
      then Some [d1; d2; d3] else None
  | _ => None
  end.

(** [\d{4}-\d{2}-\d{2}] at the start of [s]: the ten code units matched and
    the rest of the input. *)
Definition iso_date (s : jsstring) : option (jsstring * jsstring) :=
  match s with
  | y1 :: y2 :: y3 :: y4 :: c1 :: m1 :: m2 :: c2 :: d1 :: d2 :: rest =>
      if digit y1 && digit y2 && digit y3 && digit y4 && (c1 =? dash)
         && digit m1 && digit m2 && (c2 =? dash) && digit d1 && digit d2
      then Some ([y1; y2; y3; y4; c1; m1; m2; c2; d1; d2], rest)
      else None
  | _ => None
  end.

(** [dirName.match(/^(\d{4}-\d{2}-\d{2}[b-z]?)-(.+)$/)]: the two capture
    groups.  The optional letter is tried first; when the rest of the
    pattern then fails, the only alternative is the empty option, which
    needs a dash where the letter stands and so fails as well. *)
Definition task_dir (dirName : jsstring) : option (jsstring * jsstring) :=
  match iso_date dirName with
  | None => None
  | Some (date, rest) =>
      match rest with
      | c :: rest' =>
          if b_to_z c then
            match rest' with
            | c' :: slug =>
                if (c' =? dash) && dot_plus_end slug
                then Some (date ++ [c], slug) else None
            | [] => None
            end
          else if (c =? dash) && dot_plus_end rest'
          then Some (date, rest') else None
      | [] => None
      end
  end.

(** [s.replace(/[b-z]$/, '')] *)
Definition strip_letter (s : jsstring) : jsstring :=
  match last s with
  | Some c => if b_to_z c then removelast s else s
  | None => s
  end.

End Re.

(* ===================================================================== *)
(** * Node's [path] module (POSIX) *)
(* ===================================================================== *)

Module Path.

Local Open Scope N_scope.

Definition slash : N := 47.
Definition dot_seg : jsstring := Js.str ".".
Definition dotdot_seg : jsstring := Js.str "..".

(** The segments of a path between its slashes (empty ones included). *)
Fixpoint split (p : jsstring) : list jsstring :=
  match p with
  | [] => [[]]
  | c :: p' =>
      if c =? slash then [] :: split p'
      else match split p' with
           | seg :: segs => (c :: seg) :: segs
           | [] => [[c]]
           end
  end.

(** Segments joined by single slashes. *)
Fixpoint unsplit (segs : list jsstring) : jsstring :=
  match segs with
  | [] => []
  | [seg] => seg
  | seg :: segs' => seg ++ slash :: unsplit segs'
  end.

(** One step of [normalizeString]: the segments kept so far are held last
    first.  Empty and [.] segments are dropped; [..] removes the last kept
    segment, or is itself kept when nothing precedes it and the path is
    relative. *)
Definition step (allowAboveRoot : bool) (kept : list jsstring) (seg : jsstring)
  : list jsstring :=
  if Js.eqb seg [] || Js.eqb seg dot_seg then kept
  else if Js.eqb seg dotdot_seg then
    match kept with
    | [] => if allowAboveRoot then [dotdot_seg] else []
    | top :: kept' =>
        if Js.eqb top dotdot_seg
        then (if allowAboveRoot then dotdot_seg :: kept else kept)
        else kept'
    end
  else seg :: kept.

Definition normalizeString (p : jsstring) (allowAboveRoot : bool) : jsstring :=
  unsplit (rev (fold_left (step allowAboveRoot) (split p) [])).

(** [path.isAbsolute(p)] *)
Definition isAbsolute (p : jsstring) : bool :=
  match p with
  | c :: _ => c =? slash
  | [] => false
  end.

Definition trailingSeparator (p : jsstring) : bool :=
  match last p with
  | Some c => c =? slash
  | None => false
  end.

(** [path.normalize(p)] *)
Definition normalize (p : jsstring) : jsstring :=
  match p with
  | [] => dot_seg
  | _ :: _ =>
      let body := normalizeString p (negb (isAbsolute p)) in
      match body with
      | [] =>
          if isAbsolute p then [slash]
          else if trailingSeparator p then Js.str "./" else dot_seg
      | _ :: _ =>
          let body' := if trailingSeparator p then body ++ [slash] else body in
          if isAbsolute p then slash :: body' else body'
      end
  end.

(** [path.join(...parts)]: the non-empty parts joined by slashes, normalized. *)
Definition join (parts : list jsstring) : jsstring :=
  match List.filter (fun a => negb (Js.eqb a [])) parts with
  | [] => dot_seg
  | joined => normalize (unsplit joined)
  end.

(** [path.basename(p)]: the last non-empty segment, or the empty string. *)
Definition basename (p : jsstring) : jsstring :=
  match List.filter (fun a => negb (Js.eqb a [])) (rev (split p)) with
  | seg :: _ => seg
  | [] => []
  end.

(** A single directory entry name: non-empty, without slash or NUL, and
    neither [.] nor [..]. *)
Definition component (name : jsstring) : bool :=
  negb (Js.eqb name []) && forallb (fun c => negb (c =? slash) && negb (c =? 0)) name
  && negb (Js.eqb name dot_seg) && negb (Js.eqb name dotdot_seg).

End Path.

(* ===================================================================== *)
(** * The clock: calendar dates *)
(* ===================================================================== *)

Module Clock.

(** A calendar day, as [toISOString] prints it: the UTC day of an instant. *)
Record date := mkDate { year : Z; month : N; day : N }.

Definition pad (width : nat) (n : N) : jsstring :=
  Js.padStart0 width (Js.String_of n).

(** [date.toISOString().split('T')[0]]: four digits for the years 0 to 9999,
    a sign and six digits otherwise. *)
Definition toISODate (d : date) : jsstring :=
  let y := year d in
  let yyyy :=
    if ((0 <=? y) && (y <=? 9999))%Z then pad 4 (Z.to_N y)
    else (if (y <? 0)%Z then Js.str "-" else Js.str "+") ++ pad 6 (Z.abs_N y) in
  yyyy ++ Js.str "-" ++ pad 2 (month d) ++ Js.str "-" ++ pad 2 (day d).

Definition is_leap (y : Z) : bool :=
  (((y mod 4 =? 0) && negb (y mod 100 =? 0)) || (y mod 400 =? 0))%Z.

Definition days_in_month (y : Z) (m : N) : N :=
  (if m =? 2 then (if is_leap y then 29 else 28)
   else if (m =? 4) || (m =? 6) || (m =? 9) || (m =? 11) then 30
   else 31)%N.

(** A date of the (proleptic) Gregorian calendar. *)
Definition valid (d : date) : Prop :=
  (1 <= month d <= 12)%N /\ (1 <= day d <= days_in_month (year d) (month d))%N.

(** The day before. *)
Definition prev_day (d : date) : date :=
  if (1 <? day d)%N then mkDate (year d) (month d) (day d - 1)
  else if (1 <? month d)%N
       then mkDate (year d) (month d - 1) (days_in_month (year d) (month d - 1))
       else mkDate (year d - 1) 12 31.

(** The day after. *)
Definition next_day (d : date) : date :=
  if (day d <? days_in_month (year d) (month d))%N
  then mkDate (year d) (month d) (day d + 1)
  else if (month d <? 12)%N
       then mkDate (year d) (month d + 1) 1
       else mkDate (year d + 1) 1 1.

(** The calendar day [n] days earlier. *)
Definition sub_days (n : nat) (d : date) : date := Nat.iter n prev_day d.

(** The calendar day [k] days later, or [- k] days earlier. *)
Definition add_days (k : Z) (d : date) : date :=
  if (0 <=? k)%Z then Nat.iter (Z.to_nat k) next_day d
  else sub_days (Z.to_nat (- k)) d.

(** Milliseconds in a day. *)
Definition msPerDay : Z := 86400000.

(** [d = new Date(); d.setDate(d.getDate() - 30); d.toISOString()], up to
    the day.  [new Date()] is an instant: [today] is its UTC day and
    [timeOfDay] the milliseconds elapsed since that day's UTC midnight.
    [getDate] and [setDate] work on the local calendar: the local day moves
    back by 30 and the local wall-clock time is kept, so the instant moves
    back by 30 days and forward by [offsetChange], the local offset from
    UTC now minus the local offset at the new instant, in milliseconds (0
    in a zone of constant offset, minus one hour after daylight saving
    time has ended within the 30 days).  [toISOString] prints the UTC day
    of the new instant. *)
Definition thirtyDaysAgo (today : date) (timeOfDay offsetChange : Z) : date :=
  add_days ((timeOfDay + offsetChange) / msPerDay - 30) today.

(** Clock readings that occur: a time within the day, and an offset change
    of less than a day. *)
Definition reading (timeOfDay offsetChange : Z) : Prop :=
  (0 <= timeOfDay < msPerDay)%Z /\ (- msPerDay < offsetChange < msPerDay)%Z.

(** Chronological order of calendar dates. *)
Definition before (a b : date) : Prop :=
  (year a < year b)%Z \/
  (year a = year b /\ ((month a < month b)%N \/
                       (month a = month b /\ (day a < day b)%N))).


Definition not_afterb (a b : date) : bool :=
  ((year a <? year b)%Z) ||
  ((year a =? year b)%Z &&
   ((month a <? month b)%N || ((month a =? month b)%N && (day a <=? day b)%N))).

End Clock.

(* ===================================================================== *)
(** * The file system under the task root *)
(* ===================================================================== *)

Module Fs.

(** An entry of the task root.  Of a directory only the names it holds
    matter here ([readdir] without file types). *)
Inductive node :=
| Dir (names : gset jsstring)
| File
| Symlink (target : jsstring).

(** The task root [_tasks]: absent, or a directory with its entries. *)
Inductive t :=
| Absent
| Root (entries : gmap jsstring node).

Definition entries_of (st : t) : gmap jsstring node :=
  match st with
  | Absent => ∅
  | Root m => m
  end.

(** The outcome of a call: a value, a thrown error with its message, or
    [Unmodelled] when the call leaves the modelled tree (a path with several
    segments, a task entry that is itself a symbolic link), where the model
    makes no statement. *)
Inductive outcome (A : Type) :=
| Ok (a : A)
| Throw (message : jsstring)
| Unmodelled.
Arguments Ok {A} a.
Arguments Throw {A} message.
Arguments Unmodelled {A}.

(** An asynchronous function of the source: it reads and changes the tree. *)
Definition M (A : Type) : Type := t -> outcome A * t.

Definition ret {A} (a : A) : M A := fun st => (Ok a, st).

Definition bind {A B} (m : M A) (k : A -> M B) : M B :=
  fun st =>
    match m st with
    | (Ok a, st') => k a st'
    | (Throw e, st') => (Throw e, st')
    | (Unmodelled, st') => (Unmodelled, st')
    end.

(** [throw new Error(message)] *)
Definition throw {A} (message : jsstring) : M A := fun st => (Throw message, st).

(** [try { body } catch (error) { handler }] *)
Definition try_catch {A} (body : M A) (handler : jsstring -> M A) : M A :=
  fun st =>
    match body st with
    | (Throw e, st') => handler e st'
    | r => r
    end.

Definition current : jsstring := Js.str "current".

(** [fs.mkdir(TASKS_DIR, { recursive: true })] *)
Definition mkdir_root : M unit :=
  fun st => (Ok tt, Root (entries_of st)).

(** [fs.readdir(TASKS_DIR, { withFileTypes: true })]: the entries, in an
    order that every caller replaces by [sort]. *)
Definition readdir_root : M (list (jsstring * node)) :=
  fun st =>
    match st with
    | Absent => (Throw (Js.str "ENOENT"), st)
    | Root m => (Ok (map_to_list m), st)
    end.

(** [entry.isDirectory()] *)
Definition isDirectory (entry : jsstring * node) : bool :=
  match snd entry with
  | Dir _ => true
  | _ => false
  end.

(** [fs.readdir(path.join(TASKS_DIR, name))] *)
Definition readdir (name : jsstring) : M (list jsstring) :=
  fun st =>
    if negb (Path.component name) then (Unmodelled, st)
    else match entries_of st !! name with
         | Some (Dir names) => (Ok (elements names), st)
         | Some File => (Throw (Js.str "ENOTDIR"), st)
         | Some (Symlink _) => (Unmodelled, st)
         | None => (Throw (Js.str "ENOENT"), st)
         end.

(** [fs.mkdir(path.join(TASKS_DIR, name), { recursive: true })]: creates the
    root as well when it is absent; an existing directory is left as it is. *)
Definition mkdir (name : jsstring) : M unit :=
  fun st =>
    if negb (Path.component name) then (Unmodelled, st)
    else match entries_of st !! name with
         | None => (Ok tt, Root (<[name := Dir ∅]> (entries_of st)))
         | Some (Dir _) => (Ok tt, st)
         | Some File => (Throw (Js.str "EEXIST"), st)
         | Some (Symlink _) => (Unmodelled, st)
         end.

(** [fs.readlink(CURRENT_LINK)] *)
Definition readlink_current : M jsstring :=
  fun st =>
    match st with
    | Absent => (Throw (Js.str "ENOENT"), st)
    | Root m =>
        match m !! current with
        | Some (Symlink target) => (Ok target, st)
        | Some _ => (Throw (Js.str "EINVAL"), st)
        | None => (Throw (Js.str "ENOENT"), st)
        end
    end.

(** [fs.unlink(CURRENT_LINK)] *)
Definition unlink_current : M unit :=
  fun st =>
    match st with
    | Absent => (Throw (Js.str "ENOENT"), st)
    | Root m =>
        match m !! current with
        | Some (Dir _) => (Throw (Js.str "EISDIR"), st)
        | Some _ => (Ok tt, Root (delete current m))
        | None => (Throw (Js.str "ENOENT"), st)
        end
    end.

(** [fs.symlink(target, CURRENT_LINK)] *)
Definition symlink_current (target : jsstring) : M unit :=
  fun st =>
    match st with
    | Absent => (Throw (Js.str "ENOENT"), st)
    | Root m =>
        if Js.eqb target [] || existsb (N.eqb 0) target
        then (Throw (Js.str "ENOENT"), st)
        else match m !! current with
             | Some _ => (Throw (Js.str "EEXIST"), st)
             | None => (Ok tt, Root (<[current := Symlink target]> m))
             end
    end.

End Fs.

Declare Scope fs_scope.
Delimit Scope fs_scope with fs.
Notation "x <- m ;; k" := (Fs.bind m (fun x => k))
  (at level 100, m at next level, right associativity) : fs_scope.
Notation "m ;;; k" := (Fs.bind m (fun _ => k))
  (at level 100, right associativity) : fs_scope.

(* ===================================================================== *)
(** * index.js *)
(* ===================================================================== *)

Module Bureau.

Import Fs.
Local Open Scope fs_scope.

(** The value of [getTaskInfo]. *)
Record TaskInfo := mkTaskInfo {
  task_slug : jsstring;
  reports_dir : jsstring;
  report_file_names : list jsstring
}.

(** What a tool call answers: the JSON document of its text content, and
    [IsError] for the answers flagged [isError: true]. *)
Inductive response :=
| TaskInfoResult (info : TaskInfo)
| NullResult
| NoCurrentTask
| RecentTaskSlugs (recent_task_slugs : list jsstring)
| ReportFileToCreate (report_file_to_create : jsstring)
| IsError (message : jsstring).

Section Process.

(** [process.cwd()], and what [new Date()] reads during a call: the UTC day
    [today], the time elapsed since its midnight, and (for the local
    calendar arithmetic of [getRecentTaskDirs]) the change of the local
    offset from UTC over the last 30 local days; see [Clock.thirtyDaysAgo]. *)
Variable cwd : jsstring.
Variable today : Clock.date.
Variable timeOfDay : Z.
Variable offsetChange : Z.

(** [const TASKS_DIR = path.join(process.cwd(), '_tasks')] *)
Definition TASKS_DIR : jsstring := Path.join [cwd; Js.str "_tasks"].

(** [getDateSuffix(index)] *)
Definition getDateSuffix (index : N) : jsstring :=
  let dateStr := Clock.toISODate today in
  if (index =? 0)%N then dateStr
  else dateStr ++ Js.fromCharCode (97 + index).

(** [parseTaskDirName(dirName)]: [{ datePrefix, slug }] or [null]. *)
Definition parseTaskDirName (dirName : jsstring) : option (jsstring * jsstring) :=
  Re.task_dir dirName.

Definition datePrefix (parsed : jsstring * jsstring) : jsstring := fst parsed.
Definition slug_of (parsed : jsstring * jsstring) : jsstring := snd parsed.

(** [getAllTaskDirs()] *)
Definition getAllTaskDirs : M (list jsstring) :=
  try_catch
    (mkdir_root ;;;
     entries <- readdir_root ;;
     ret (Js.sort
            (map fst
               (List.filter
                  (fun entry => isDirectory entry
                                && bool_decide (is_Some (parseTaskDirName (fst entry))))
                  entries))))
    (fun _ => ret []).

(** [getRecentTaskDirs()] *)
Definition recent (cutoffStr dirName : jsstring) : bool :=
  match parseTaskDirName dirName with
  | None => false
  | Some parsed =>
      let dateOnly := Re.strip_letter (datePrefix parsed) in
      Js.geb dateOnly cutoffStr
  end.

Definition getRecentTaskDirs : M (list jsstring) :=
  allDirs <- getAllTaskDirs ;;
  let thirtyDaysAgo := Clock.thirtyDaysAgo today timeOfDay offsetChange in
  let cutoffStr := Clock.toISODate thirtyDaysAgo in
  ret (List.filter (recent cutoffStr) allDirs).

(** [getCurrentTaskDir()] *)
Definition getCurrentTaskDir : M (option jsstring) :=
  try_catch
    (target <- readlink_current ;;
     let targetPath :=
       if Path.isAbsolute target then target else Path.join [TASKS_DIR; target] in
     let dirName := Path.basename targetPath in
     ret (Some dirName))
    (fun _ => ret None).

(** The body of [getReportFiles] after [readdir]: filter, sort, and the
    window of the earliest 20 and latest 30 names. *)
Definition reportFilesOf (entries : list jsstring) : list jsstring :=
  let reportFiles := Js.sort (List.filter Re.report_file entries) in
  if length reportFiles <=? 50 then reportFiles
  else Js.slice_to 20 reportFiles ++ Js.slice_last 30 reportFiles.

(** [getReportFiles(taskDir)] *)
Definition getReportFiles (taskDir : jsstring) : M (list jsstring) :=
  try_catch
    (entries <- readdir taskDir ;;
     ret (reportFilesOf entries))
    (fun _ => ret []).

(** [getTaskInfo(taskDir)] *)
Definition getTaskInfo (taskDir : option jsstring) : M (option TaskInfo) :=
  match taskDir with
  | None => ret None
  | Some [] => ret None
  | Some taskDir =>
      match parseTaskDirName taskDir with
      | None => ret None
      | Some parsed =>
          reportFiles <- getReportFiles taskDir ;;
          ret (Some {| task_slug := slug_of parsed;
                       reports_dir := Path.join [Js.str "_tasks"; taskDir];
                       report_file_names := reportFiles |})
      end
  end.

(** The loop of [findNextTaskDirName]: [i] is the loop variable and
    [remaining] the number of iterations left before [i] reaches [26];
    [None] stands for leaving the loop without a name. *)
Fixpoint probe (allDirs : list jsstring) (todayStr slug : jsstring)
    (remaining : nat) (i : N) : option jsstring :=
  match remaining with
  | O => None
  | S remaining' =>
      let datePrefix := getDateSuffix i in
      if negb (Js.startsWith datePrefix todayStr) then None
      else
        let candidateName := datePrefix ++ Js.str "-" ++ slug in
        if negb (Js.includes allDirs candidateName) then Some candidateName
        else probe allDirs todayStr slug remaining' (i + 1)
  end.

(** [findNextTaskDirName(slug)] *)
Definition findNextTaskDirName (slug : jsstring) : M jsstring :=
  allDirs <- getAllTaskDirs ;;
  let todayStr := Clock.toISODate today in
  match probe allDirs todayStr slug 26 0 with
  | Some candidateName => ret candidateName
  | None => throw (Js.str "Too many tasks for today (max 26)")
  end.

(** [updateCurrentSymlink(taskDir)] *)
Definition updateCurrentSymlink (taskDir : jsstring) : M unit :=
  try_catch unlink_current (fun _ => ret tt) ;;;
  symlink_current taskDir.

(** The number read off one report name in [findNextReportNumber]. *)
Definition numberOf (name : jsstring) : N :=
  match Re.report_number name with
  | Some digits => Js.parseInt digits
  | None => 0
  end.

(** The body of [findNextReportNumber] after [getReportFiles]. *)
Definition nextNumberOf (reportFiles : list jsstring) : N :=
  match reportFiles with
  | [] => 1
  | _ :: _ =>
      let numbers := map numberOf reportFiles in
      let maxNumber := Js.Math_max numbers in
      (maxNumber + 1)%N
  end.

(** [findNextReportNumber(taskDir)] *)
Definition findNextReportNumber (taskDir : jsstring) : M N :=
  reportFiles <- getReportFiles taskDir ;;
  ret (nextNumberOf reportFiles).

(** [findTaskDirBySlug(slug)]: the last directory of the sorted listing
    whose slug is [slug]. *)
Definition findTaskDirBySlug (slug : jsstring) : M (option jsstring) :=
  allDirs <- getAllTaskDirs ;;
  ret (List.find
         (fun dirName =>
            match parseTaskDirName dirName with
            | Some parsed => Js.eqb (slug_of parsed) slug
            | None => false
            end)
         (rev allDirs)).

(** The [try { ... } catch (error)] around every tool call. *)
Definition handle (body : M response) : M response :=
  try_catch body (fun message => ret (IsError message)).

Definition jsonTaskInfo (taskInfo : option TaskInfo) : response :=
  match taskInfo with
  | Some info => TaskInfoResult info
  | None => NullResult
  end.

(** [case 'current_task'] *)
Definition current_task : M response :=
  handle
    (taskDir <- getCurrentTaskDir ;;
     taskInfo <- getTaskInfo taskDir ;;
     match taskInfo with
     | None => ret NoCurrentTask
     | Some info => ret (TaskInfoResult info)
     end).

(** [case 'start_new_task'] *)
Definition start_new_task (task_slug : jsstring) : M response :=
  handle
    (match task_slug with
     | [] => throw (Js.str "task_slug is required")
     | _ :: _ =>
         taskDirName <- findNextTaskDirName task_slug ;;
         mkdir taskDirName ;;;
         updateCurrentSymlink taskDirName ;;;
         taskInfo <- getTaskInfo (Some taskDirName) ;;
         ret (jsonTaskInfo taskInfo)
     end).

(** [case 'switch_task'] *)
Definition switch_task (task_slug : jsstring) : M response :=
  handle
    (match task_slug with
     | [] => throw (Js.str "task_slug is required")
     | _ :: _ =>
         found <- findTaskDirBySlug task_slug ;;
         match found with
         | None => throw (Js.str "Task not found: " ++ task_slug)
         | Some taskDir =>
             updateCurrentSymlink taskDir ;;;
             taskInfo <- getTaskInfo (Some taskDir) ;;
             ret (jsonTaskInfo taskInfo)
         end
     end).

(** [case 'list_recent_tasks'] *)
Definition list_recent_tasks : M response :=
  handle
    (recentDirs <- getRecentTaskDirs ;;
     let slugs :=
       List.filter (fun s => negb (Js.eqb s []))
         (map (fun dirName =>
                 match parseTaskDirName dirName with
                 | Some parsed => slug_of parsed
                 | None => []
                 end)
              recentDirs) in
     ret (RecentTaskSlugs slugs)).

(** The file name formed in [start_new_report_file]. *)
Definition reportFileName (nextNumber : N) (suffix : jsstring) : jsstring :=
  Js.padStart0 3 (Js.String_of nextNumber) ++ Js.str "-" ++ suffix ++ Js.str ".md".

(** [case 'start_new_report_file'] *)
Definition start_new_report_file (suffix : jsstring) : M response :=
  handle
    (match suffix with
     | [] => throw (Js.str "suffix is required")
     | _ :: _ =>
         taskDir <- getCurrentTaskDir ;;
         match taskDir with
         | None | Some [] => throw (Js.str "No current task")
         | Some taskDir =>
             nextNumber <- findNextReportNumber taskDir ;;
             let fileName := reportFileName nextNumber suffix in
             let filePath := Path.join [Js.str "_tasks"; taskDir; fileName] in
             ret (ReportFileToCreate filePath)
         end
     end).

(** [request.params.arguments]: the properties the handlers read, each a
    string or left out; a caller may leave out the whole object. *)
Record arguments := mkArguments {
  arg_task_slug : option jsstring;
  arg_suffix : option jsstring
}.

(** [const { property } = args] when [args] is [undefined]. *)
Definition destructuring_undefined (property : jsstring) : jsstring :=
  Js.str "Cannot destructure property '" ++ property
  ++ Js.str "' of 'args' as it is undefined.".

(** The handler of [CallToolRequestSchema]: [switch (name)] inside the
    [try]/[catch].  A property that is left out is [undefined], which the
    test [!task_slug] treats as the empty string. *)
Definition callTool (name : jsstring) (args : option arguments) : M response :=
  if Js.eqb name (Js.str "current_task") then current_task
  else if Js.eqb name (Js.str "start_new_task") then
    match args with
    | None => handle (throw (destructuring_undefined (Js.str "task_slug")))
    | Some a => start_new_task (default [] (arg_task_slug a))
    end
  else if Js.eqb name (Js.str "switch_task") then
    match args with
    | None => handle (throw (destructuring_undefined (Js.str "task_slug")))
    | Some a => switch_task (default [] (arg_task_slug a))
    end
  else if Js.eqb name (Js.str "list_recent_tasks") then list_recent_tasks
  else if Js.eqb name (Js.str "start_new_report_file") then
    match args with
    | None => handle (throw (destructuring_undefined (Js.str "suffix")))
    | Some a => start_new_report_file (default [] (arg_suffix a))
    end
  else handle (throw (Js.str "Unknown tool: " ++ name)).

End Process.

End Bureau.

(* ===================================================================== *)
(** * Reference definitions *)
(* ===================================================================== *)

(** The notions the statements below compare the code with. *)

Section Reference.

Import Fs Bureau.
Local Open Scope fs_scope.

(** Ascending in the order of string comparison. *)
Definition ascending : list jsstring -> Prop :=
  StronglySorted (fun a b => Js.leb a b = true).

(** The sorted, filtered names of a task directory before the window is
    cut: the catalog in its unbounded form. *)
Definition sortedReports (entries : list jsstring) : list jsstring :=
  Js.sort (List.filter Re.report_file entries).

(** The leading run of decimal digits of a name, and what follows it. *)
Fixpoint leading_digits (s : jsstring) : jsstring * jsstring :=
  match s with
  | c :: s' =>
      if Re.digit c
      then (c :: fst (leading_digits s'), snd (leading_digits s'))
      else ([], s)
  | [] => ([], [])
  end.

(** The report-name grammar as the specification words it:
    [digits+ "-" anything "." "md"], that is [^\d+-.*\.md$]. *)
Definition claimed_report_name (name : jsstring) : bool :=
  match leading_digits name with
  | (_ :: _, c :: rest) => (c =? Re.dash)%N && Re.dot_star_end (Js.str ".md") rest
  | _ => false
  end.

(** The number the specification reads off a name: its leading digit run
    as an integer, 0 when there is none. *)
Definition claimed_report_number (name : jsstring) : N :=
  Js.parseInt (fst (leading_digits name)).

(** The report catalog of the specification in its unbounded form: the
    entries of the task directory that match the grammar, sorted, with no
    window applied. *)
Definition claimed_reports_unbounded (entries : list jsstring) : list jsstring :=
  Js.sort (List.filter claimed_report_name entries).

(** [next_report_number] as the specification words it: the maximum of the
    numbers of the unbounded catalog plus one, or one when it is empty. *)
Definition claimed_next_report_number (entries : list jsstring) : N :=
  match claimed_reports_unbounded entries with
  | [] => 1
  | reports => Js.Math_max (map claimed_report_number reports) + 1
  end%N.

(** The report name [NNN-suffix.md] with a zero-padded three-digit number. *)
Definition numbered (suffix : jsstring) (n : N) : jsstring :=
  Clock.pad 3 n ++ Js.str "-" ++ suffix ++ Js.str ".md".

(** A token that can stand inside one file name and on one line: not empty,
    no line terminator, no slash, no NUL. *)
Definition slug_shaped (s : jsstring) : bool :=
  Re.dot_plus_end s
  && forallb (fun c => negb (c =? Path.slash)%N && negb (c =? 0)%N) s.

(** What the caller of [start_new_report_file] does next: it creates the
    file [fileName] in the task directory [taskDir], and nothing else. *)
Definition createReport (taskDir fileName : jsstring) (st : Fs.t) : Fs.t :=
  match entries_of st !! taskDir with
  | Some (Dir names) =>
      Root (<[taskDir := Dir ({[fileName]} ∪ names)]> (entries_of st))
  | _ => st
  end.

(** The date prefix as the specification words it: no suffix for 0, one
    letter from [b] on for 1 to 24, and [z] with the three-digit ordinal
    [disambiguator + 2] from 25 on. *)
Definition claimed_date_prefix (date : Clock.date) (disambiguator : N) : jsstring :=
  if (disambiguator =? 0)%N then Clock.toISODate date
  else if (disambiguator <=? 24)%N
       then Clock.toISODate date ++ Js.fromCharCode (97 + disambiguator)
       else Clock.toISODate date ++ Js.str "z" ++ Clock.pad 3 (disambiguator + 2).

(** The candidate name of [findNextTaskDirName] for the loop index [i]. *)
Definition candidate (today : Clock.date) (slug : jsstring) (i : N) : jsstring :=
  getDateSuffix today i ++ Js.str "-" ++ slug.

(** The directory catalog of a state: the names of the entries of the root
    that are directories and parse as task directory names, sorted. *)
Definition catalog (st : Fs.t) : list jsstring :=
  Js.sort
    (map fst
       (List.filter
          (fun entry => isDirectory entry
                        && bool_decide (is_Some (parseTaskDirName (fst entry))))
          (map_to_list (entries_of st)))).

(** The calendar date of a date prefix: the numbers of its ten leading
    code units [YYYY-MM-DD], whatever disambiguation suffix follows. *)
Definition dateOfPrefix (prefix : jsstring) : Clock.date :=
  match prefix with
  | y1 :: y2 :: y3 :: y4 :: _ :: m1 :: m2 :: _ :: d1 :: d2 :: _ =>
      Clock.mkDate (Z.of_N (Js.parseInt [y1; y2; y3; y4]))
                   (Js.parseInt [m1; m2]) (Js.parseInt [d1; d2])
  | _ => Clock.mkDate 0 0 0
  end.

(** The recency rule in terms of dates: the calendar date of the directory
    is not before the cutoff day. *)
Definition recent_by_date (cutoff : Clock.date) (dirName : jsstring) : bool :=
  match parseTaskDirName dirName with
  | Some parsed =>
      Clock.not_afterb cutoff (dateOfPrefix (datePrefix parsed))
  | None => false
  end.

(** The label of a task directory name. *)
Definition label_of (dirName : jsstring) : jsstring :=
  match parseTaskDirName dirName with
  | Some parsed => slug_of parsed
  | None => []
  end.

(** A date whose year is printed with four digits. *)
Definition four_digit_year (d : Clock.date) : Prop := (0 <= Clock.year d <= 9999)%Z.

(** A root as a file system holds it: every entry name is a single path
    segment. *)
Definition well_formed (st : Fs.t) : Prop :=
  forall name, is_Some (entries_of st !! name) -> Path.component name = true.

(** The state after [n] calls of [start_new_task] with one label on one day. *)
Definition started (today : Clock.date) (label : jsstring) (n : nat) (st : Fs.t)
  : Fs.t :=
  Nat.iter n (fun s => snd (start_new_task today label s)) st.

(** Non-decreasing report numbers along a listing. *)
Definition numbers_ascending : list jsstring -> Prop :=
  StronglySorted (fun a b => (numberOf a <= numberOf b)%N).

(** A day, a task directory with two reports, and a root whose current
    pointer names it: the inputs of the worked instances below. *)
Definition sample_today : Clock.date := Clock.mkDate 2025 10 31.
Definition sample_task : jsstring := Js.str "2025-10-01-t".
Definition sample_reports : gset jsstring :=
  list_to_set [Js.str "001-a.md"; Js.str "005-b.md"].
Definition sample_root : Fs.t :=
  Root (<[current := Symlink sample_task]> {[ sample_task := Dir sample_reports ]}).

(** A reading of the clock at noon UTC, in a zone of constant offset. *)
Definition sample_timeOfDay : Z := 43200000.
Definition sample_offsetChange : Z := 0.


(** The numbers [from, from+1, ..., from+count-1]. *)
Definition upto (from count : N) : list N :=
  map (fun i => (from + N.of_nat i)%N) (seq 0 (N.to_nat count)).

End Reference.

(* ===================================================================== *)
(** * Facts about strings and sorting *)
(* ===================================================================== *)

Section JsFacts.

Local Open Scope N_scope.

Lemma compare_refl (a : jsstring) : Js.compare a a = Eq.
Proof.
  induction a as [|x a IH]; simpl; [reflexivity|].
  now rewrite N.compare_refl.
Qed.

Lemma compare_eq (a b : jsstring) : Js.compare a b = Eq -> a = b.
Proof.
  revert b; induction a as [|x a IH]; intros [|y b]; simpl; try discriminate.
  - reflexivity.
  - destruct (N.compare_spec x y) as [->|Hlt|Hgt]; try discriminate.
    intros H. now rewrite (IH b H).
Qed.

Lemma compare_antisym (a b : jsstring) :
  Js.compare b a = CompOpp (Js.compare a b).
Proof.
  revert b; induction a as [|x a IH]; intros [|y b]; simpl; try reflexivity.
  rewrite (N.compare_antisym x y).
  destruct (N.compare x y); simpl; auto.
Qed.

Lemma leb_refl (a : jsstring) : Js.leb a a = true.
Proof. unfold Js.leb. now rewrite compare_refl. Qed.

Lemma leb_total (a b : jsstring) : Js.leb a b = false -> Js.leb b a = true.
Proof.
  unfold Js.leb. rewrite (compare_antisym a b).
  destruct (Js.compare a b); simpl; congruence.
Qed.

Lemma leb_trans (a b c : jsstring) :
  Js.leb a b = true -> Js.leb b c = true -> Js.leb a c = true.
Proof.
  unfold Js.leb.
  revert b c; induction a as [|x a IH]; intros [|y b] [|z c]; simpl;
    try congruence.
  destruct (N.compare_spec x y) as [->|Hxy|Hxy];
    destruct (N.compare_spec y z) as [Eyz|Hyz|Hyz];
    try congruence; intros H1 H2; subst;
    try (now apply (IH b c)); try reflexivity;
    (rewrite (proj2 (N.compare_lt_iff _ _)); [reflexivity|lia]).
Qed.

Lemma leb_antisym (a b : jsstring) :
  Js.leb a b = true -> Js.leb b a = true -> a = b.
Proof.
  unfold Js.leb. rewrite (compare_antisym a b).
  destruct (Js.compare a b) eqn:E; simpl; try congruence.
  intros _ _. now apply compare_eq.
Qed.

Lemma geb_leb (a b : jsstring) : Js.geb a b = Js.leb b a.
Proof.
  unfold Js.geb, Js.ltb, Js.leb. rewrite (compare_antisym a b).
  now destruct (Js.compare a b).
Qed.

Lemma eqb_eq (a b : jsstring) : Js.eqb a b = true <-> a = b.
Proof. unfold Js.eqb. apply bool_decide_eq_true. Qed.

Lemma eqb_neq (a b : jsstring) : Js.eqb a b = false <-> a <> b.
Proof. unfold Js.eqb. apply bool_decide_eq_false. Qed.

Lemma includes_In (arr : list jsstring) (x : jsstring) :
  Js.includes arr x = true <-> In x arr.
Proof.
  unfold Js.includes. rewrite existsb_exists. split.
  - intros (y & Hy & E). apply eqb_eq in E. now subst.
  - intros H. exists x. split; [assumption|]. now apply eqb_eq.
Qed.

Lemma insert_perm (x : jsstring) (l : list jsstring) :
  Permutation (Js.insert x l) (x :: l).
Proof.
  induction l as [|y l IH]; simpl; [reflexivity|].
  destruct (Js.leb x y); [reflexivity|].
  rewrite IH. apply perm_swap.
Qed.

Lemma sort_perm (l : list jsstring) : Permutation (Js.sort l) l.
Proof.
  induction l as [|x l IH]; simpl; [reflexivity|].
  rewrite insert_perm. now constructor.
Qed.

Lemma sort_In (l : list jsstring) (x : jsstring) : In x (Js.sort l) <-> In x l.
Proof.
  split; apply Permutation_in; [apply sort_perm|symmetry; apply sort_perm].
Qed.

Lemma sort_length (l : list jsstring) : length (Js.sort l) = length l.
Proof. apply Permutation_length, sort_perm. Qed.

Lemma insert_ascending (x : jsstring) (l : list jsstring) :
  ascending l -> ascending (Js.insert x l).
Proof.
  unfold ascending. induction 1 as [|y l Hl IH Hy]; simpl.
  - repeat constructor.
  - destruct (Js.leb x y) eqn:E.
    + constructor; [now constructor|].
      constructor; [assumption|].
      rewrite List.Forall_forall in *. intros z Hz. eapply leb_trans; eauto.
    + constructor; [assumption|].
      rewrite List.Forall_forall in *. intros z Hz.
      apply (Permutation_in _ (insert_perm x l)) in Hz.
      destruct Hz as [<-|Hz]; [now apply leb_total|auto].
Qed.

Lemma sort_ascending (l : list jsstring) : ascending (Js.sort l).
Proof.
  induction l as [|x l IH]; simpl; [constructor|now apply insert_ascending].
Qed.

(** The last element of an ascending list is above all the others. *)
Lemma ascending_last (l : list jsstring) (x top : jsstring) :
  ascending l -> last l = Some top -> In x l -> Js.leb x top = true.
Proof.
  unfold ascending. induction 1 as [|y l Hl IH Hy]; intros Hlast Hin.
  - destruct Hin.
  - destruct l as [|z l'].
    + simpl in Hlast. injection Hlast as <-.
      destruct Hin as [<-|[]]. apply leb_refl.
    + change (last (y :: z :: l')) with (last (z :: l')) in Hlast.
      destruct Hin as [<-|Hin]; [|now apply IH].
      rewrite List.Forall_forall in Hy. apply Hy.
      apply list_elem_of_In. now apply last_Some_elem_of.
Qed.

End JsFacts.

(* ===================================================================== *)
(** * The report catalog and the report allocator *)
(* ===================================================================== *)

Section Reports.

Import Bureau.
Local Open Scope N_scope.

Lemma digit_bounds (c : N) : Re.digit c = true <-> 48 <= c <= 57.
Proof. unfold Re.digit. rewrite andb_true_iff, !N.leb_le. tauto. Qed.

(** A name kept by the filter starts with three digits and a dash. *)
Lemma report_file_shape (name : jsstring) :
  Re.report_file name = true ->
  exists d1 d2 d3 rest,
    name = d1 :: d2 :: d3 :: Re.dash :: rest /\
    Re.digit d1 = true /\ Re.digit d2 = true /\ Re.digit d3 = true /\
    Re.dot_star_end (Js.str ".md") rest = true.
Proof.
  destruct name as [|d1 [|d2 [|d3 [|c rest]]]]; simpl; try discriminate.
  rewrite !andb_true_iff, N.eqb_eq. intros [[[[H1 H2] H3] ->] H5].
  now exists d1, d2, d3, rest.
Qed.

Lemma numberOf_shape (d1 d2 d3 : N) (rest : jsstring) :
  Re.digit d1 = true -> Re.digit d2 = true -> Re.digit d3 = true ->
  numberOf (d1 :: d2 :: d3 :: Re.dash :: rest)
  = 100 * (d1 - 48) + 10 * (d2 - 48) + (d3 - 48).
Proof.
  intros H1 H2 H3. unfold numberOf, Re.report_number.
  rewrite H1, H2, H3. simpl. unfold Js.parseInt. simpl.
  apply digit_bounds in H1, H2, H3. lia.
Qed.

(** Among names kept by the filter, the order of [sort] is the order of the
    numbers: the three digits are compared first. *)
Lemma numberOf_mono (a b : jsstring) :
  Re.report_file a = true -> Re.report_file b = true ->
  Js.leb a b = true -> numberOf a <= numberOf b.
Proof.
  intros Ha Hb.
  destruct (report_file_shape a Ha) as (a1 & a2 & a3 & ra & -> & A1 & A2 & A3 & _).
  destruct (report_file_shape b Hb) as (b1 & b2 & b3 & rb & -> & B1 & B2 & B3 & _).
  rewrite !numberOf_shape by assumption.
  apply digit_bounds in A1, A2, A3, B1, B2, B3.
  unfold Js.leb. simpl.
  destruct (N.compare_spec a1 b1); [|lia|discriminate].
  destruct (N.compare_spec a2 b2); [|lia|discriminate].
  destruct (N.compare_spec a3 b3); [|lia|discriminate].
  lia.
Qed.

Lemma Math_max_ge (l : list N) (x : N) : In x l -> x <= Js.Math_max l.
Proof.
  induction l as [|y l IH]; simpl; [tauto|].
  intros [->|H]; [lia|]. specialize (IH H). lia.
Qed.

Lemma Math_max_le (l1 l2 : list N) :
  (forall x, In x l1 -> exists y, In y l2 /\ x <= y) ->
  Js.Math_max l1 <= Js.Math_max l2.
Proof.
  induction l1 as [|x l1 IH]; simpl; intros H; [lia|].
  apply N.max_lub.
  - destruct (H x (or_introl eq_refl)) as (y & Hy & Hxy).
    pose proof (Math_max_ge l2 y Hy). lia.
  - apply IH. intros z Hz. apply H. now right.
Qed.

Lemma Math_max_perm (l1 l2 : list N) :
  Permutation l1 l2 -> Js.Math_max l1 = Js.Math_max l2.
Proof.
  intros P. apply N.le_antisymm; apply Math_max_le; intros x Hx; exists x;
    (split; [|lia]).
  - now apply (Permutation_in _ P).
  - now apply (Permutation_in _ (Permutation_sym P)).
Qed.

(** [findNextReportNumber] in one formula: an empty listing has maximum 0. *)
Lemma nextNumberOf_max (reportFiles : list jsstring) :
  nextNumberOf reportFiles = Js.Math_max (map numberOf reportFiles) + 1.
Proof. destruct reportFiles; reflexivity. Qed.

Lemma sortedReports_In (entries : list jsstring) (x : jsstring) :
  In x (sortedReports entries) <-> In x entries /\ Re.report_file x = true.
Proof. unfold sortedReports. now rewrite sort_In, filter_In. Qed.

Lemma reportFilesOf_small (entries : list jsstring) :
  (length (sortedReports entries) <= 50)%nat ->
  reportFilesOf entries = sortedReports entries.
Proof.
  intros H. unfold reportFilesOf. fold (sortedReports entries).
  now rewrite (proj2 (Nat.leb_le _ _) H).
Qed.

Lemma reportFilesOf_large (entries : list jsstring) :
  (50 < length (sortedReports entries))%nat ->
  reportFilesOf entries
  = take 20 (sortedReports entries)
    ++ drop (length (sortedReports entries) - 30) (sortedReports entries).
Proof.
  intros H. unfold reportFilesOf. fold (sortedReports entries).
  destruct (Nat.leb_spec (length (sortedReports entries)) 50); [lia|reflexivity].
Qed.

Lemma reportFilesOf_incl (entries : list jsstring) (x : jsstring) :
  In x (reportFilesOf entries) -> In x (sortedReports entries).
Proof.
  destruct (Nat.le_gt_cases (length (sortedReports entries)) 50) as [H|H].
  - now rewrite reportFilesOf_small.
  - rewrite reportFilesOf_large by assumption.
    rewrite in_app_iff, <- !list_elem_of_In.
    intros [Hx|Hx]; [eapply subseteq_take|eapply subseteq_drop]; eauto.
Qed.

Lemma last_drop_lt {A} (l : list A) (n : nat) :
  (n < length l)%nat -> last (drop n l) = last l.
Proof.
  intros H. rewrite !last_lookup, lookup_drop, length_drop.
  f_equal. lia.
Qed.

(** The window keeps the last name of the sorted listing. *)
Lemma reportFilesOf_last (entries : list jsstring) (top : jsstring) :
  last (sortedReports entries) = Some top -> In top (reportFilesOf entries).
Proof.
  intros Hlast.
  destruct (Nat.le_gt_cases (length (sortedReports entries)) 50) as [H|H].
  - rewrite reportFilesOf_small by assumption.
    apply list_elem_of_In. now apply last_Some_elem_of.
  - rewrite reportFilesOf_large by assumption.
    apply in_or_app. right. apply list_elem_of_In.
    apply last_Some_elem_of. rewrite last_drop_lt; [assumption|lia].
Qed.

(** The window does not change the maximum: the largest number stands last
    in the sorted listing, and the last 30 names are kept. *)
Lemma window_keeps_max (entries : list jsstring) :
  Js.Math_max (map numberOf (reportFilesOf entries))
  = Js.Math_max (map numberOf (sortedReports entries)).
Proof.
  apply N.le_antisymm; apply Math_max_le; intros n Hn;
    apply in_map_iff in Hn; destruct Hn as (x & <- & Hx).
  - exists (numberOf x). split; [|lia].
    apply in_map. now apply reportFilesOf_incl.
  - destruct (last (sortedReports entries)) as [top|] eqn:Hlast.
    + exists (numberOf top). split.
      * apply in_map. now apply reportFilesOf_last.
      * apply numberOf_mono.
        -- now apply sortedReports_In in Hx.
        -- assert (In top (sortedReports entries)) as Ht
             by (apply list_elem_of_In; now apply last_Some_elem_of).
           now apply sortedReports_In in Ht.
        -- eapply ascending_last; eauto. apply sort_ascending.
    + apply last_None in Hlast. rewrite Hlast in Hx. destruct Hx.
Qed.

Lemma nextNumberOf_reportFilesOf (entries : list jsstring) :
  nextNumberOf (reportFilesOf entries)
  = Js.Math_max (map numberOf (List.filter Re.report_file entries)) + 1.
Proof.
  rewrite nextNumberOf_max, window_keeps_max. f_equal.
  apply Math_max_perm, Permutation_map, sort_perm.
Qed.

End Reports.

Section ReportClaims.

Import Fs Bureau.
Local Open Scope N_scope.

Lemma getReportFiles_readdir (taskDir : jsstring) (st : Fs.t) :
  getReportFiles taskDir st =
  match readdir taskDir st with
  | (Ok entries, st') => (Ok (reportFilesOf entries), st')
  | (Throw _, st') => (Ok [], st')
  | (Unmodelled, st') => (Unmodelled, st')
  end.
Proof.
  unfold getReportFiles, try_catch, bind, ret.
  now destruct (readdir taskDir st) as [[entries|e|] st'].
Qed.

Lemma readdir_state (taskDir : jsstring) (st : Fs.t) :
  snd (readdir taskDir st) = st.
Proof.
  unfold readdir. destruct (negb (Path.component taskDir)); [reflexivity|].
  now destruct (entries_of st !! taskDir) as [[]|].
Qed.

Lemma findNextReportNumber_readdir (taskDir : jsstring) (st : Fs.t) :
  findNextReportNumber taskDir st =
  match readdir taskDir st with
  | (Ok entries, st') =>
      (Ok (Js.Math_max (map numberOf (List.filter Re.report_file entries)) + 1), st')
  | (Throw _, st') => (Ok 1, st')
  | (Unmodelled, st') => (Unmodelled, st')
  end.
Proof.
  unfold findNextReportNumber, bind. rewrite getReportFiles_readdir.
  destruct (readdir taskDir st) as [[entries|e|] st']; try reflexivity.
  unfold ret. now rewrite nextNumberOf_reportFilesOf.
Qed.

(** C4.  On the task directory that holds [001-a.md], [002-b.md] and
    [42-c.md] the window of 50 names cuts nothing, and yet
    [findNextReportNumber] does not return the value computed from the full
    report listing: the catalog [^\d+-.*\.md$] lists the three names and
    gives 43, while the code lists two of them and returns 3. *)
Theorem C4_next_number_differs_from_full_listing :
  let taskDir := Js.str "2025-10-01-t" in
  let names := [Js.str "001-a.md"; Js.str "002-b.md"; Js.str "42-c.md"] in
  let st := Root {[ taskDir := Dir (list_to_set names) ]} in
  exists entries,
    fst (readdir taskDir st) = Ok entries /\
    claimed_reports_unbounded entries = names /\
    claimed_next_report_number entries = 43 /\
    fst (getReportFiles taskDir st) = Ok [Js.str "001-a.md"; Js.str "002-b.md"] /\
    fst (findNextReportNumber taskDir st) = Ok 3.
Proof. vm_compute. eexists. repeat split; reflexivity. Qed.

(** C6.  The bounded window: a sorted, filtered listing of at most 50 names
    is returned whole; a longer one is cut to its first 20 and its last 30
    names, 50 in all, in their order.  For the reports 001 to 100 this gives
    001 to 020 followed by 071 to 100. *)
Theorem C6_bounded_window (entries : list jsstring) :
  ((length (sortedReports entries) <= 50)%nat ->
     reportFilesOf entries = sortedReports entries) /\
  ((50 < length (sortedReports entries))%nat ->
     exists first middle final,
       sortedReports entries = first ++ middle ++ final /\
       length first = 20%nat /\ length final = 30%nat /\
       reportFilesOf entries = first ++ final /\
       length (reportFilesOf entries) = 50%nat) /\
  reportFilesOf (map (numbered (Js.str "file")) (rev (upto 1 100)))
  = map (numbered (Js.str "file")) (upto 1 20 ++ upto 71 30).
Proof.
  split; [apply reportFilesOf_small|]. split; [|vm_compute; reflexivity].
  intros H. set (s := sortedReports entries) in *.
  exists (take 20 s), (drop 20 (take (length s - 30) s)), (drop (length s - 30) s).
  assert (length (take 20 s) = 20%nat) as L1 by (rewrite length_take; lia).
  assert (length (drop (length s - 30) s) = 30%nat) as L2
    by (rewrite length_drop; lia).
  repeat split; try assumption.
  - rewrite <- (take_drop (length s - 30) s) at 1.
    rewrite app_assoc. f_equal.
    rewrite <- (take_drop 20 (take (length s - 30) s)) at 1. f_equal.
    rewrite take_take. f_equal. lia.
  - now apply reportFilesOf_large.
  - rewrite reportFilesOf_large by assumption. fold s.
    rewrite length_app, L1, L2. reflexivity.
Qed.

(** C1.  The filter of [getReportFiles] keeps names of exactly three digits:
    [42-c.md] is dropped from the listing, and for the reports [001-a.md],
    [002-b.md], [42-c.md] the next number is 3. *)
Theorem C1_two_digit_report_not_counted :
  let taskDir := Js.str "2025-10-01-t" in
  let names := [Js.str "001-a.md"; Js.str "002-b.md"; Js.str "42-c.md"] in
  let st := Root {[ taskDir := Dir (list_to_set names) ]} in
  Re.report_file (Js.str "42-c.md") = false /\
  Re.report_file (Js.str "1234-d.md") = false /\
  fst (getReportFiles taskDir st) = Ok [Js.str "001-a.md"; Js.str "002-b.md"] /\
  fst (findNextReportNumber taskDir st) = Ok 3.
Proof. vm_compute. repeat split; reflexivity. Qed.

(** [padStart(3, '0')] of a number below 1000: three digits that read back
    as the number (checked on each of the thousand numbers). *)
Lemma pad3_table :
  forallb
    (fun n => match Clock.pad 3 n with
              | [d1; d2; d3] =>
                  Re.digit d1 && Re.digit d2 && Re.digit d3
                  && (100 * (d1 - 48) + 10 * (d2 - 48) + (d3 - 48) =? n)
              | _ => false
              end)
    (upto 0 1000) = true.
Proof. vm_compute. reflexivity. Qed.

Lemma upto_In (from count n : N) :
  from <= n < from + count -> In n (upto from count).
Proof.
  intros H. unfold upto. apply in_map_iff.
  exists (N.to_nat (n - from)). split; [lia|]. apply in_seq. lia.
Qed.

Lemma pad3_small (n : N) :
  n < 1000 ->
  exists d1 d2 d3,
    Clock.pad 3 n = [d1; d2; d3] /\
    Re.digit d1 = true /\ Re.digit d2 = true /\ Re.digit d3 = true /\
    100 * (d1 - 48) + 10 * (d2 - 48) + (d3 - 48) = n.
Proof.
  intros H. pose proof pad3_table as T. rewrite forallb_forall in T.
  specialize (T n (upto_In 0 1000 n ltac:(lia))).
  destruct (Clock.pad 3 n) as [|d1 [|d2 [|d3 [|]]]]; try discriminate.
  rewrite !andb_true_iff, N.eqb_eq in T. exists d1, d2, d3. tauto.
Qed.

Lemma dot_star_end_app (tail s : jsstring) :
  forallb Re.dot s = true -> Re.dot_star_end tail (s ++ tail) = true.
Proof.
  induction s as [|c s IH]; cbn [forallb app].
  - intros _. destruct tail; cbn [Re.dot_star_end];
      now rewrite (proj2 (eqb_eq _ _) eq_refl).
  - rewrite andb_true_iff. intros [Hc Hs]. cbn [Re.dot_star_end].
    rewrite Hc, (IH Hs). apply orb_true_r.
Qed.

Lemma slug_shaped_dots (s : jsstring) :
  slug_shaped s = true -> s <> [] /\ forallb Re.dot s = true.
Proof.
  unfold slug_shaped, Re.dot_plus_end. rewrite andb_true_iff.
  destruct s; [intros [? _]; discriminate|]. intros [H _]. now split.
Qed.

(** The proposed name passes the filter and carries the proposed number. *)
Lemma reportFileName_report (n : N) (suffix : jsstring) :
  n < 1000 -> forallb Re.dot suffix = true ->
  Re.report_file (reportFileName n suffix) = true /\
  numberOf (reportFileName n suffix) = n.
Proof.
  intros Hn Hs. unfold reportFileName.
  destruct (pad3_small n Hn) as (d1 & d2 & d3 & E & D1 & D2 & D3 & V).
  change (Js.padStart0 3 (Js.String_of n)) with (Clock.pad 3 n). rewrite E.
  change ([d1; d2; d3] ++ Js.str "-" ++ suffix ++ Js.str ".md")
    with (d1 :: d2 :: d3 :: Re.dash :: suffix ++ Js.str ".md").
  split.
  - unfold Re.report_file. rewrite D1, D2, D3, N.eqb_refl. simpl.
    now apply dot_star_end_app.
  - rewrite numberOf_shape by assumption. lia.
Qed.

Lemma Math_max_attained (l : list N) (m : N) :
  In m l -> (forall x, In x l -> x <= m) -> Js.Math_max l = m.
Proof.
  intros Hin Hub. apply N.le_antisymm.
  - transitivity (Js.Math_max [m]); [|simpl; lia].
    apply Math_max_le. intros x Hx. exists m. split; [now left|auto].
  - now apply Math_max_ge.
Qed.

Lemma findNextReportNumber_dir (taskDir : jsstring) (st : Fs.t)
    (names : gset jsstring) :
  Path.component taskDir = true ->
  entries_of st !! taskDir = Some (Dir names) ->
  findNextReportNumber taskDir st
  = (Ok (Js.Math_max (map numberOf (List.filter Re.report_file (elements names))) + 1),
     st).
Proof.
  intros Hc Hd. rewrite findNextReportNumber_readdir. unfold readdir.
  now rewrite Hc, Hd.
Qed.

(** A name that starts with a digit and holds neither slash nor NUL is a
    single directory entry name. *)
Lemma component_intro (d : N) (rest : jsstring) :
  Re.digit d = true ->
  forallb (fun c => negb (c =? Path.slash) && negb (c =? 0)) rest = true ->
  Path.component (d :: rest) = true.
Proof.
  intros Hd Hrest. apply digit_bounds in Hd. unfold Path.component.
  apply andb_true_iff; split; [apply andb_true_iff; split;
                               [apply andb_true_iff; split|]|].
  - apply negb_true_iff, eqb_neq. discriminate.
  - cbn [forallb]. rewrite Hrest.
    rewrite !andb_true_r, !andb_true_iff, !negb_true_iff, !N.eqb_neq.
    unfold Path.slash. lia.
  - apply negb_true_iff, eqb_neq. unfold Path.dot_seg.
    intros E. injection E as E _. lia.
  - apply negb_true_iff, eqb_neq. unfold Path.dotdot_seg.
    intros E. injection E as E _. lia.
Qed.

Lemma digit_plain (c : N) :
  Re.digit c = true -> negb (c =? Path.slash) && negb (c =? 0) = true.
Proof.
  intros H. apply digit_bounds in H.
  rewrite andb_true_iff, !negb_true_iff, !N.eqb_neq. unfold Path.slash. lia.
Qed.

Lemma slug_shaped_plain (s : jsstring) :
  slug_shaped s = true ->
  forallb (fun c => negb (c =? Path.slash) && negb (c =? 0)) s = true.
Proof. unfold slug_shaped. rewrite andb_true_iff. tauto. Qed.

Lemma reportFileName_component (n : N) (suffix : jsstring) :
  n < 1000 -> slug_shaped suffix = true ->
  Path.component (reportFileName n suffix) = true.
Proof.
  intros Hn Hs. unfold reportFileName.
  destruct (pad3_small n Hn) as (d1 & d2 & d3 & E & D1 & D2 & D3 & _).
  change (Js.padStart0 3 (Js.String_of n)) with (Clock.pad 3 n). rewrite E.
  change ([d1; d2; d3] ++ Js.str "-" ++ suffix ++ Js.str ".md")
    with (d1 :: [d2; d3; Re.dash] ++ suffix ++ Js.str ".md").
  apply component_intro; [assumption|].
  rewrite !forallb_app, (slug_shaped_plain suffix Hs).
  cbn [forallb]. now rewrite (digit_plain d2 D2), (digit_plain d3 D3).
Qed.

(** C10.  Below the width boundary the allocation closes on itself: when
    the current task directory holds no report numbered above 998 and the
    suffix is not empty and holds no line terminator, slash or NUL, the
    name proposed by [start_new_report_file] passes the filter of the
    report catalog, and once the caller has created exactly that file the
    next number is the proposed number plus one. *)
Theorem C10_proposed_report_advances_number
    (cwd taskDir suffix : jsstring) (names : gset jsstring) (st : Fs.t) :
  fst (getCurrentTaskDir cwd st) = Ok (Some taskDir) ->
  Path.component taskDir = true ->
  entries_of st !! taskDir = Some (Dir names) ->
  (forall name, name ∈ names -> Re.report_file name = true -> numberOf name <= 998) ->
  slug_shaped suffix = true ->
  exists n,
    let fileName := reportFileName n suffix in
    fst (findNextReportNumber taskDir st) = Ok n /\
    fst (start_new_report_file cwd suffix st)
    = Ok (ReportFileToCreate (Path.join [Js.str "_tasks"; taskDir; fileName])) /\
    Path.component fileName = true /\
    Re.report_file fileName = true /\
    fst (findNextReportNumber taskDir (createReport taskDir fileName st))
    = Ok (n + 1).
Proof.
  intros Hcur Hc Hd Hmax Hs.
  set (old := List.filter Re.report_file (elements names)).
  set (n := Js.Math_max (map numberOf old) + 1).
  assert (n < 1000) as Hn.
  { unfold n. assert (Js.Math_max (map numberOf old) <= Js.Math_max [998]) as H.
    { apply Math_max_le. intros x Hx. exists 998. split; [now left|].
      apply in_map_iff in Hx. destruct Hx as (name & <- & Hname).
      apply filter_In in Hname. destruct Hname as [Hin Hrf].
      apply Hmax; [|assumption].
      now apply elem_of_elements, list_elem_of_In. }
    simpl in H. lia. }
  destruct (slug_shaped_dots suffix Hs) as [Hne Hdots].
  destruct (reportFileName_report n suffix Hn Hdots) as [Hrf Hnum].
  exists n. cbn zeta. repeat split.
  - now rewrite (findNextReportNumber_dir taskDir st names).
  - unfold start_new_report_file, handle, try_catch.
    destruct suffix as [|c suffix]; [congruence|].
    unfold bind at 1.
    destruct (getCurrentTaskDir cwd st) as [[r|e|] st'] eqn:E;
      simpl in Hcur; try discriminate.
    injection Hcur as ->.
    assert (st' = st) as ->.
    { revert E. unfold getCurrentTaskDir, try_catch, bind, ret, readlink_current.
      destruct st as [|m]; [now intros [= _ <-]|].
      destruct (m !! current) as [[]|]; now intros [= _ <-]. }
    destruct taskDir as [|t taskDir]; [discriminate|].
    unfold bind. rewrite (findNextReportNumber_dir _ st names Hc Hd).
    reflexivity.
  - now apply reportFileName_component.
  - assumption.
  - unfold createReport. rewrite Hd.
    erewrite findNextReportNumber_dir;
      [|assumption|cbn [entries_of]; apply lookup_insert_eq].
    cbn [fst]. do 2 f_equal.
    apply Math_max_attained.
    + apply in_map_iff. exists (reportFileName n suffix). split; [assumption|].
      apply filter_In. split; [|assumption].
      apply list_elem_of_In, elem_of_elements. set_solver.
    + intros x Hx. apply in_map_iff in Hx. destruct Hx as (name & <- & Hname).
      apply filter_In in Hname. destruct Hname as [Hin Hrf'].
      apply list_elem_of_In, elem_of_elements, elem_of_union in Hin.
      destruct Hin as [Hin|Hin].
      * apply elem_of_singleton in Hin. subst name. lia.
      * assert (numberOf name <= Js.Math_max (map numberOf old)) as H.
        { apply Math_max_ge, in_map, filter_In. split; [|assumption].
          now apply list_elem_of_In, elem_of_elements. }
        unfold n. lia.
Qed.

End ReportClaims.

(* ===================================================================== *)
(** * The name codec *)
(* ===================================================================== *)

Section Codec.

Import Fs Bureau.
Local Open Scope N_scope.

(** [padStart(2, '0')] below 100 and [padStart(4, '0')] below 10000: digits
    that read back as the number (checked on each number). *)
Lemma pad2_table :
  forallb
    (fun n => match Clock.pad 2 n with
              | [d1; d2] =>
                  Re.digit d1 && Re.digit d2 && (Js.parseInt [d1; d2] =? n)
              | _ => false
              end)
    (upto 0 100) = true.
Proof. vm_compute. reflexivity. Qed.

Lemma pad4_table :
  let digits := [0; 1; 2; 3; 4; 5; 6; 7; 8; 9] in
  forallb (fun a => forallb (fun b => forallb (fun c => forallb (fun d =>
    match Clock.pad 4 (1000 * a + 100 * b + 10 * c + d) with
    | [d1; d2; d3; d4] =>
        (d1 =? 48 + a) && (d2 =? 48 + b) && (d3 =? 48 + c) && (d4 =? 48 + d)
    | _ => false
    end) digits) digits) digits) digits = true.
Proof. vm_cast_no_check (eq_refl true). Qed.

Lemma below_ten (a : N) : a < 10 -> In a [0; 1; 2; 3; 4; 5; 6; 7; 8; 9].
Proof.
  intros H.
  assert (a = 0 \/ a = 1 \/ a = 2 \/ a = 3 \/ a = 4 \/ a = 5 \/ a = 6 \/ a = 7
          \/ a = 8 \/ a = 9) as E by lia.
  cbn [In]. intuition auto.
Qed.

Lemma pad2_small (n : N) :
  n < 100 ->
  exists d1 d2,
    Clock.pad 2 n = [d1; d2] /\ Re.digit d1 = true /\ Re.digit d2 = true /\
    Js.parseInt [d1; d2] = n.
Proof.
  intros H. pose proof pad2_table as T. rewrite forallb_forall in T.
  specialize (T n (upto_In 0 100 n ltac:(lia))).
  destruct (Clock.pad 2 n) as [|d1 [|d2 [|]]]; try discriminate.
  rewrite !andb_true_iff, N.eqb_eq in T. exists d1, d2. tauto.
Qed.

Lemma pad4_small (n : N) :
  n < 10000 ->
  exists d1 d2 d3 d4,
    Clock.pad 4 n = [d1; d2; d3; d4] /\
    Re.digit d1 = true /\ Re.digit d2 = true /\ Re.digit d3 = true /\
    Re.digit d4 = true /\ Js.parseInt [d1; d2; d3; d4] = n.
Proof.
  intros H.
  pose proof (N.div_mod n 10 ltac:(lia)) as E1.
  pose proof (N.mod_lt n 10 ltac:(lia)) as B1.
  pose proof (N.div_mod (n / 10) 10 ltac:(lia)) as E2.
  pose proof (N.mod_lt (n / 10) 10 ltac:(lia)) as B2.
  pose proof (N.div_mod (n / 10 / 10) 10 ltac:(lia)) as E3.
  pose proof (N.mod_lt (n / 10 / 10) 10 ltac:(lia)) as B3.
  set (d := n mod 10) in *. set (c := (n / 10) mod 10) in *.
  set (b := (n / 10 / 10) mod 10) in *. set (a := n / 10 / 10 / 10) in *.
  assert (a < 10) as B4 by lia.
  assert (n = 1000 * a + 100 * b + 10 * c + d) as En by lia.
  clearbody a b c d. clear E1 E2 E3 H. subst n.
  pose proof pad4_table as T. cbv zeta in T.
  rewrite forallb_forall in T. specialize (T a (below_ten a B4)).
  rewrite forallb_forall in T. specialize (T b (below_ten b B3)).
  rewrite forallb_forall in T. specialize (T c (below_ten c B2)).
  rewrite forallb_forall in T. specialize (T d (below_ten d B1)).
  destruct (Clock.pad 4 _) as [|d1 [|d2 [|d3 [|d4 [|]]]]]; try discriminate.
  rewrite !andb_true_iff, !N.eqb_eq in T.
  destruct T as [[[-> ->] ->] ->].
  exists (48 + a), (48 + b), (48 + c), (48 + d).
  split; [reflexivity|].
  repeat (split; [apply digit_bounds; lia|]).
  unfold Js.parseInt. cbn [fold_left]. lia.
Qed.

(** The shape of [YYYY-MM-DD]. *)
Lemma toISODate_shape (d : Clock.date) :
  four_digit_year d -> Clock.month d < 100 -> Clock.day d < 100 ->
  exists y1 y2 y3 y4 m1 m2 d1 d2,
    Clock.toISODate d = [y1; y2; y3; y4; Re.dash; m1; m2; Re.dash; d1; d2] /\
    (Re.digit y1 && Re.digit y2 && Re.digit y3 && Re.digit y4
     && Re.digit m1 && Re.digit m2 && Re.digit d1 && Re.digit d2 = true) /\
    Z.of_N (Js.parseInt [y1; y2; y3; y4]) = Clock.year d /\
    Js.parseInt [m1; m2] = Clock.month d /\
    Js.parseInt [d1; d2] = Clock.day d.
Proof.
  intros Hy Hm Hd. unfold four_digit_year in Hy. unfold Clock.toISODate.
  rewrite (proj2 (andb_true_iff _ _)) by (split; apply Z.leb_le; lia).
  destruct (pad4_small (Z.to_N (Clock.year d)) ltac:(lia))
    as (y1 & y2 & y3 & y4 & -> & Y1 & Y2 & Y3 & Y4 & YV).
  destruct (pad2_small (Clock.month d) Hm) as (m1 & m2 & -> & M1 & M2 & MV).
  destruct (pad2_small (Clock.day d) Hd) as (d1 & d2 & -> & D1 & D2 & DV).
  exists y1, y2, y3, y4, m1, m2, d1, d2.
  rewrite Y1, Y2, Y3, Y4, M1, M2, D1, D2, YV, MV, DV.
  repeat split. lia.
Qed.

Lemma valid_small (d : Clock.date) :
  Clock.valid d -> Clock.month d < 100 /\ Clock.day d < 100.
Proof.
  unfold Clock.valid, Clock.days_in_month. intros [Hm Hd].
  split; [lia|].
  revert Hd.
  repeat match goal with |- context [if ?b then _ else _] => destruct b end; lia.
Qed.

(** The pattern [\d{4}-\d{2}-\d{2}] reads a printed date back. *)
Lemma iso_date_toISODate (d : Clock.date) (rest : jsstring) :
  four_digit_year d -> Clock.valid d ->
  Re.iso_date (Clock.toISODate d ++ rest) = Some (Clock.toISODate d, rest).
Proof.
  intros Hy Hv. destruct (valid_small d Hv) as [Hm Hd].
  destruct (toISODate_shape d Hy Hm Hd)
    as (y1 & y2 & y3 & y4 & m1 & m2 & d1 & d2 & -> & D & _).
  cbn [app Re.iso_date]. rewrite !andb_true_iff in D.
  destruct D as [[[[[[[-> ->] ->] ->] ->] ->] ->] ->].
  unfold Re.dash. now rewrite N.eqb_refl.
Qed.

(** The letter of a disambiguator from 1 to 25. *)
Lemma letter_b_to_z (i : N) :
  1 <= i <= 25 ->
  Js.fromCharCode (97 + i) = [97 + i] /\ Re.b_to_z (97 + i) = true.
Proof.
  intros H. split.
  - unfold Js.fromCharCode. rewrite N.mod_small by lia. reflexivity.
  - unfold Re.b_to_z. apply andb_true_iff. split; apply N.leb_le; lia.
Qed.

Lemma b_to_z_dash : Re.b_to_z Re.dash = false.
Proof. reflexivity. Qed.

Lemma parse_plain (d : Clock.date) (label : jsstring) :
  four_digit_year d -> Clock.valid d -> Re.dot_plus_end label = true ->
  Re.task_dir (Clock.toISODate d ++ Js.str "-" ++ label)
  = Some (Clock.toISODate d, label).
Proof.
  intros Hy Hv Hl. unfold Re.task_dir.
  rewrite iso_date_toISODate by assumption.
  change (Js.str "-" ++ label) with (Re.dash :: label). cbv beta iota.
  now rewrite b_to_z_dash, N.eqb_refl, Hl.
Qed.

Lemma parse_letter (d : Clock.date) (c : N) (label : jsstring) :
  four_digit_year d -> Clock.valid d -> Re.b_to_z c = true ->
  Re.dot_plus_end label = true ->
  Re.task_dir ((Clock.toISODate d ++ [c]) ++ Js.str "-" ++ label)
  = Some (Clock.toISODate d ++ [c], label).
Proof.
  intros Hy Hv Hc Hl. unfold Re.task_dir.
  rewrite <- app_assoc, iso_date_toISODate by assumption.
  change ([c] ++ Js.str "-" ++ label) with (c :: Re.dash :: label).
  cbv beta iota. now rewrite Hc, N.eqb_refl, Hl.
Qed.

(** C8.  Round trip: for a date printed with a four-digit year, a
    disambiguator that [findNextTaskDirName] can reach (0 to 25) and a label
    that is not empty and stands on one line, the directory name parses
    back into its date prefix and its label. *)
Theorem C8_parse_format_round_trip (today : Clock.date) (i : N) (label : jsstring) :
  Clock.valid today -> four_digit_year today -> i <= 25 ->
  Re.dot_plus_end label = true ->
  parseTaskDirName (getDateSuffix today i ++ Js.str "-" ++ label)
  = Some (getDateSuffix today i, label).
Proof.
  intros Hv Hy Hi Hl. unfold parseTaskDirName, getDateSuffix.
  destruct (N.eqb_spec i 0) as [->|Hne].
  - now apply parse_plain.
  - destruct (letter_b_to_z i ltac:(lia)) as [-> Hc].
    now apply parse_letter.
Qed.

End Codec.

(* ===================================================================== *)
(** * The directory catalog and the current pointer *)
(* ===================================================================== *)

Section Tasks.

Import Fs Bureau.
Local Open Scope N_scope.

Lemma getAllTaskDirs_catalog (st : Fs.t) :
  getAllTaskDirs st = (Ok (catalog st), Root (entries_of st)).
Proof. reflexivity. Qed.

Lemma catalog_In (st : Fs.t) (name : jsstring) :
  In name (catalog st) <->
  (exists names, entries_of st !! name = Some (Dir names)) /\
  is_Some (parseTaskDirName name).
Proof.
  unfold catalog. rewrite sort_In, in_map_iff. split.
  - intros ([name' node] & <- & H). apply filter_In in H. destruct H as [Hin Hf].
    apply list_elem_of_In, elem_of_map_to_list in Hin.
    apply andb_true_iff in Hf. destruct Hf as [Hd Hp].
    apply bool_decide_eq_true in Hp. split; [|exact Hp].
    destruct node; try discriminate. now exists names.
  - intros [[names Hn] Hp]. exists (name, Dir names). split; [reflexivity|].
    apply filter_In. split.
    + now apply list_elem_of_In, elem_of_map_to_list.
    + apply andb_true_iff. split; [reflexivity|]. now apply bool_decide_eq_true.
Qed.

Lemma catalog_absent (st : Fs.t) (name : jsstring) :
  entries_of st !! name = None -> ~ In name (catalog st).
Proof. intros H Hin. apply catalog_In in Hin. destruct Hin as [[? E] _]. congruence. Qed.

(** The catalog does not depend on whether the root had to be created. *)
Lemma catalog_Root (st : Fs.t) : catalog (Root (entries_of st)) = catalog st.
Proof. reflexivity. Qed.

Lemma startsWith_app (p s : jsstring) : Js.startsWith (p ++ s) p = true.
Proof.
  induction p as [|c p IH]; [now destruct s|].
  cbn [app Js.startsWith]. now rewrite N.eqb_refl, IH.
Qed.

Lemma getDateSuffix_startsWith (today : Clock.date) (i : N) :
  Js.startsWith (getDateSuffix today i) (Clock.toISODate today) = true.
Proof.
  unfold getDateSuffix. destruct (i =? 0).
  - rewrite <- (app_nil_r (Clock.toISODate today)) at 1. apply startsWith_app.
  - apply startsWith_app.
Qed.

Lemma includes_false (arr : list jsstring) (x : jsstring) :
  Js.includes arr x = false <-> ~ In x arr.
Proof.
  rewrite <- includes_In. destruct (Js.includes arr x); split; congruence.
Qed.

(** The loop of [findNextTaskDirName] returns the first candidate that is
    not in the listing, and gives up after the last index. *)
Lemma probe_first_free (today : Clock.date) (allDirs : list jsstring)
    (slug : jsstring) (remaining : nat) (i k : N) :
  i <= k < i + N.of_nat remaining ->
  (forall j, i <= j < k -> In (candidate today slug j) allDirs) ->
  ~ In (candidate today slug k) allDirs ->
  probe today allDirs (Clock.toISODate today) slug remaining i
  = Some (candidate today slug k).
Proof.
  revert i. induction remaining as [|remaining IH]; intros i Hk Hbelow Hfree;
    [lia|].
  cbn [probe]. rewrite getDateSuffix_startsWith. cbn [negb].
  fold (candidate today slug i).
  destruct (N.eq_dec i k) as [->|Hne].
  - now rewrite (proj2 (includes_false _ _) Hfree).
  - rewrite (proj2 (includes_In _ _) (Hbelow i ltac:(lia))). cbn [negb].
    apply IH; [lia| |assumption]. intros j Hj. apply Hbelow. lia.
Qed.

Lemma probe_all_taken (today : Clock.date) (allDirs : list jsstring)
    (slug : jsstring) (remaining : nat) (i : N) :
  (forall j, i <= j < i + N.of_nat remaining -> In (candidate today slug j) allDirs) ->
  probe today allDirs (Clock.toISODate today) slug remaining i = None.
Proof.
  revert i. induction remaining as [|remaining IH]; intros i Htaken;
    [reflexivity|].
  cbn [probe]. rewrite getDateSuffix_startsWith. cbn [negb].
  fold (candidate today slug i).
  rewrite (proj2 (includes_In _ _) (Htaken i ltac:(lia))). cbn [negb].
  apply IH. intros j Hj. apply Htaken. lia.
Qed.

Lemma probe_bounded (today : Clock.date) (allDirs : list jsstring)
    (slug todayStr : jsstring) (remaining : nat) (i : N) (name : jsstring) :
  probe today allDirs todayStr slug remaining i = Some name ->
  exists k, i <= k < i + N.of_nat remaining /\ name = candidate today slug k.
Proof.
  revert i. induction remaining as [|remaining IH]; intros i; [discriminate|].
  cbn [probe].
  destruct (negb (Js.startsWith (getDateSuffix today i) todayStr)); [discriminate|].
  destruct (negb (Js.includes allDirs _)).
  - intros [= <-]. exists i. split; [lia|reflexivity].
  - intros H. destruct (IH _ H) as (k & Hk & ->). exists k. split; [lia|reflexivity].
Qed.

(** The candidate names are single entry names that parse back. *)
Lemma candidate_parse (today : Clock.date) (label : jsstring) (k : N) :
  Clock.valid today -> four_digit_year today -> k <= 25 ->
  slug_shaped label = true ->
  parseTaskDirName (candidate today label k) = Some (getDateSuffix today k, label).
Proof.
  intros Hv Hy Hk Hs. unfold candidate, parseTaskDirName, getDateSuffix.
  apply andb_true_iff in Hs. destruct Hs as [Hl _].
  destruct (N.eqb_spec k 0) as [->|Hne].
  - now apply parse_plain.
  - destruct (letter_b_to_z k ltac:(lia)) as [-> Hc]. now apply parse_letter.
Qed.

Lemma candidate_component (today : Clock.date) (label : jsstring) (k : N) :
  Clock.valid today -> four_digit_year today -> k <= 25 ->
  slug_shaped label = true ->
  Path.component (candidate today label k) = true.
Proof.
  intros Hv Hy Hk Hs. destruct (valid_small today Hv) as [Hm Hd].
  destruct (toISODate_shape today Hy Hm Hd)
    as (y1 & y2 & y3 & y4 & m1 & m2 & d1 & d2 & E & D & _).
  rewrite !andb_true_iff in D.
  destruct D as [[[[[[[Y1 Y2] Y3] Y4] M1] M2] D1] D2].
  pose proof (slug_shaped_plain label Hs) as Hp.
  unfold candidate, getDateSuffix. rewrite E.
  destruct (N.eqb_spec k 0) as [->|Hne].
  - cbn [app]. apply component_intro; [assumption|].
    cbn [forallb Js.str]. change (Js.str "-" ++ label) with (45 :: label).
    cbn [forallb].
    now rewrite Hp, (digit_plain y2), (digit_plain y3), (digit_plain y4),
      (digit_plain m1), (digit_plain m2), (digit_plain d1), (digit_plain d2).
  - destruct (letter_b_to_z k ltac:(lia)) as [-> Hc].
    cbn [app]. apply component_intro; [assumption|].
    change (Js.str "-" ++ label) with (45 :: label). cbn [forallb].
    rewrite Hp, (digit_plain y2), (digit_plain y3), (digit_plain y4),
      (digit_plain m1), (digit_plain m2), (digit_plain d1), (digit_plain d2)
      by assumption.
    change (negb (Re.dash =? Path.slash) && negb (Re.dash =? 0)) with true.
    change (negb (45 =? Path.slash) && negb (45 =? 0)) with true.
    cbn [andb]. rewrite andb_true_r.
    apply andb_true_iff; split; apply negb_true_iff, N.eqb_neq;
      unfold Path.slash; lia.
Qed.

Lemma component_target (name : jsstring) :
  Path.component name = true ->
  Js.eqb name [] || existsb (N.eqb 0) name = false.
Proof.
  unfold Path.component. rewrite !andb_true_iff.
  intros [[[Hne Hall] _] _]. apply negb_true_iff in Hne. rewrite Hne. cbn [orb].
  induction name as [|c name IH]; [reflexivity|].
  cbn [forallb existsb] in *. apply andb_true_iff in Hall.
  destruct Hall as [Hc Hall]. apply andb_true_iff in Hc. destruct Hc as [_ Hc].
  apply negb_true_iff in Hc. rewrite N.eqb_sym, Hc. cbn [orb].
  destruct name; [reflexivity|]. now apply IH.
Qed.

Lemma component_not_current (name : jsstring) (d : N) (rest : jsstring) :
  name = d :: rest -> Re.digit d = true -> name <> current.
Proof.
  intros -> Hd E. apply digit_bounds in Hd.
  injection E as E _. lia.
Qed.

Lemma candidate_not_current (today : Clock.date) (label : jsstring) (k : N) :
  Clock.valid today -> four_digit_year today ->
  candidate today label k <> current.
Proof.
  intros Hv Hy. destruct (valid_small today Hv) as [Hm Hd].
  destruct (toISODate_shape today Hy Hm Hd)
    as (y1 & y2 & y3 & y4 & m1 & m2 & d1 & d2 & E & D & _).
  rewrite !andb_true_iff in D.
  destruct D as [[[[[[[Y1 Y2] Y3] Y4] M1] M2] D1] D2].
  unfold candidate, getDateSuffix. rewrite E.
  destruct (k =? 0); cbn [app]; eapply component_not_current; eauto.
Qed.

(** Replacing the pointer, when no directory stands in its place. *)
Lemma updateCurrentSymlink_ok (taskDir : jsstring) (m : gmap jsstring node) :
  Path.component taskDir = true ->
  (forall names, m !! current <> Some (Dir names)) ->
  updateCurrentSymlink taskDir (Root m)
  = (Ok tt, Root (<[current := Symlink taskDir]> (delete current m))).
Proof.
  intros Hc Hnd. unfold updateCurrentSymlink, bind, try_catch, unlink_current.
  destruct (m !! current) as [[names| |target]|] eqn:E.
  - now destruct (Hnd names).
  - unfold symlink_current. rewrite (component_target _ Hc), lookup_delete_eq.
    reflexivity.
  - unfold symlink_current. rewrite (component_target _ Hc), lookup_delete_eq.
    reflexivity.
  - unfold ret, symlink_current. rewrite (component_target _ Hc), E.
    now rewrite delete_id.
Qed.

(** The task info of a directory that is there. *)
Lemma getTaskInfo_dir (taskDir prefix slug : jsstring) (names : gset jsstring)
    (st : Fs.t) :
  Path.component taskDir = true ->
  parseTaskDirName taskDir = Some (prefix, slug) ->
  entries_of st !! taskDir = Some (Dir names) ->
  getTaskInfo (Some taskDir) st
  = (Ok (Some {| task_slug := slug;
                 reports_dir := Path.join [Js.str "_tasks"; taskDir];
                 report_file_names := reportFilesOf (elements names) |}), st).
Proof.
  intros Hc Hp Hd. unfold getTaskInfo.
  destruct taskDir as [|c taskDir]; [discriminate|].
  rewrite Hp. unfold bind. rewrite getReportFiles_readdir. unfold readdir.
  now rewrite Hc, Hd.
Qed.

(** One call of [start_new_task]: the disambiguators below [k] are taken
    and the name for [k] is free. *)
Lemma start_new_task_step (today : Clock.date) (label : jsstring) (k : N)
    (st : Fs.t) :
  Clock.valid today -> four_digit_year today -> slug_shaped label = true ->
  k <= 25 ->
  (forall j, j < k -> In (candidate today label j) (catalog st)) ->
  entries_of st !! candidate today label k = None ->
  (forall names, entries_of st !! current <> Some (Dir names)) ->
  start_new_task today label st
  = (Ok (TaskInfoResult
           {| task_slug := label;
              reports_dir := Path.join [Js.str "_tasks"; candidate today label k];
              report_file_names := [] |}),
     Root (<[current := Symlink (candidate today label k)]>
             (<[candidate today label k := Dir ∅]>
                (delete current (entries_of st))))).
Proof.
  intros Hv Hy Hs Hk Hbelow Hfree Hcur.
  pose proof (candidate_component today label k Hv Hy Hk Hs) as Hc.
  pose proof (candidate_parse today label k Hv Hy Hk Hs) as Hp.
  pose proof (candidate_not_current today label k Hv Hy) as Hnc.
  unfold start_new_task, handle, try_catch.
  destruct label as [|c0 label0] eqn:El; [discriminate|]. rewrite <- El in *.
  unfold bind at 1. unfold findNextTaskDirName. unfold bind at 1.
  rewrite getAllTaskDirs_catalog.
  rewrite (probe_first_free today (catalog st) label 26 0 k);
    [|lia|intros j Hj; apply Hbelow; lia|now apply catalog_absent].
  unfold ret at 1. unfold bind at 1. unfold mkdir.
  rewrite Hc. cbn [negb entries_of]. rewrite Hfree.
  unfold bind at 1.
  rewrite updateCurrentSymlink_ok;
    [|assumption|intros names; rewrite lookup_insert_ne by congruence; apply Hcur].
  unfold bind at 1.
  erewrite getTaskInfo_dir; [|exact Hc|exact Hp|].
  - cbn [jsonTaskInfo ret]. rewrite elements_empty.
    rewrite delete_insert_ne by congruence. reflexivity.
  - cbn [entries_of]. rewrite lookup_insert_ne by congruence.
    rewrite lookup_delete_ne by congruence. apply lookup_insert_eq.
Qed.

Lemma candidate_0_1_differ (today : Clock.date) (label : jsstring) :
  candidate today label 0 <> candidate today label 1.
Proof.
  unfold candidate, getDateSuffix. cbn [N.eqb]. rewrite <- app_assoc.
  intros E. apply app_inv_head in E. discriminate E.
Qed.

(** C5.  Two calls of [start_new_task] with the same label on the same
    day, from a root where neither name is in use: the first creates
    [date-label], the second [dateb-label], nothing else changes, and the
    current pointer ends on the second directory. *)
Theorem C5_second_task_of_the_day (today : Clock.date) (label : jsstring)
    (st : Fs.t) :
  Clock.valid today -> four_digit_year today -> slug_shaped label = true ->
  entries_of st !! (Clock.toISODate today ++ Js.str "-" ++ label) = None ->
  entries_of st !! (Clock.toISODate today ++ Js.str "b-" ++ label) = None ->
  (forall names, entries_of st !! current <> Some (Dir names)) ->
  let first := Clock.toISODate today ++ Js.str "-" ++ label in
  let second := Clock.toISODate today ++ Js.str "b-" ++ label in
  let st1 := snd (start_new_task today label st) in
  let st2 := snd (start_new_task today label st1) in
  fst (start_new_task today label st)
  = Ok (TaskInfoResult {| task_slug := label;
                          reports_dir := Path.join [Js.str "_tasks"; first];
                          report_file_names := [] |}) /\
  fst (start_new_task today label st1)
  = Ok (TaskInfoResult {| task_slug := label;
                          reports_dir := Path.join [Js.str "_tasks"; second];
                          report_file_names := [] |}) /\
  entries_of st2
  = <[current := Symlink second]>
      (<[second := Dir ∅]> (<[first := Dir ∅]> (delete current (entries_of st)))) /\
  entries_of st2 !! current = Some (Symlink second) /\
  (forall name,
     In name (catalog st2) <-> name = first \/ name = second \/ In name (catalog st)).
Proof.
  intros Hv Hy Hs Hfirst Hsecond Hcur first second.
  assert (first = candidate today label 0) as E0 by reflexivity.
  assert (second = candidate today label 1) as E1.
  { unfold second, candidate, getDateSuffix. cbn [N.eqb].
    now rewrite <- app_assoc. }
  assert (first <> second) as Hne
    by (rewrite E0, E1; apply candidate_0_1_differ).
  assert (first <> current) as Hfc by (rewrite E0; now apply candidate_not_current).
  assert (second <> current) as Hsc by (rewrite E1; now apply candidate_not_current).
  pose proof (start_new_task_step today label 0 st Hv Hy Hs ltac:(lia)) as S0.
  rewrite <- E0 in S0.
  specialize (S0 ltac:(intros j Hj; lia) Hfirst Hcur).
  cbv zeta. rewrite S0. cbn [fst snd].
  set (st1 := Root _) in *.
  pose proof (start_new_task_step today label 1 st1 Hv Hy Hs ltac:(lia)) as S1.
  rewrite <- E1 in S1.
  assert (entries_of st1 !! first = Some (Dir ∅)) as Hin1.
  { unfold st1. cbn [entries_of]. rewrite lookup_insert_ne by congruence.
    apply lookup_insert_eq. }
  rewrite S1; cycle 1.
  { intros j Hj. assert (j = 0) as -> by lia. rewrite <- E0.
    apply catalog_In. split; [now exists ∅|].
    rewrite E0, (candidate_parse today label 0) by (assumption || lia). eauto. }
  { unfold st1. cbn [entries_of]. rewrite !lookup_insert_ne by congruence.
    now rewrite lookup_delete_ne by congruence. }
  { intros names. unfold st1. cbn [entries_of]. now rewrite lookup_insert_eq. }
  cbn [fst snd entries_of].
  assert (delete current (entries_of st1)
          = <[first := Dir ∅]> (delete current (entries_of st))) as Ed.
  { unfold st1. cbn [entries_of]. rewrite delete_insert_eq.
    rewrite delete_insert_ne by congruence. now rewrite delete_delete_eq. }
  rewrite Ed.
  split; [reflexivity|]. split; [reflexivity|]. split; [reflexivity|].
  split; [apply lookup_insert_eq|].
  intros name. rewrite !catalog_In. cbn [entries_of].
  destruct (decide (name = current)) as [->|Hn].
  { rewrite lookup_insert_eq. split.
    - intros [[names [=]] _].
    - intros [E|[E|[[names E] _]]]; [congruence|congruence|].
      now destruct (Hcur names). }
  rewrite lookup_insert_ne by congruence.
  destruct (decide (name = second)) as [->|Hn2].
  { rewrite lookup_insert_eq. split; [auto|]. intros _. split; [now exists ∅|].
    rewrite E1, (candidate_parse today label 1) by (assumption || lia). eauto. }
  rewrite lookup_insert_ne by congruence.
  destruct (decide (name = first)) as [->|Hn1].
  { rewrite lookup_insert_eq. split; [auto|]. intros _. split; [now exists ∅|].
    rewrite E0, (candidate_parse today label 0) by (assumption || lia). eauto. }
  rewrite lookup_insert_ne by congruence.
  rewrite lookup_delete_ne by congruence. tauto.
Qed.

(** The date prefix and the probe as [index.js] has them.  The date prefix
    is the date alone for the
    disambiguator 0 and the date with one letter, [b] to [z] (character code
    97 + disambiguator), for 1 to 25.  [findNextTaskDirName] tries the
    disambiguators 0 to 25 in order and takes the first whose name is not in
    the catalog; when all 26 names are taken it throws
    [Too many tasks for today (max 26)]. *)
Theorem date_suffix_letters_and_probe_bound (today : Clock.date) (slug : jsstring)
    (st : Fs.t) :
  getDateSuffix today 0 = Clock.toISODate today /\
  (forall i, 1 <= i <= 25 ->
     getDateSuffix today i = Clock.toISODate today ++ [97 + i] /\
     Re.b_to_z (97 + i) = true) /\
  (forall k, k < 26 ->
     (forall j, j < k -> In (candidate today slug j) (catalog st)) ->
     ~ In (candidate today slug k) (catalog st) ->
     fst (findNextTaskDirName today slug st) = Ok (candidate today slug k)) /\
  ((forall j, j < 26 -> In (candidate today slug j) (catalog st)) ->
     fst (findNextTaskDirName today slug st)
     = Throw (Js.str "Too many tasks for today (max 26)")) /\
  (forall name, fst (findNextTaskDirName today slug st) = Ok name ->
     exists k, k < 26 /\ name = candidate today slug k).
Proof.
  split; [reflexivity|]. split.
  { intros i Hi. destruct (letter_b_to_z i Hi) as [E Hc]. split; [|exact Hc].
    unfold getDateSuffix. destruct (N.eqb_spec i 0); [lia|]. now rewrite E. }
  unfold findNextTaskDirName, bind. rewrite getAllTaskDirs_catalog.
  split; [|split].
  - intros k Hk Hbelow Hfree.
    rewrite (probe_first_free today (catalog st) slug 26 0 k);
      [reflexivity|lia| |assumption].
    intros j Hj. apply Hbelow. lia.
  - intros Htaken. rewrite probe_all_taken; [reflexivity|].
    intros j Hj. apply Htaken. lia.
  - intros name.
    destruct (probe today (catalog st) (Clock.toISODate today) slug 26 0)
      as [name'|] eqn:E; [|discriminate].
    intros [= <-]. destruct (probe_bounded _ _ _ _ _ _ _ E) as (k & Hk & ->).
    exists k. split; [lia|reflexivity].
Qed.

Lemma find_none_all {A} (f : A -> bool) (l : list A) :
  (forall x, In x l -> f x = false) -> List.find f l = None.
Proof.
  induction l as [|a l IH]; intros H; [reflexivity|].
  cbn [List.find]. rewrite (H a (or_introl eq_refl)).
  apply IH. intros x Hx. apply H. now right.
Qed.

(** C7.  [switch_task] with a label (not empty) that no task directory of
    the catalog carries answers [Task not found: label] as an error and
    leaves every entry of the root as it was: the current pointer is
    unchanged and no directory is created. *)
Theorem C7_switch_to_unknown_label (label : jsstring) (st : Fs.t) :
  label <> [] ->
  (forall dirName parsed,
     In dirName (catalog st) -> parseTaskDirName dirName = Some parsed ->
     slug_of parsed <> label) ->
  fst (switch_task label st) = Ok (IsError (Js.str "Task not found: " ++ label)) /\
  entries_of (snd (switch_task label st)) = entries_of st /\
  entries_of (snd (switch_task label st)) !! current = entries_of st !! current /\
  catalog (snd (switch_task label st)) = catalog st.
Proof.
  intros Hne Hno.
  assert (switch_task label st
          = (Ok (IsError (Js.str "Task not found: " ++ label)),
             Root (entries_of st))) as ->; [|now repeat split].
  unfold switch_task, handle, try_catch.
  destruct label as [|c label0] eqn:El; [congruence|]. rewrite <- El in *.
  unfold bind at 1. unfold findTaskDirBySlug, bind at 1.
  rewrite getAllTaskDirs_catalog. unfold ret at 1.
  rewrite find_none_all; [reflexivity|].
  intros dirName Hin. apply in_rev in Hin.
  destruct (parseTaskDirName dirName) as [parsed|] eqn:Ep; [|reflexivity].
  apply eqb_neq. now apply (Hno dirName parsed).
Qed.

(** C3 (as the code has it).  When the current pointer resolves to a base
    name that does not parse as a task directory name, [current_task]
    answers [No current task], which is not an error.  When the base name
    parses and the directory is gone, it answers the task info of that name
    with an empty list of reports: [getCurrentTaskDir] reads the link
    without looking at its target, and [getReportFiles] turns the failed
    listing into the empty list. *)
Theorem C3_dangling_pointer (cwd dirName : jsstring) (st : Fs.t) :
  fst (getCurrentTaskDir cwd st) = Ok (Some dirName) ->
  (parseTaskDirName dirName = None ->
     fst (current_task cwd st) = Ok NoCurrentTask) /\
  (forall parsed,
     parseTaskDirName dirName = Some parsed ->
     Path.component dirName = true ->
     entries_of st !! dirName = None ->
     fst (current_task cwd st)
     = Ok (TaskInfoResult
             {| task_slug := slug_of parsed;
                reports_dir := Path.join [Js.str "_tasks"; dirName];
                report_file_names := [] |})).
Proof.
  intros Hcur. unfold current_task, handle, try_catch. unfold bind at 1 3.
  destruct (getCurrentTaskDir cwd st) as [[r|e|] st'] eqn:E;
    simpl in Hcur; try discriminate.
  injection Hcur as ->.
  assert (st' = st) as ->.
  { revert E. unfold getCurrentTaskDir, try_catch, bind, ret, readlink_current.
    destruct st as [|m]; [now intros [= _ <-]|].
    destruct (m !! current) as [[]|]; now intros [= _ <-]. }
  split.
  - intros Hp. unfold getTaskInfo. destruct dirName; [reflexivity|].
    now rewrite Hp.
  - intros parsed Hp Hc Hgone. unfold getTaskInfo.
    destruct dirName as [|c dirName0] eqn:Ed; [discriminate|]. rewrite <- Ed in *.
    rewrite Hp. unfold bind. rewrite getReportFiles_readdir. unfold readdir.
    now rewrite Hc, Hgone.
Qed.

End Tasks.

(* ===================================================================== *)
(** * Where the code and the specification part *)
(* ===================================================================== *)

Section Departures.

Import Fs Bureau.
Local Open Scope N_scope.

(** C2.  For the disambiguator 25 [getDateSuffix] prints the letter [z]
    and no ordinal; the names with the ordinal form ([z026], [z027]) do not
    parse as task directory names; and the 27th task of a day with one
    label is refused with [Too many tasks for today (max 26)], so the probe
    is bounded by 26 names. *)
Lemma C2_fails_at_25 :
  let d := Clock.mkDate 2025 10 1 in
  getDateSuffix d 25 = Js.str "2025-10-01z" /\
  claimed_date_prefix d 25 = Js.str "2025-10-01z027" /\
  getDateSuffix d 25 <> claimed_date_prefix d 25 /\
  parseTaskDirName (Js.str "2025-10-01z026-many-tasks") = None /\
  parseTaskDirName (claimed_date_prefix d 25 ++ Js.str "-" ++ Js.str "x") = None /\
  (let full := Nat.iter 26 (fun st => snd (start_new_task d (Js.str "x") st)) Absent in
   fst (start_new_task d (Js.str "x") full)
   = Ok (IsError (Js.str "Too many tasks for today (max 26)"))).
Proof.
  cbv zeta. split; [reflexivity|]. split; [reflexivity|].
  split; [intros E; vm_compute in E; discriminate E|].
  split; [vm_compute; reflexivity|]. split; [vm_compute; reflexivity|].
  vm_compute. reflexivity.
Qed.

(** Against C3 as worded: the pointer names a directory that has been
    deleted, and [current_task] answers a task info, not [No current task]. *)
Lemma C3_fails_on_deleted_directory :
  let st := Root {[ current := Symlink (Js.str "2025-10-01-x") ]} in
  entries_of st !! Js.str "2025-10-01-x" = None /\
  fst (current_task (Js.str "/work") st)
  = Ok (TaskInfoResult {| task_slug := Js.str "x";
                          reports_dir := Js.str "_tasks/2025-10-01-x";
                          report_file_names := [] |}) /\
  fst (current_task (Js.str "/work") st) <> Ok NoCurrentTask.
Proof.
  cbv zeta. split; [vm_compute; reflexivity|].
  split; [vm_compute; reflexivity|].
  intros E. vm_compute in E. discriminate E.
Qed.

(** Against C8 as worded: the name made with the disambiguator 26 does not
    parse; neither does a name whose label holds a line break, nor the name
    of a day whose year is not printed with four digits. *)
Lemma C8_fails_past_z_and_on_line_break :
  let d := Clock.mkDate 2025 10 1 in
  let far := Clock.mkDate 10000 1 1 in
  getDateSuffix d 26 = Js.str "2025-10-01{" /\
  parseTaskDirName (getDateSuffix d 26 ++ Js.str "-" ++ Js.str "x") = None /\
  Re.dot_plus_end [97; 10; 98] = false /\
  parseTaskDirName (getDateSuffix d 0 ++ Js.str "-" ++ [97; 10; 98]) = None /\
  getDateSuffix far 0 = Js.str "+010000-01-01" /\
  parseTaskDirName (getDateSuffix far 0 ++ Js.str "-" ++ Js.str "x") = None.
Proof. vm_compute. repeat split; reflexivity. Qed.


(** Against C10 as worded: for a suffix with a line break the proposed file
    name does not pass the filter of the report catalog, and after the
    file is created the next report number is still the one proposed.  For
    a suffix with a slash the proposed name is not the name of one entry
    of the task directory. *)
Lemma C10_fails_for_suffix_with_line_break :
  let suffix := [97; 10; 98] in
  let fileName := reportFileName 6 suffix in
  fst (start_new_report_file (Js.str "/work") suffix sample_root)
  = Ok (ReportFileToCreate (Path.join [Js.str "_tasks"; sample_task; fileName])) /\
  Re.report_file fileName = false /\
  fst (findNextReportNumber sample_task sample_root) = Ok 6 /\
  fst (findNextReportNumber sample_task (createReport sample_task fileName sample_root))
  = Ok 6 /\
  Path.component (reportFileName 6 (Js.str "a/b")) = false.
Proof. vm_compute. repeat split; reflexivity. Qed.

End Departures.

(* ===================================================================== *)
(** * The recency filter *)
(* ===================================================================== *)

Section Recency.

Import Fs Bureau.
Local Open Scope N_scope.

Lemma parseInt_from (l : jsstring) (acc : N) :
  fold_left (fun acc c => 10 * acc + (c - 48)) l acc
  = acc * 10 ^ N.of_nat (length l) + Js.parseInt l.
Proof.
  unfold Js.parseInt. revert acc. induction l as [|c l IH]; intros acc.
  - cbn [fold_left length]. change (10 ^ N.of_nat 0) with 1. lia.
  - cbn [fold_left length]. rewrite (IH (10 * acc + (c - 48))), (IH (10 * 0 + (c - 48))).
    rewrite Nat2N.inj_succ, N.pow_succ_r'. lia.
Qed.

Lemma parseInt_cons (c : N) (l : jsstring) :
  Js.parseInt (c :: l) = (c - 48) * 10 ^ N.of_nat (length l) + Js.parseInt l.
Proof.
  unfold Js.parseInt at 1. cbn [fold_left]. rewrite parseInt_from. lia.
Qed.

Lemma parseInt_bound (l : jsstring) :
  forallb Re.digit l = true -> Js.parseInt l < 10 ^ N.of_nat (length l).
Proof.
  induction l as [|c l IH]; intros H.
  - cbn. lia.
  - cbn [forallb] in H. apply andb_true_iff in H. destruct H as [Hc Hl].
    apply digit_bounds in Hc. specialize (IH Hl).
    rewrite parseInt_cons. cbn [length]. rewrite Nat2N.inj_succ, N.pow_succ_r'.
    nia.
Qed.

(** On runs of digits of one length, the order of strings is the order of
    the numbers. *)
Lemma digits_compare (a b : jsstring) :
  length a = length b ->
  forallb Re.digit a = true -> forallb Re.digit b = true ->
  Js.compare a b = N.compare (Js.parseInt a) (Js.parseInt b).
Proof.
  revert b. induction a as [|x a IH]; intros [|y b] Hlen Ha Hb;
    try discriminate Hlen.
  - reflexivity.
  - cbn [forallb] in Ha, Hb. apply andb_true_iff in Ha, Hb.
    destruct Ha as [Hx Ha], Hb as [Hy Hb]. injection Hlen as Hlen.
    pose proof (parseInt_bound a Ha) as Ba.
    pose proof (parseInt_bound b Hb) as Bb.
    apply digit_bounds in Hx, Hy.
    specialize (IH b Hlen Ha Hb).
    cbn [Js.compare]. rewrite !parseInt_cons. rewrite <- Hlen in Bb |- *.
    set (P := 10 ^ N.of_nat (length a)) in *.
    destruct (N.compare_spec x y) as [->|Hlt|Hgt].
    + rewrite IH.
      destruct (N.compare_spec (Js.parseInt a) (Js.parseInt b));
        symmetry; [apply N.compare_eq_iff|apply N.compare_lt_iff|apply N.compare_gt_iff];
        lia.
    + symmetry. apply N.compare_lt_iff. nia.
    + symmetry. apply N.compare_gt_iff. nia.
Qed.

Lemma compare_app (a b x y : jsstring) :
  length a = length b ->
  Js.compare (a ++ x) (b ++ y)
  = match Js.compare a b with Eq => Js.compare x y | c => c end.
Proof.
  revert b. induction a as [|c a IH]; intros [|d b] Hlen; try discriminate Hlen.
  - reflexivity.
  - injection Hlen as Hlen. cbn [app Js.compare].
    destruct (N.compare c d); [now apply IH|reflexivity|reflexivity].
Qed.

(** On strings of the shape [YYYY-MM-DD], [>=] is the order of the dates. *)
Lemma iso_geb (Y M D Y' M' D' : jsstring) :
  length Y = 4%nat -> length Y' = 4%nat -> length M = 2%nat ->
  length M' = 2%nat -> length D = 2%nat -> length D' = 2%nat ->
  forallb Re.digit Y = true -> forallb Re.digit Y' = true ->
  forallb Re.digit M = true -> forallb Re.digit M' = true ->
  forallb Re.digit D = true -> forallb Re.digit D' = true ->
  Js.geb (Y ++ Re.dash :: M ++ Re.dash :: D) (Y' ++ Re.dash :: M' ++ Re.dash :: D')
  = Clock.not_afterb
      (Clock.mkDate (Z.of_N (Js.parseInt Y')) (Js.parseInt M') (Js.parseInt D'))
      (Clock.mkDate (Z.of_N (Js.parseInt Y)) (Js.parseInt M) (Js.parseInt D)).
Proof.
  intros LY LY' LM LM' LD LD' HY HY' HM HM' HD HD'.
  rewrite geb_leb. unfold Js.leb.
  rewrite compare_app by congruence. cbn [Js.compare].
  rewrite N.compare_refl, compare_app by congruence. cbn [Js.compare].
  rewrite N.compare_refl.
  rewrite (digits_compare Y' Y), (digits_compare M' M), (digits_compare D' D)
    by congruence.
  unfold Clock.not_afterb. cbn [Clock.year Clock.month Clock.day].
  destruct (N.compare_spec (Js.parseInt Y') (Js.parseInt Y)) as [Ey|Ly|Gy].
  - rewrite Ey, Z.ltb_irrefl, Z.eqb_refl. cbn [orb andb].
    destruct (N.compare_spec (Js.parseInt M') (Js.parseInt M)) as [Em|Lm|Gm].
    + rewrite Em, N.ltb_irrefl, N.eqb_refl. cbn [orb andb].
      destruct (N.compare_spec (Js.parseInt D') (Js.parseInt D)) as [Ed|Ld|Gd];
        symmetry; [apply N.leb_le|apply N.leb_le|apply N.leb_gt]; lia.
    + now rewrite (proj2 (N.ltb_lt _ _) Lm).
    + rewrite (proj2 (N.ltb_ge _ _)) by lia.
      rewrite (proj2 (N.eqb_neq _ _)) by lia. reflexivity.
  - rewrite (proj2 (Z.ltb_lt _ _)) by lia. reflexivity.
  - rewrite (proj2 (Z.ltb_ge _ _)) by lia.
    rewrite (proj2 (Z.eqb_neq _ _)) by lia. reflexivity.
Qed.

(** The date prefix of a parsed name: ten code units [YYYY-MM-DD] and at
    most one letter, which [replace(/[b-z]$/, '')] takes off. *)
Lemma task_dir_prefix (name prefix slug : jsstring) :
  Re.task_dir name = Some (prefix, slug) ->
  exists Y M D,
    length Y = 4%nat /\ length M = 2%nat /\ length D = 2%nat /\
    forallb Re.digit Y = true /\ forallb Re.digit M = true /\
    forallb Re.digit D = true /\
    Re.strip_letter prefix = Y ++ Re.dash :: M ++ Re.dash :: D /\
    dateOfPrefix prefix
    = Clock.mkDate (Z.of_N (Js.parseInt Y)) (Js.parseInt M) (Js.parseInt D).
Proof.
  unfold Re.task_dir, Re.iso_date.
  destruct name as [|y1 [|y2 [|y3 [|y4 [|c1 [|m1 [|m2 [|c2 [|d1 [|d2 rest]]]]]]]]]];
    try discriminate.
  destruct (Re.digit y1 && Re.digit y2 && Re.digit y3 && Re.digit y4 && (c1 =? Re.dash)
            && Re.digit m1 && Re.digit m2 && (c2 =? Re.dash) && Re.digit d1
            && Re.digit d2) eqn:E; [|discriminate].
  rewrite !andb_true_iff, !N.eqb_eq in E.
  destruct E as [[[[[[[[[Y1 Y2] Y3] Y4] ->] M1] M2] ->] D1] D2].
  intros H.
  assert (prefix = [y1; y2; y3; y4; Re.dash; m1; m2; Re.dash; d1; d2] \/
          exists c, Re.b_to_z c = true /\
                    prefix = [y1; y2; y3; y4; Re.dash; m1; m2; Re.dash; d1; d2; c])
    as Hp.
  { destruct rest as [|c rest]; [discriminate|].
    destruct (Re.b_to_z c) eqn:Ec.
    - destruct rest as [|c' slug']; [discriminate|].
      destruct ((c' =? Re.dash) && Re.dot_plus_end slug'); [|discriminate].
      injection H as <- _. right. exists c. now split.
    - destruct ((c =? Re.dash) && Re.dot_plus_end rest); [|discriminate].
      injection H as <- _. now left. }
  exists [y1; y2; y3; y4], [m1; m2], [d1; d2].
  cbn [forallb length]. rewrite Y1, Y2, Y3, Y4, M1, M2, D1, D2.
  do 6 (split; [reflexivity|]).
  destruct Hp as [->|(c & Hc & ->)].
  - split; [|reflexivity]. unfold Re.strip_letter. cbn [last].
    apply digit_bounds in D2.
    assert (Re.b_to_z d2 = false) as ->; [|reflexivity].
    unfold Re.b_to_z. apply andb_false_iff. left. apply N.leb_gt. lia.
  - split; [|reflexivity]. unfold Re.strip_letter. cbn [last]. now rewrite Hc.
Qed.

Lemma date_eta (d : Clock.date) :
  Clock.mkDate (Clock.year d) (Clock.month d) (Clock.day d) = d.
Proof. now destruct d. Qed.

(** The string test of [getRecentTaskDirs] is the test on dates. *)
Lemma recent_is_by_date (cutoff : Clock.date) (dirName : jsstring) :
  Clock.valid cutoff ->
  four_digit_year cutoff ->
  recent (Clock.toISODate cutoff) dirName
  = recent_by_date cutoff dirName.
Proof.
  intros Hv Hy. unfold recent, recent_by_date, parseTaskDirName.
  destruct (Re.task_dir dirName) as [[prefix slug]|] eqn:E; [|reflexivity].
  cbn [datePrefix fst].
  destruct (task_dir_prefix _ _ _ E)
    as (Y & M & D & LY & LM & LD & HY & HM & HD & -> & ->).
  destruct (valid_small _ Hv) as [Hm Hd].
  destruct (toISODate_shape _ Hy Hm Hd)
    as (y1 & y2 & y3 & y4 & m1 & m2 & d1 & d2 & -> & Hdig & Vy & Vm & Vd).
  rewrite !andb_true_iff in Hdig.
  destruct Hdig as [[[[[[[Y1 Y2] Y3] Y4] M1] M2] D1] D2].
  change [y1; y2; y3; y4; Re.dash; m1; m2; Re.dash; d1; d2]
    with ([y1; y2; y3; y4] ++ Re.dash :: [m1; m2] ++ Re.dash :: [d1; d2]).
  rewrite iso_geb;
    [now rewrite Vy, Vm, Vd, date_eta
    |first [assumption | reflexivity
           | cbn [forallb]; now rewrite ?Y1, ?Y2, ?Y3, ?Y4, ?M1, ?M2, ?D1, ?D2] ..].
Qed.

(** The calendar date of a name made by the codec is the date it was made
    from. *)
Lemma dateOfPrefix_getDateSuffix (d : Clock.date) (i : N) :
  Clock.valid d -> four_digit_year d ->
  dateOfPrefix (getDateSuffix d i) = d.
Proof.
  intros Hv Hy. destruct (valid_small _ Hv) as [Hm Hd].
  destruct (toISODate_shape _ Hy Hm Hd)
    as (y1 & y2 & y3 & y4 & m1 & m2 & d1 & d2 & E & _ & Vy & Vm & Vd).
  unfold getDateSuffix. rewrite E.
  destruct (i =? 0); cbn [app dateOfPrefix]; now rewrite Vy, Vm, Vd, date_eta.
Qed.

Lemma days_in_month_bounds (y : Z) (m : N) :
  28 <= Clock.days_in_month y m <= 31.
Proof.
  unfold Clock.days_in_month.
  repeat match goal with |- context [if ?b then _ else _] => destruct b end; lia.
Qed.

Lemma prev_day_valid (d : Clock.date) :
  Clock.valid d -> Clock.valid (Clock.prev_day d).
Proof.
  unfold Clock.valid, Clock.prev_day. intros [Hm Hd].
  destruct (N.ltb_spec 1 (Clock.day d)); cbn [Clock.year Clock.month Clock.day].
  - lia.
  - destruct (N.ltb_spec 1 (Clock.month d)); cbn [Clock.year Clock.month Clock.day].
    + pose proof (days_in_month_bounds (Clock.year d) (Clock.month d - 1)). lia.
    + change (Clock.days_in_month (Clock.year d - 1) 12) with 31. lia.
Qed.

Lemma prev_day_before (d : Clock.date) :
  Clock.valid d -> Clock.before (Clock.prev_day d) d.
Proof.
  unfold Clock.valid, Clock.prev_day, Clock.before. intros [Hm Hd].
  destruct (N.ltb_spec 1 (Clock.day d)); cbn [Clock.year Clock.month Clock.day].
  - right. split; [reflexivity|]. right. split; [reflexivity|lia].
  - destruct (N.ltb_spec 1 (Clock.month d)); cbn [Clock.year Clock.month Clock.day].
    + right. split; [reflexivity|]. left. lia.
    + left. lia.
Qed.

Lemma before_trans (a b c : Clock.date) :
  Clock.before a b -> Clock.before b c -> Clock.before a c.
Proof. unfold Clock.before. intros H1 H2. lia. Qed.

Lemma before_not_after (a b : Clock.date) :
  Clock.before a b -> Clock.not_afterb b a = false.
Proof.
  unfold Clock.before, Clock.not_afterb. intros H.
  apply orb_false_iff. split; [apply Z.ltb_ge; lia|].
  apply andb_false_iff.
  destruct (Z.eqb_spec (Clock.year b) (Clock.year a)) as [E|]; [right|now left].
  apply orb_false_iff. split; [apply N.ltb_ge; lia|].
  apply andb_false_iff.
  destruct (N.eqb_spec (Clock.month b) (Clock.month a)) as [E'|]; [right|now left].
  apply N.leb_gt. lia.
Qed.

Lemma before_not_afterb (a b : Clock.date) :
  Clock.before a b -> Clock.not_afterb a b = true.
Proof.
  unfold Clock.before, Clock.not_afterb. intros H.
  apply orb_true_iff.
  destruct (Z.ltb_spec (Clock.year a) (Clock.year b)); [now left|right].
  apply andb_true_iff. split; [apply Z.eqb_eq; lia|].
  apply orb_true_iff.
  destruct (N.ltb_spec (Clock.month a) (Clock.month b)); [now left|right].
  apply andb_true_iff. split; [apply N.eqb_eq; lia|apply N.leb_le; lia].
Qed.


Lemma sub_days_S (n : nat) (d : Clock.date) :
  Clock.sub_days (S n) d = Clock.prev_day (Clock.sub_days n d).
Proof. reflexivity. Qed.

Lemma sub_days_valid (n : nat) (d : Clock.date) :
  Clock.valid d -> Clock.valid (Clock.sub_days n d).
Proof.
  intros H. induction n as [|n IH]; [exact H|].
  rewrite sub_days_S. now apply prev_day_valid.
Qed.

(** Going back more days gives an earlier date. *)
Lemma sub_days_before (n m : nat) (d : Clock.date) :
  Clock.valid d -> (n < m)%nat ->
  Clock.before (Clock.sub_days m d) (Clock.sub_days n d).
Proof.
  intros Hv. induction m as [|m IH]; intros Hlt; [lia|].
  rewrite sub_days_S.
  pose proof (prev_day_before _ (sub_days_valid m d Hv)) as Hstep.
  destruct (Nat.eq_dec n m) as [->|Hne]; [exact Hstep|].
  eapply before_trans; [exact Hstep|]. apply IH. lia.
Qed.



Lemma candidate_parse_line (d : Clock.date) (label : jsstring) (i : N) :
  Clock.valid d -> four_digit_year d -> i <= 25 ->
  Re.dot_plus_end label = true ->
  parseTaskDirName (candidate d label i) = Some (getDateSuffix d i, label).
Proof.
  intros Hv Hy Hi Hl. unfold candidate, parseTaskDirName, getDateSuffix.
  destruct (N.eqb_spec i 0) as [->|Hne].
  - now apply parse_plain.
  - destruct (letter_b_to_z i ltac:(lia)) as [-> Hc]. now apply parse_letter.
Qed.


Lemma filter_ext_In {A} (f g : A -> bool) (l : list A) :
  (forall x, In x l -> f x = g x) -> List.filter f l = List.filter g l.
Proof.
  induction l as [|a l IH]; intros H; [reflexivity|].
  cbn [List.filter]. rewrite (H a (or_introl eq_refl)), IH; [reflexivity|].
  intros x Hx. apply H. now right.
Qed.


(** The cutoff day of [getRecentTaskDirs]: 30 days before today when the
    offset change does not carry the instant over a UTC midnight, 31 or 29
    days before today when it does. *)
Lemma thirtyDaysAgo_carry (today : Clock.date) (timeOfDay offsetChange : Z) :
  Clock.reading timeOfDay offsetChange ->
  ((timeOfDay + offsetChange < 0)%Z /\
   Clock.thirtyDaysAgo today timeOfDay offsetChange = Clock.sub_days 31 today) \/
  ((0 <= timeOfDay + offsetChange < Clock.msPerDay)%Z /\
   Clock.thirtyDaysAgo today timeOfDay offsetChange = Clock.sub_days 30 today) \/
  ((Clock.msPerDay <= timeOfDay + offsetChange)%Z /\
   Clock.thirtyDaysAgo today timeOfDay offsetChange = Clock.sub_days 29 today).
Proof.
  unfold Clock.reading, Clock.thirtyDaysAgo, Clock.msPerDay. intros [Ht Ho].
  set (a := (timeOfDay + offsetChange)%Z).
  assert (- 86400000 < a < 2 * 86400000)%Z as Ha by (unfold a; lia).
  destruct (Z_lt_le_dec a 0) as [Hneg|Hpos]; [left; split; [exact Hneg|]|right].
  - assert (a / 86400000 = -1)%Z as ->; [|reflexivity].
    symmetry. apply (Z.div_unique a 86400000 (-1) (a + 86400000)); lia.
  - destruct (Z_lt_le_dec a 86400000) as [Hlt|Hge];
      [left; split; [lia|]|right; split; [exact Hge|]].
    + rewrite Z.div_small by lia. reflexivity.
    + assert (a / 86400000 = 1)%Z as ->; [|reflexivity].
      symmetry. apply (Z.div_unique a 86400000 1 (a - 86400000)); lia.
Qed.

Lemma thirtyDaysAgo_days (today : Clock.date) (timeOfDay offsetChange : Z) :
  Clock.reading timeOfDay offsetChange ->
  exists n : nat,
    (29 <= n <= 31)%nat /\
    Clock.thirtyDaysAgo today timeOfDay offsetChange = Clock.sub_days n today.
Proof.
  intros H.
  destruct (thirtyDaysAgo_carry today _ _ H) as [[_ E]|[[_ E]|[_ E]]].
  - exists 31%nat. split; [lia|exact E].
  - exists 30%nat. split; [lia|exact E].
  - exists 29%nat. split; [lia|exact E].
Qed.

Lemma getRecentTaskDirs_by_date (today : Clock.date) (timeOfDay offsetChange : Z)
    (st : Fs.t) :
  Clock.valid (Clock.thirtyDaysAgo today timeOfDay offsetChange) ->
  four_digit_year (Clock.thirtyDaysAgo today timeOfDay offsetChange) ->
  getRecentTaskDirs today timeOfDay offsetChange st
  = (Ok (List.filter
           (recent_by_date (Clock.thirtyDaysAgo today timeOfDay offsetChange))
           (catalog st)),
     Root (entries_of st)).
Proof.
  intros Hv Hy. unfold getRecentTaskDirs, bind. rewrite getAllTaskDirs_catalog.
  unfold ret. do 2 f_equal. apply filter_ext_In. intros x _.
  now apply recent_is_by_date.
Qed.


End Recency.

(* ===================================================================== *)
(** * Worked instances *)
(* ===================================================================== *)

Section Instances.

Import Fs Bureau.
Local Open Scope N_scope.

Lemma sample_today_valid : Clock.valid sample_today.
Proof. unfold Clock.valid. cbn. lia. Defined.

Lemma sample_today_four_digit : four_digit_year sample_today.
Proof. unfold four_digit_year. cbn. lia. Defined.

Lemma C8_round_trip_second_task :
  parseTaskDirName (getDateSuffix sample_today 1 ++ Js.str "-" ++ Js.str "x")
  = Some (getDateSuffix sample_today 1, Js.str "x").
Proof.
  apply C8_parse_format_round_trip;
    [exact sample_today_valid|exact sample_today_four_digit|lia|reflexivity].
Defined.

Lemma C6_window_small_and_large :
  reportFilesOf [Js.str "002-b.md"; Js.str "001-a.md"]
  = sortedReports [Js.str "002-b.md"; Js.str "001-a.md"] /\
  length (reportFilesOf (map (numbered (Js.str "file")) (upto 1 60))) = 50%nat.
Proof.
  split.
  - apply (proj1 (C6_bounded_window _)). apply Nat.leb_le. vm_compute. reflexivity.
  - destruct (proj1 (proj2 (C6_bounded_window
                              (map (numbered (Js.str "file")) (upto 1 60)))))
      as (first & middle & final & _ & _ & _ & _ & H).
    + apply Nat.ltb_lt. vm_compute. reflexivity.
    + exact H.
Defined.

Lemma C10_sixth_report_then_seventh :
  exists n,
    let fileName := reportFileName n (Js.str "plan") in
    fst (findNextReportNumber sample_task sample_root) = Ok n /\
    fst (start_new_report_file (Js.str "/work") (Js.str "plan") sample_root)
    = Ok (ReportFileToCreate (Path.join [Js.str "_tasks"; sample_task; fileName])) /\
    Path.component fileName = true /\
    Re.report_file fileName = true /\
    fst (findNextReportNumber sample_task (createReport sample_task fileName sample_root))
    = Ok (n + 1).
Proof.
  apply (C10_proposed_report_advances_number
           (Js.str "/work") sample_task (Js.str "plan") sample_reports sample_root).
  - vm_compute. reflexivity.
  - vm_compute. reflexivity.
  - vm_compute. reflexivity.
  - intros name Hin _. unfold sample_reports in Hin.
    apply elem_of_list_to_set in Hin.
    apply elem_of_cons in Hin. destruct Hin as [->|Hin];
      [vm_compute; discriminate|].
    apply elem_of_cons in Hin. destruct Hin as [->|Hin];
      [vm_compute; discriminate|].
    apply elem_of_nil in Hin. destruct Hin.
  - vm_compute. reflexivity.
Defined.

Lemma C5_two_tasks_from_an_empty_root :
  let first := Clock.toISODate sample_today ++ Js.str "-" ++ Js.str "x" in
  let second := Clock.toISODate sample_today ++ Js.str "b-" ++ Js.str "x" in
  let st1 := snd (start_new_task sample_today (Js.str "x") Absent) in
  let st2 := snd (start_new_task sample_today (Js.str "x") st1) in
  fst (start_new_task sample_today (Js.str "x") Absent)
  = Ok (TaskInfoResult {| task_slug := Js.str "x";
                          reports_dir := Path.join [Js.str "_tasks"; first];
                          report_file_names := [] |}) /\
  fst (start_new_task sample_today (Js.str "x") st1)
  = Ok (TaskInfoResult {| task_slug := Js.str "x";
                          reports_dir := Path.join [Js.str "_tasks"; second];
                          report_file_names := [] |}) /\
  entries_of st2
  = <[current := Symlink second]>
      (<[second := Dir ∅]> (<[first := Dir ∅]> (delete current (entries_of Absent)))) /\
  entries_of st2 !! current = Some (Symlink second) /\
  (forall name,
     In name (catalog st2) <-> name = first \/ name = second \/ In name (catalog Absent)).
Proof.
  apply (C5_second_task_of_the_day sample_today (Js.str "x") Absent).
  - exact sample_today_valid.
  - exact sample_today_four_digit.
  - reflexivity.
  - apply lookup_empty.
  - apply lookup_empty.
  - intros names. cbn [entries_of]. rewrite lookup_empty. discriminate.
Defined.

Lemma C7_unknown_label_in_sample_root :
  fst (switch_task (Js.str "other") sample_root)
  = Ok (IsError (Js.str "Task not found: " ++ Js.str "other")) /\
  entries_of (snd (switch_task (Js.str "other") sample_root)) = entries_of sample_root /\
  entries_of (snd (switch_task (Js.str "other") sample_root)) !! current
  = entries_of sample_root !! current /\
  catalog (snd (switch_task (Js.str "other") sample_root)) = catalog sample_root.
Proof.
  apply (C7_switch_to_unknown_label (Js.str "other") sample_root).
  - discriminate.
  - intros dirName parsed Hin Hp.
    assert (catalog sample_root = [sample_task]) as E by (vm_compute; reflexivity).
    rewrite E in Hin. destruct Hin as [<-|[]].
    vm_compute in Hp. injection Hp as <-. discriminate.
Defined.

Lemma C3_unparsable_and_deleted_targets :
  fst (current_task (Js.str "/work") (Root {[ current := Symlink (Js.str "notes") ]}))
  = Ok NoCurrentTask /\
  fst (current_task (Js.str "/work")
         (Root {[ current := Symlink (Js.str "2025-10-01-x") ]}))
  = Ok (TaskInfoResult
          {| task_slug := slug_of (Js.str "2025-10-01", Js.str "x");
             reports_dir := Path.join [Js.str "_tasks"; Js.str "2025-10-01-x"];
             report_file_names := [] |}).
Proof.
  split.
  - apply (C3_dangling_pointer (Js.str "/work") (Js.str "notes")
             (Root {[ current := Symlink (Js.str "notes") ]})).
    + vm_compute. reflexivity.
    + vm_compute. reflexivity.
  - apply (C3_dangling_pointer (Js.str "/work") (Js.str "2025-10-01-x")
             (Root {[ current := Symlink (Js.str "2025-10-01-x") ]})).
    + vm_compute. reflexivity.
    + vm_compute. reflexivity.
    + vm_compute. reflexivity.
    + vm_compute. reflexivity.
Defined.

Lemma second_letter_and_first_probe :
  (getDateSuffix sample_today 1 = Clock.toISODate sample_today ++ [97 + 1] /\
   Re.b_to_z (97 + 1) = true) /\
  fst (findNextTaskDirName sample_today (Js.str "x") Absent)
  = Ok (candidate sample_today (Js.str "x") 0).
Proof.
  destruct (date_suffix_letters_and_probe_bound sample_today (Js.str "x") Absent)
    as (_ & Hletter & Hfree & _ & _).
  split.
  - apply Hletter. lia.
  - apply Hfree.
    + lia.
    + intros j Hj. lia.
    + intros [].
Defined.

Lemma sample_reading : Clock.reading sample_timeOfDay sample_offsetChange.
Proof.
  unfold Clock.reading, Clock.msPerDay, sample_timeOfDay, sample_offsetChange. lia.
Defined.


End Instances.

(* ===================================================================== *)
(** * Paths: the last segment survives [join] *)
(* ===================================================================== *)

Section PathFacts.

Local Open Scope N_scope.

Lemma split_nonempty (p : jsstring) : Path.split p <> [].
Proof.
  destruct p as [|c p]; cbn [Path.split]; [discriminate|].
  destruct (c =? Path.slash); [discriminate|].
  destruct (Path.split p); discriminate.
Qed.

Lemma split_app_slash (a b : jsstring) :
  Path.split (a ++ Path.slash :: b) = Path.split a ++ Path.split b.
Proof.
  induction a as [|c a IH]; cbn [app Path.split].
  - now rewrite N.eqb_refl.
  - destruct (c =? Path.slash); [now rewrite IH|].
    rewrite IH. pose proof (split_nonempty a).
    destruct (Path.split a); [congruence|reflexivity].
Qed.

Lemma split_plain (s : jsstring) :
  forallb (fun c => negb (c =? Path.slash)) s = true -> Path.split s = [s].
Proof.
  induction s as [|c s IH]; cbn [forallb Path.split]; [reflexivity|].
  rewrite andb_true_iff, negb_true_iff. intros [-> Hs]. now rewrite (IH Hs).
Qed.

Lemma unsplit_snoc (l : list jsstring) (x : jsstring) :
  l <> [] -> Path.unsplit (l ++ [x]) = Path.unsplit l ++ Path.slash :: x.
Proof.
  induction l as [|a l IH]; [congruence|]. intros _.
  destruct l as [|b l]; [reflexivity|].
  change (Path.unsplit ((a :: b :: l) ++ [x]))
    with (a ++ Path.slash :: Path.unsplit ((b :: l) ++ [x])).
  rewrite IH by discriminate.
  change (Path.unsplit (a :: b :: l)) with (a ++ Path.slash :: Path.unsplit (b :: l)).
  now rewrite <- app_assoc.
Qed.

(** What [Path.component] says, piece by piece. *)
Lemma component_facts (name : jsstring) :
  Path.component name = true ->
  name <> [] /\ forallb (fun c => negb (c =? Path.slash)) name = true /\
  name <> Path.dot_seg /\ name <> Path.dotdot_seg.
Proof.
  unfold Path.component. rewrite !andb_true_iff, !negb_true_iff.
  intros [[[H1 H2] H3] H4]. apply eqb_neq in H1, H3, H4.
  repeat split; try assumption.
  clear -H2. induction name as [|c name IH]; [reflexivity|].
  cbn [forallb] in *. apply andb_true_iff in H2. destruct H2 as [Hc Hn].
  apply andb_true_iff in Hc. destruct Hc as [Hc _]. now rewrite Hc, IH.
Qed.

Lemma split_last_segment (p name : jsstring) :
  Path.component name = true ->
  p = name \/ (exists q, p = q ++ Path.slash :: name) ->
  exists segs, Path.split p = segs ++ [name].
Proof.
  intros Hc Hp. destruct (component_facts name Hc) as (_ & Hplain & _ & _).
  destruct Hp as [->|[q ->]].
  - exists []. now apply split_plain.
  - exists (Path.split q). now rewrite split_app_slash, (split_plain name).
Qed.

Lemma unsplit_last_segment (l : list jsstring) (name : jsstring) :
  Path.unsplit (l ++ [name]) = name \/
  exists q, Path.unsplit (l ++ [name]) = q ++ Path.slash :: name.
Proof.
  destruct l as [|a l]; [now left|]. right.
  exists (Path.unsplit (a :: l)). now apply unsplit_snoc.
Qed.

Lemma step_keeps (allowAboveRoot : bool) (kept : list jsstring) (name : jsstring) :
  Path.component name = true ->
  Path.step allowAboveRoot kept name = name :: kept.
Proof.
  intros Hc. destruct (component_facts name Hc) as (H1 & _ & H3 & H4).
  unfold Path.step.
  rewrite (proj2 (eqb_neq _ _) H1), (proj2 (eqb_neq _ _) H3),
    (proj2 (eqb_neq _ _) H4).
  reflexivity.
Qed.

Lemma last_of_segment (p name : jsstring) :
  Path.component name = true ->
  p = name \/ (exists q, p = q ++ Path.slash :: name) ->
  last p = last name /\ p <> [].
Proof.
  intros Hc Hp. destruct (component_facts name Hc) as (Hne & _).
  destruct name as [|c name]; [congruence|].
  destruct Hp as [->|[q ->]]; [now split|]. split.
  - rewrite last_app.
    change (last (Path.slash :: c :: name)) with (last (c :: name)).
    destruct (last (c :: name)) eqn:E; [reflexivity|].
    apply last_None in E. discriminate E.
  - now destruct q.
Qed.

Lemma component_last_not_slash (name : jsstring) :
  Path.component name = true -> Path.trailingSeparator name = false.
Proof.
  intros Hc. destruct (component_facts name Hc) as (_ & Hplain & _).
  unfold Path.trailingSeparator. destruct (last name) as [c|] eqn:E; [|reflexivity].
  apply last_Some_elem_of, list_elem_of_In in E.
  rewrite forallb_forall in Hplain. apply negb_true_iff. now apply Hplain.
Qed.

(** [normalize] keeps a last segment that is an entry name. *)
Lemma normalize_last_segment (p name : jsstring) :
  Path.component name = true ->
  p = name \/ (exists q, p = q ++ Path.slash :: name) ->
  Path.normalize p = name \/ exists q, Path.normalize p = q ++ Path.slash :: name.
Proof.
  intros Hc Hp.
  destruct (split_last_segment p name Hc Hp) as [segs Hsplit].
  destruct (last_of_segment p name Hc Hp) as [Hlast Hne].
  assert (Path.trailingSeparator p = false) as Htrail.
  { unfold Path.trailingSeparator. rewrite Hlast.
    apply (component_last_not_slash name Hc). }
  assert (Path.normalize p
          = let body := Path.normalizeString p (negb (Path.isAbsolute p)) in
            match body with
            | [] => if Path.isAbsolute p then [Path.slash]
                    else if Path.trailingSeparator p then Js.str "./"
                         else Path.dot_seg
            | _ :: _ =>
                let body' := if Path.trailingSeparator p
                             then body ++ [Path.slash] else body in
                if Path.isAbsolute p then Path.slash :: body' else body'
            end) as -> by (destruct p; [congruence|reflexivity]).
  rewrite Htrail. cbv zeta.
  unfold Path.normalizeString. rewrite Hsplit, fold_left_app. cbn [fold_left].
  rewrite step_keeps by assumption. cbn [rev].
  destruct (unsplit_last_segment
              (rev (fold_left (Path.step (negb (Path.isAbsolute p))) segs [])) name)
    as [E|[q E]]; rewrite E.
  - destruct (component_facts name Hc) as (Hn & _).
    destruct name as [|c name]; [congruence|].
    destruct (Path.isAbsolute p); [right; now exists []|now left].
  - destruct (q ++ Path.slash :: name) as [|c body] eqn:Eb; [now destruct q|].
    rewrite <- Eb.
    destruct (Path.isAbsolute p); right;
      [exists (Path.slash :: q); reflexivity|now exists q].
Qed.

(** [basename] of a path that ends with an entry name is that name. *)
Lemma basename_last_segment (p name : jsstring) :
  Path.component name = true ->
  p = name \/ (exists q, p = q ++ Path.slash :: name) ->
  Path.basename p = name.
Proof.
  intros Hc Hp. destruct (split_last_segment p name Hc Hp) as [segs Hsplit].
  destruct (component_facts name Hc) as (Hn & _).
  unfold Path.basename. rewrite Hsplit, rev_app_distr. cbn [rev app List.filter].
  now rewrite (proj2 (eqb_neq _ _) Hn).
Qed.

(** [path.basename(path.join(..., name))] is [name] whenever [name] is a
    single entry name, whatever the leading parts are. *)
Theorem basename_join_entry (parts : list jsstring) (name : jsstring) :
  Path.component name = true ->
  Path.basename (Path.join (parts ++ [name])) = name.
Proof.
  intros Hc. destruct (component_facts name Hc) as (Hn & _).
  apply basename_last_segment; [assumption|].
  unfold Path.join. rewrite List.filter_app. cbn [List.filter].
  rewrite (proj2 (eqb_neq _ _) Hn). cbn [negb].
  destruct (List.filter _ parts ++ [name]) as [|a l] eqn:E;
    [now destruct (List.filter _ parts)|].
  rewrite <- E. apply normalize_last_segment; [assumption|].
  apply unsplit_last_segment.
Qed.

End PathFacts.

(* ===================================================================== *)
(** * Further properties of the catalogs and the report allocator *)
(* ===================================================================== *)

Section Catalogs.

Import Fs Bureau.
Local Open Scope N_scope.

Lemma NoDup_fst_filter {A B} (f : A * B -> bool) (l : list (A * B)) :
  NoDup (map fst l) -> NoDup (map fst (List.filter f l)).
Proof.
  induction l as [|a l IH]; cbn [map List.filter]; [auto|].
  rewrite NoDup_cons. intros [Hnotin Hl]. destruct (f a); [|now apply IH].
  cbn [map]. apply NoDup_cons. split; [|now apply IH].
  intros Hin. apply Hnotin. apply list_elem_of_In in Hin.
  apply list_elem_of_In. apply in_map_iff in Hin.
  destruct Hin as (x & Ex & Hx). apply filter_In in Hx.
  apply in_map_iff. exists x. tauto.
Qed.

(** X1.  The directory catalog: [getAllTaskDirs] answers, on every state,
    the names of the entries of the root that are directories and parse as
    task directory names, each once, in ascending order of string
    comparison; files, links and names that do not parse are left out, and
    the root is created when it is absent while its entries stay as they
    were. *)
Theorem X1_directory_catalog (st : Fs.t) :
  exists allDirs,
    getAllTaskDirs st = (Ok allDirs, Root (entries_of st)) /\
    ascending allDirs /\
    NoDup allDirs /\
    (forall name,
       In name allDirs <->
       (exists names, entries_of st !! name = Some (Dir names)) /\
       is_Some (parseTaskDirName name)).
Proof.
  exists (catalog st). split; [apply getAllTaskDirs_catalog|].
  split; [apply sort_ascending|]. split; [|apply catalog_In].
  unfold catalog. rewrite sort_perm.
  apply NoDup_fst_filter. apply NoDup_fst_map_to_list.
Qed.

Lemma StronglySorted_sublist {A} (R : A -> A -> Prop) (l l' : list A) :
  StronglySorted R l -> l' `sublist_of` l -> StronglySorted R l'.
Proof.
  intros Hs Hsub. revert Hs.
  induction Hsub as [|x l1 l2 Hsub IH|x l1 l2 Hsub IH]; intros Hs.
  - constructor.
  - apply StronglySorted_inv in Hs. destruct Hs as [Hs Hall].
    constructor; [now apply IH|].
    rewrite List.Forall_forall in *. intros y Hy. apply Hall.
    apply list_elem_of_In. eapply sublist_subseteq; [exact Hsub|].
    now apply list_elem_of_In.
  - apply StronglySorted_inv in Hs. destruct Hs as [Hs _]. now apply IH.
Qed.

Lemma window_sublist {A} (s : list A) (n m : nat) :
  (n <= m)%nat -> take n s ++ drop m s `sublist_of` s.
Proof.
  intros H. rewrite <- (take_drop n s) at 3.
  apply sublist_app; [reflexivity|].
  replace m with (n + (m - n))%nat by lia. rewrite <- drop_drop.
  apply sublist_drop.
Qed.

Lemma reportFilesOf_sublist (entries : list jsstring) :
  reportFilesOf entries `sublist_of` sortedReports entries.
Proof.
  destruct (Nat.le_gt_cases (length (sortedReports entries)) 50) as [H|H].
  - now rewrite reportFilesOf_small.
  - rewrite reportFilesOf_large by assumption. apply window_sublist. lia.
Qed.

Lemma sortedReports_numbers (entries : list jsstring) :
  numbers_ascending (sortedReports entries).
Proof.
  unfold numbers_ascending.
  assert (forall x, In x (sortedReports entries) -> Re.report_file x = true) as Hrf
    by (intros x Hx; now apply sortedReports_In in Hx).
  pose proof (sort_ascending (List.filter Re.report_file entries)) as Hs.
  fold (sortedReports entries) in Hs. unfold ascending in Hs.
  induction Hs as [|x l Hl IH Hx]; [constructor|].
  constructor.
  - apply IH. intros y Hy. apply Hrf. now right.
  - rewrite List.Forall_forall in *. intros y Hy.
    apply numberOf_mono; [apply Hrf; now left|apply Hrf; now right|now apply Hx].
Qed.

(** X2.  The report listing of [getReportFiles], for any content of the
    directory: it holds at most 50 names, each an entry of the directory
    that passes the filter, in ascending order of string comparison, which
    for these three-digit names is also the order of their numbers.  A
    directory that is missing, or a plain file in its place, gives the empty
    listing, and the file system is never changed. *)
Theorem X2_report_listing (taskDir : jsstring) (st : Fs.t) (entries : list jsstring) :
  ((length (reportFilesOf entries) <= 50)%nat /\
   (forall name, In name (reportFilesOf entries) ->
                 In name entries /\ Re.report_file name = true) /\
   ascending (reportFilesOf entries) /\
   numbers_ascending (reportFilesOf entries)) /\
  (forall names,
     Path.component taskDir = true ->
     entries_of st !! taskDir = Some (Dir names) ->
     getReportFiles taskDir st = (Ok (reportFilesOf (elements names)), st)) /\
  (Path.component taskDir = true ->
   entries_of st !! taskDir = None \/ entries_of st !! taskDir = Some File ->
   getReportFiles taskDir st = (Ok [], st)) /\
  snd (getReportFiles taskDir st) = st.
Proof.
  split; [|split; [|split]].
  - split; [|split; [|split]].
    + destruct (Nat.le_gt_cases (length (sortedReports entries)) 50) as [H|H].
      * now rewrite reportFilesOf_small.
      * rewrite reportFilesOf_large, length_app, length_take, length_drop
          by assumption. lia.
    + intros name Hin. apply sortedReports_In. now apply reportFilesOf_incl.
    + eapply StronglySorted_sublist; [|apply reportFilesOf_sublist].
      apply sort_ascending.
    + eapply StronglySorted_sublist; [|apply reportFilesOf_sublist].
      apply sortedReports_numbers.
  - intros names Hc Hd. rewrite getReportFiles_readdir. unfold readdir.
    now rewrite Hc, Hd.
  - intros Hc Hd. rewrite getReportFiles_readdir. unfold readdir. rewrite Hc.
    cbn [negb]. now destruct Hd as [-> | ->].
  - rewrite getReportFiles_readdir. pose proof (readdir_state taskDir st) as H.
    destruct (readdir taskDir st) as [[l|e|] st']; cbn [snd] in *; congruence.
Qed.

Lemma numberOf_report_bound (name : jsstring) :
  Re.report_file name = true -> numberOf name <= 999.
Proof.
  intros H. destruct (report_file_shape name H)
    as (d1 & d2 & d3 & rest & -> & D1 & D2 & D3 & _).
  rewrite numberOf_shape by assumption.
  apply digit_bounds in D1, D2, D3. lia.
Qed.

(** X3.  The next report number, for any content of the directory: it lies
    between 1 and 1000 and is above the number of every report that passes
    the filter. *)
Theorem X3_next_number_above_all (entries : list jsstring) :
  1 <= nextNumberOf (reportFilesOf entries) <= 1000 /\
  (forall name, In name entries -> Re.report_file name = true ->
                numberOf name < nextNumberOf (reportFilesOf entries)).
Proof.
  rewrite nextNumberOf_reportFilesOf. split.
  - split; [lia|].
    assert (Js.Math_max (map numberOf (List.filter Re.report_file entries))
            <= Js.Math_max [999]) as H; [|cbn in H; lia].
    apply Math_max_le. intros x Hx. exists 999. split; [now left|].
    apply in_map_iff in Hx. destruct Hx as (name & <- & Hname).
    apply filter_In in Hname. now apply numberOf_report_bound.
  - intros name Hin Hrf.
    assert (numberOf name
            <= Js.Math_max (map numberOf (List.filter Re.report_file entries))) as H
      by (apply Math_max_ge, in_map, filter_In; now split).
    lia.
Qed.

(** X4.  The width boundary.  When the task directory holds a report
    numbered 999, the next number is 1000 and the proposed name
    [1000-suffix.md] does not pass the three-digit filter of the catalog:
    after the caller has created that file the next number is 1000 again,
    so the same name is proposed once more. *)
Theorem X4_allocation_sticks_at_1000
    (taskDir suffix report : jsstring) (names : gset jsstring) (st : Fs.t) :
  Path.component taskDir = true ->
  entries_of st !! taskDir = Some (Dir names) ->
  report ∈ names -> Re.report_file report = true -> numberOf report = 999 ->
  slug_shaped suffix = true ->
  fst (findNextReportNumber taskDir st) = Ok 1000 /\
  reportFileName 1000 suffix = Js.str "1000-" ++ suffix ++ Js.str ".md" /\
  Re.report_file (reportFileName 1000 suffix) = false /\
  fst (findNextReportNumber taskDir
         (createReport taskDir (reportFileName 1000 suffix) st)) = Ok 1000.
Proof.
  intros Hc Hd Hin Hrf Hnum _.
  assert (forall l : list jsstring,
            (forall name, In name l <->
                          name ∈ names \/ name = reportFileName 1000 suffix) \/
            (forall name, In name l <-> name ∈ names) ->
            Js.Math_max (map numberOf (List.filter Re.report_file l)) = 999) as Hmax.
  { intros l Hl. apply Math_max_attained.
    - apply in_map_iff. exists report. split; [assumption|].
      apply filter_In. split; [|assumption].
      destruct Hl as [Hl|Hl]; apply Hl; auto.
    - intros x Hx. apply in_map_iff in Hx. destruct Hx as (name & <- & Hname).
      apply filter_In in Hname. now apply numberOf_report_bound. }
  split; [|split; [reflexivity|split; [reflexivity|]]].
  - rewrite (findNextReportNumber_dir taskDir st names Hc Hd). cbn [fst].
    rewrite Hmax; [reflexivity|]. right. intros name.
    now rewrite <- list_elem_of_In, elem_of_elements.
  - unfold createReport. rewrite Hd.
    erewrite findNextReportNumber_dir;
      [|assumption|cbn [entries_of]; apply lookup_insert_eq].
    cbn [fst]. rewrite Hmax; [reflexivity|]. left. intros name.
    rewrite <- list_elem_of_In, elem_of_elements, elem_of_union, elem_of_singleton.
    tauto.
Qed.

End Catalogs.

(* ===================================================================== *)
(** * Further properties of the name codec *)
(* ===================================================================== *)

Section CodecOrder.

Import Fs Bureau.
Local Open Scope N_scope.

(** On printed dates, [>=] is the order of the calendar. *)
Lemma iso_date_order (d1 d2 : Clock.date) :
  Clock.valid d1 -> four_digit_year d1 -> Clock.valid d2 -> four_digit_year d2 ->
  length (Clock.toISODate d1) = length (Clock.toISODate d2) /\
  Js.geb (Clock.toISODate d1) (Clock.toISODate d2) = Clock.not_afterb d2 d1.
Proof.
  intros Hv1 Hy1 Hv2 Hy2.
  destruct (valid_small _ Hv1) as [Hm1 Hd1].
  destruct (valid_small _ Hv2) as [Hm2 Hd2].
  destruct (toISODate_shape _ Hy1 Hm1 Hd1)
    as (a1 & a2 & a3 & a4 & a5 & a6 & a7 & a8 & -> & Ha & Vy1 & Vm1 & Vd1).
  destruct (toISODate_shape _ Hy2 Hm2 Hd2)
    as (b1 & b2 & b3 & b4 & b5 & b6 & b7 & b8 & -> & Hb & Vy2 & Vm2 & Vd2).
  split; [reflexivity|].
  rewrite !andb_true_iff in Ha, Hb.
  destruct Ha as [[[[[[[A1 A2] A3] A4] A5] A6] A7] A8].
  destruct Hb as [[[[[[[B1 B2] B3] B4] B5] B6] B7] B8].
  change [a1; a2; a3; a4; Re.dash; a5; a6; Re.dash; a7; a8]
    with ([a1; a2; a3; a4] ++ Re.dash :: [a5; a6] ++ Re.dash :: [a7; a8]).
  change [b1; b2; b3; b4; Re.dash; b5; b6; Re.dash; b7; b8]
    with ([b1; b2; b3; b4] ++ Re.dash :: [b5; b6] ++ Re.dash :: [b7; b8]).
  rewrite iso_geb;
    [now rewrite Vy1, Vm1, Vd1, Vy2, Vm2, Vd2, !date_eta
    |first [reflexivity
           | cbn [forallb];
             now rewrite ?A1, ?A2, ?A3, ?A4, ?A5, ?A6, ?A7, ?A8,
               ?B1, ?B2, ?B3, ?B4, ?B5, ?B6, ?B7, ?B8] ..].
Qed.

(** What follows the date in a candidate name. *)
Lemma candidate_tail (d : Clock.date) (label : jsstring) (i : N) :
  i <= 25 ->
  exists c, candidate d label i = Clock.toISODate d ++ c :: (if i =? 0 then label else Re.dash :: label)
            /\ c = (if i =? 0 then Re.dash else 97 + i).
Proof.
  intros Hi. unfold candidate, getDateSuffix.
  destruct (N.eqb_spec i 0) as [->|Hne].
  - exists Re.dash. now split.
  - destruct (letter_b_to_z i ltac:(lia)) as [-> _].
    exists (97 + i). rewrite <- app_assoc. now split.
Qed.

(** X5.  Order preservation.  Of two names made by the codec, the one of
    the earlier day, or on one day the one with the smaller disambiguator,
    is the smaller string, whatever the two labels are: the sorted catalog
    lists the tasks in the order of their days and, within a day, of their
    disambiguators. *)
Theorem X5_names_sort_by_day_then_disambiguator
    (d1 d2 : Clock.date) (i j : N) (label1 label2 : jsstring) :
  Clock.valid d1 -> four_digit_year d1 -> Clock.valid d2 -> four_digit_year d2 ->
  i <= 25 -> j <= 25 ->
  Clock.before d1 d2 \/ (d1 = d2 /\ i < j) ->
  Js.ltb (candidate d1 label1 i) (candidate d2 label2 j) = true.
Proof.
  intros Hv1 Hy1 Hv2 Hy2 Hi Hj Horder.
  destruct (candidate_tail d1 label1 i Hi) as (c1 & -> & E1).
  destruct (candidate_tail d2 label2 j Hj) as (c2 & -> & E2).
  destruct (iso_date_order d1 d2 Hv1 Hy1 Hv2 Hy2) as [Hlen Hgeb].
  unfold Js.ltb. rewrite compare_app by assumption.
  destruct Horder as [Hbefore|[-> Hij]].
  - rewrite (before_not_after _ _ Hbefore) in Hgeb.
    unfold Js.geb, Js.ltb in Hgeb.
    now destruct (Js.compare (Clock.toISODate d1) (Clock.toISODate d2)).
  - rewrite compare_refl. cbn [Js.compare].
    assert (c1 < c2) as Hc.
    { subst c1 c2. destruct (N.eqb_spec i 0); destruct (N.eqb_spec j 0);
        unfold Re.dash; lia. }
    now rewrite (proj2 (N.compare_lt_iff _ _) Hc).
Qed.

(** X6.  What a successful parse says about the name: it is the date
    prefix, a dash and the slug; the slug is not empty and holds no line
    terminator; the prefix is ten code units [YYYY-MM-DD], alone or with one
    letter from [b] to [z]. *)
Theorem X6_parse_reconstructs_name (dirName prefix slug : jsstring) :
  parseTaskDirName dirName = Some (prefix, slug) ->
  dirName = prefix ++ Js.str "-" ++ slug /\
  Re.dot_plus_end slug = true /\
  exists date,
    length date = 10%nat /\ Re.iso_date date = Some (date, []) /\
    (prefix = date \/ exists c, Re.b_to_z c = true /\ prefix = date ++ [c]).
Proof.
  unfold parseTaskDirName, Re.task_dir.
  destruct (Re.iso_date dirName) as [[date rest]|] eqn:Ed; [|discriminate].
  assert (dirName = date ++ rest /\ length date = 10%nat /\
          Re.iso_date date = Some (date, [])) as (-> & Hlen & Hdate).
  { revert Ed. unfold Re.iso_date.
    destruct dirName as [|y1 [|y2 [|y3 [|y4 [|c1 [|m1 [|m2 [|c2 [|d1 [|d2 r]]]]]]]]]];
      try discriminate.
    destruct (Re.digit y1 && Re.digit y2 && Re.digit y3 && Re.digit y4
              && (c1 =? Re.dash) && Re.digit m1 && Re.digit m2 && (c2 =? Re.dash)
              && Re.digit d1 && Re.digit d2) eqn:E; [|discriminate].
    intros [= <- <-]. now rewrite E. }
  destruct rest as [|c rest]; [discriminate|].
  destruct (Re.b_to_z c) eqn:Ec.
  - destruct rest as [|c' slug']; [discriminate|].
    destruct (N.eqb_spec c' Re.dash) as [->|]; [|discriminate]. cbn [andb].
    destruct (Re.dot_plus_end slug') eqn:Es; [|discriminate].
    intros [= <- <-]. split; [now rewrite <- app_assoc|]. split; [assumption|].
    exists date. repeat split; try assumption. right. now exists c.
  - destruct (N.eqb_spec c Re.dash) as [->|]; [|discriminate]. cbn [andb].
    destruct (Re.dot_plus_end rest) eqn:Es; [|discriminate].
    intros [= <- <-]. split; [reflexivity|]. split; [assumption|].
    exists date. repeat split; try assumption. now left.
Qed.

(** X7.  Beyond the letters.  For an index from 26 to 65438,
    [getDateSuffix] appends one code unit past [z], and the name made from
    it does not parse as a task directory name, whatever the label. *)
Theorem X7_index_past_z_does_not_parse (today : Clock.date) (label : jsstring)
    (i : N) :
  Clock.valid today -> four_digit_year today -> 26 <= i <= 65438 ->
  getDateSuffix today i = Clock.toISODate today ++ [97 + i] /\
  parseTaskDirName (candidate today label i) = None.
Proof.
  intros Hv Hy Hi.
  assert (getDateSuffix today i = Clock.toISODate today ++ [97 + i]) as E.
  { unfold getDateSuffix, Js.fromCharCode.
    destruct (N.eqb_spec i 0); [lia|]. now rewrite N.mod_small by lia. }
  split; [exact E|].
  unfold parseTaskDirName, candidate, Re.task_dir. rewrite E, <- app_assoc.
  rewrite iso_date_toISODate by assumption.
  change ([97 + i] ++ Js.str "-" ++ label) with ((97 + i) :: Re.dash :: label).
  cbv beta iota.
  assert (Re.b_to_z (97 + i) = false) as ->.
  { unfold Re.b_to_z. apply andb_false_iff. right. apply N.leb_gt. lia. }
  assert ((97 + i =? Re.dash) = false) as ->; [|reflexivity].
  apply N.eqb_neq. unfold Re.dash. lia.
Qed.

End CodecOrder.

(* ===================================================================== *)
(** * Further properties of the pointer and the tools *)
(* ===================================================================== *)

Section Tools.

Import Fs Bureau.
Local Open Scope N_scope.

Lemma component_relative (name : jsstring) :
  Path.component name = true -> Path.isAbsolute name = false.
Proof.
  intros Hc. destruct (component_facts name Hc) as (_ & Hplain & _).
  destruct name as [|c name]; [reflexivity|].
  cbn [forallb] in Hplain. apply andb_true_iff in Hplain.
  destruct Hplain as [Hc0 _]. cbn [Path.isAbsolute]. now apply negb_true_iff.
Qed.

(** Reading a pointer whose target is a single entry name. *)
Lemma getCurrentTaskDir_link (cwd name : jsstring) (m : gmap jsstring node) :
  Path.component name = true ->
  m !! current = Some (Symlink name) ->
  getCurrentTaskDir cwd (Root m) = (Ok (Some name), Root m).
Proof.
  intros Hc Hl. unfold getCurrentTaskDir, try_catch, bind, readlink_current.
  rewrite Hl, (component_relative name Hc). unfold ret.
  pose proof (basename_join_entry [TASKS_DIR cwd] name Hc) as E.
  cbn [app] in E. now rewrite E.
Qed.

(** [getCurrentTaskDir] answers on every state and changes nothing. *)
Lemma getCurrentTaskDir_total (cwd : jsstring) (st : Fs.t) :
  exists r, getCurrentTaskDir cwd st = (Ok r, st).
Proof.
  unfold getCurrentTaskDir, try_catch, bind, ret, readlink_current.
  destruct st as [|m]; [now exists None|].
  destruct (m !! current) as [[names| |target]|]; eauto.
Qed.

Lemma getReportFiles_state (taskDir : jsstring) (st : Fs.t) :
  snd (getReportFiles taskDir st) = st.
Proof.
  rewrite getReportFiles_readdir. pose proof (readdir_state taskDir st) as H.
  destruct (readdir taskDir st) as [[l|e|] st']; cbn [snd] in *; congruence.
Qed.

Lemma getReportFiles_no_throw (taskDir message : jsstring) (st : Fs.t) :
  fst (getReportFiles taskDir st) <> Throw message.
Proof.
  rewrite getReportFiles_readdir.
  destruct (readdir taskDir st) as [[l|e|] st']; discriminate.
Qed.

Lemma getTaskInfo_state (taskDir : option jsstring) (st : Fs.t) :
  snd (getTaskInfo taskDir st) = st /\
  forall message, fst (getTaskInfo taskDir st) <> Throw message.
Proof.
  unfold getTaskInfo. destruct taskDir as [[|c d]|]; try (split; [reflexivity|discriminate]).
  destruct (parseTaskDirName (c :: d)); [|split; [reflexivity|discriminate]].
  unfold bind, ret.
  pose proof (getReportFiles_state (c :: d) st) as Hs.
  pose proof (fun message => getReportFiles_no_throw (c :: d) message st) as Hn.
  destruct (getReportFiles (c :: d) st) as [[l|e|] st']; cbn [fst snd] in *.
  - split; [assumption|discriminate].
  - now destruct (Hn e).
  - split; [assumption|discriminate].
Qed.

(** X8.  The pointer, written and read back.  For a single entry name and
    a root whose [current] is not a directory, [updateCurrentSymlink]
    replaces the pointer and touches nothing else, and [getCurrentTaskDir]
    then answers that name, whatever the working directory is.  When a
    directory stands at [current], the call throws and the root is as
    before. *)
Theorem X8_pointer_round_trip (cwd name : jsstring) (m : gmap jsstring node) :
  Path.component name = true ->
  ((forall names, m !! current <> Some (Dir names)) ->
   let st' := Root (<[current := Symlink name]> (delete current m)) in
   updateCurrentSymlink name (Root m) = (Ok tt, st') /\
   getCurrentTaskDir cwd st' = (Ok (Some name), st') /\
   (forall other, other <> current -> entries_of st' !! other = m !! other)) /\
  (forall names, m !! current = Some (Dir names) ->
   exists message, updateCurrentSymlink name (Root m) = (Throw message, Root m)).
Proof.
  intros Hc. split.
  - intros Hnd st'. split; [now apply updateCurrentSymlink_ok|]. split.
    + apply getCurrentTaskDir_link; [assumption|apply lookup_insert_eq].
    + intros other Hne. unfold st'. cbn [entries_of].
      rewrite lookup_insert_ne by congruence. now rewrite lookup_delete_ne.
  - intros names Hd. exists (Js.str "EEXIST").
    unfold updateCurrentSymlink, bind, try_catch, unlink_current, ret,
      symlink_current.
    now rewrite Hd, (component_target _ Hc), Hd.
Qed.

(** X9.  [current_task] right after [start_new_task] answers the task info
    that [start_new_task] has just answered, and changes nothing. *)
Theorem X9_current_task_after_start (cwd : jsstring) (today : Clock.date)
    (label : jsstring) (k : N) (st : Fs.t) :
  Clock.valid today -> four_digit_year today -> slug_shaped label = true ->
  k <= 25 ->
  (forall j, j < k -> In (candidate today label j) (catalog st)) ->
  entries_of st !! candidate today label k = None ->
  (forall names, entries_of st !! current <> Some (Dir names)) ->
  current_task cwd (snd (start_new_task today label st))
  = start_new_task today label st.
Proof.
  intros Hv Hy Hs Hk Hbelow Hfree Hcur.
  rewrite (start_new_task_step today label k st) by assumption. cbn [snd].
  pose proof (candidate_component today label k Hv Hy Hk Hs) as Hc.
  pose proof (candidate_parse today label k Hv Hy Hk Hs) as Hp.
  pose proof (candidate_not_current today label k Hv Hy) as Hnc.
  unfold current_task, handle, try_catch. unfold bind at 1.
  rewrite (getCurrentTaskDir_link cwd (candidate today label k));
    [|assumption|apply lookup_insert_eq].
  unfold bind.
  erewrite getTaskInfo_dir; [|exact Hc|exact Hp|].
  - now rewrite elements_empty.
  - cbn [entries_of]. rewrite lookup_insert_ne by congruence.
    apply lookup_insert_eq.
Qed.

(** X10.  The tools that only read: [current_task], [start_new_report_file]
    and [findNextReportNumber] leave the file system exactly as it was, on
    every state and for every argument; in particular the proposed report
    file is never created, and asking twice gives the same answer. *)
Theorem X10_reading_tools_change_nothing (cwd suffix taskDir : jsstring) (st : Fs.t) :
  snd (current_task cwd st) = st /\
  snd (start_new_report_file cwd suffix st) = st /\
  snd (findNextReportNumber taskDir st) = st /\
  start_new_report_file cwd suffix (snd (start_new_report_file cwd suffix st))
  = start_new_report_file cwd suffix st.
Proof.
  assert (forall d, snd (findNextReportNumber d st) = st) as Hnext.
  { intros d. unfold findNextReportNumber, bind, ret.
    pose proof (getReportFiles_state d st) as H.
    destruct (getReportFiles d st) as [[l|e|] st']; cbn [snd] in *; congruence. }
  assert (snd (start_new_report_file cwd suffix st) = st) as Hreport.
  { unfold start_new_report_file, handle, try_catch.
    destruct suffix as [|c suffix]; [reflexivity|].
    unfold bind at 1. destruct (getCurrentTaskDir_total cwd st) as [r ->].
    destruct r as [[|t d]|]; try reflexivity.
    unfold bind, ret. specialize (Hnext (t :: d)).
    destruct (findNextReportNumber (t :: d) st) as [[n|e|] st'];
      cbn [snd] in *; congruence. }
  split; [|split; [exact Hreport|split; [apply Hnext|now rewrite Hreport]]].
  unfold current_task, handle, try_catch. unfold bind at 1.
  destruct (getCurrentTaskDir_total cwd st) as [r ->].
  unfold bind, ret. destruct (getTaskInfo_state r st) as [Hs _].
  destruct (getTaskInfo r st) as [[[info|]|e|] st']; cbn [snd] in *; congruence.
Qed.

(** X11.  Without a pointer.  When [current] is absent or is not a symbolic
    link, [current_task] answers [No current task] as a plain result and
    [start_new_report_file] answers it as an error; neither changes the
    root. *)
Theorem X11_no_pointer (cwd suffix : jsstring) (st : Fs.t) :
  (forall target, entries_of st !! current <> Some (Symlink target)) ->
  current_task cwd st = (Ok NoCurrentTask, st) /\
  (suffix <> [] ->
   start_new_report_file cwd suffix st
   = (Ok (IsError (Js.str "No current task")), st)).
Proof.
  intros Hno.
  assert (getCurrentTaskDir cwd st = (Ok None, st)) as E.
  { unfold getCurrentTaskDir, try_catch, bind, ret, readlink_current.
    destruct st as [|m]; [reflexivity|]. cbn [entries_of] in Hno.
    destruct (m !! current) as [[names| |target]|] eqn:El; try reflexivity.
    now destruct (Hno target). }
  split.
  - unfold current_task, handle, try_catch. unfold bind at 1. now rewrite E.
  - intros Hne. unfold start_new_report_file, handle, try_catch.
    destruct suffix as [|c suffix]; [congruence|].
    unfold bind. now rewrite E.
Qed.

(** X12.  [list_recent_tasks] never fails: on every state, every day and
    every reading of the clock it answers a list of slugs, each the label of a task directory of the
    catalog, and the entries of the root are as before. *)
Theorem X12_list_recent_tasks_always_answers (today : Clock.date)
    (timeOfDay offsetChange : Z) (st : Fs.t) :
  exists slugs,
    list_recent_tasks today timeOfDay offsetChange st
    = (Ok (RecentTaskSlugs slugs), Root (entries_of st)) /\
    (forall slug, In slug slugs ->
       slug <> [] /\
       exists dirName, In dirName (catalog st) /\ label_of dirName = slug).
Proof.
  unfold list_recent_tasks, handle, try_catch, bind, getRecentTaskDirs, bind.
  rewrite getAllTaskDirs_catalog. unfold ret.
  eexists. split; [reflexivity|].
  intros slug Hin. apply filter_In in Hin. destruct Hin as [Hin Hne].
  apply negb_true_iff, eqb_neq in Hne. split; [assumption|].
  apply in_map_iff in Hin. destruct Hin as (dirName & E & Hd).
  apply filter_In in Hd. destruct Hd as [Hd _].
  exists dirName. split; [assumption|]. exact E.
Qed.

End Tools.

(* ===================================================================== *)
(** * Further properties of the task allocator *)
(* ===================================================================== *)

Section Allocator.

Import Fs Bureau.
Local Open Scope N_scope.

Lemma find_rev_split {A} (f : A -> bool) (l : list A) (x : A) :
  List.find f (rev l) = Some x ->
  exists l1 l2, l = l1 ++ x :: l2 /\ f x = true /\
                forall y, In y l2 -> f y = false.
Proof.
  induction l as [|a l IH] using rev_ind; [discriminate|].
  rewrite rev_app_distr. cbn [rev app List.find].
  destruct (f a) eqn:Ea.
  - intros [= <-]. exists l, []. repeat split; [assumption|]. intros y [].
  - intros H. destruct (IH H) as (l1 & l2 & -> & Hx & Hl2).
    exists l1, (l2 ++ [a]). split; [now rewrite <- app_assoc|].
    split; [assumption|]. intros y Hy. apply in_app_iff in Hy.
    destruct Hy as [Hy|[<-|[]]]; auto.
Qed.

Lemma ascending_before (l1 l2 : list jsstring) (x y : jsstring) :
  ascending (l1 ++ x :: l2) -> In y l1 -> Js.leb y x = true.
Proof.
  unfold ascending. induction l1 as [|a l1 IH]; intros Hs Hin; [destruct Hin|].
  cbn [app] in Hs. apply StronglySorted_inv in Hs. destruct Hs as [Hs Hall].
  destruct Hin as [<-|Hin]; [|now apply IH].
  rewrite List.Forall_forall in Hall. apply Hall.
  apply in_or_app. right. now left.
Qed.

Lemma parsed_not_current (name : jsstring) :
  is_Some (parseTaskDirName name) -> name <> current.
Proof. intros [p Hp] ->. vm_compute in Hp. discriminate Hp. Qed.

(** The test of [findTaskDirBySlug], in terms of labels. *)
Lemma slug_test_label (slug dirName : jsstring) :
  slug <> [] ->
  (match parseTaskDirName dirName with
   | Some parsed => Js.eqb (slug_of parsed) slug
   | None => false
   end = true) <-> label_of dirName = slug.
Proof.
  intros Hne. unfold label_of.
  destruct (parseTaskDirName dirName) as [parsed|].
  - apply eqb_eq.
  - split; [discriminate|congruence].
Qed.

(** X13.  [switch_task] with a label that some task directory carries: the
    directory chosen is the last one of the sorted catalog with that label
    (every other directory with the label is below it in string order), the
    pointer is replaced by a link to it, no other entry of the root changes,
    and the answer is the task info of the chosen directory. *)
Theorem X13_switch_task_takes_the_last (label dirName : jsstring) (st : Fs.t) :
  label <> [] -> well_formed st ->
  (forall names, entries_of st !! current <> Some (Dir names)) ->
  In dirName (catalog st) -> label_of dirName = label ->
  exists chosen names,
    In chosen (catalog st) /\ label_of chosen = label /\
    (forall other, In other (catalog st) -> label_of other = label ->
                   Js.leb other chosen = true) /\
    entries_of st !! chosen = Some (Dir names) /\
    switch_task label st
    = (Ok (TaskInfoResult
             {| task_slug := label;
                reports_dir := Path.join [Js.str "_tasks"; chosen];
                report_file_names := reportFilesOf (elements names) |}),
       Root (<[current := Symlink chosen]> (delete current (entries_of st)))).
Proof.
  intros Hne Hwf Hcur Hin Hlabel.
  set (test := fun d => match parseTaskDirName d with
                        | Some parsed => Js.eqb (slug_of parsed) label
                        | None => false
                        end).
  destruct (List.find test (rev (catalog st))) as [chosen|] eqn:Efind.
  2:{ pose proof (find_none _ _ Efind dirName) as H.
      rewrite <- in_rev in H. specialize (H Hin).
      apply (slug_test_label label dirName Hne) in Hlabel.
      unfold test in H. congruence. }
  destruct (find_rev_split _ _ _ Efind) as (l1 & l2 & Ecat & Htest & Hafter).
  assert (In chosen (catalog st)) as Hchosen
    by (rewrite Ecat; apply in_or_app; right; now left).
  pose proof Hchosen as Hc. apply catalog_In in Hc.
  destruct Hc as [[names Hdir] Hparse].
  assert (label_of chosen = label) as Hl
    by (now apply (slug_test_label label chosen Hne)).
  assert (Path.component chosen = true) as Hcomp
    by (apply Hwf; rewrite Hdir; eauto).
  pose proof (parsed_not_current chosen Hparse) as Hnc.
  exists chosen, names. split; [assumption|]. split; [assumption|].
  split; [|split; [assumption|]].
  - intros other Ho Hlo. rewrite Ecat in Ho. apply in_app_iff in Ho.
    destruct Ho as [Ho|[<-|Ho]].
    + eapply ascending_before; [|exact Ho]. rewrite <- Ecat. apply sort_ascending.
    + apply leb_refl.
    + apply (slug_test_label label other Hne) in Hlo.
      specialize (Hafter other Ho). unfold test in Hafter. congruence.
  - assert (switch_task label st
            = handle
                (Fs.bind (findTaskDirBySlug label)
                   (fun found =>
                      match found with
                      | None => throw (Js.str "Task not found: " ++ label)
                      | Some taskDir =>
                          Fs.bind (updateCurrentSymlink taskDir)
                            (fun _ =>
                               Fs.bind (getTaskInfo (Some taskDir))
                                 (fun taskInfo => ret (jsonTaskInfo taskInfo)))
                      end)) st) as ->
      by (unfold switch_task; destruct label; [congruence|reflexivity]).
    unfold handle, try_catch.
    unfold bind at 1. unfold findTaskDirBySlug, bind at 1.
    rewrite getAllTaskDirs_catalog. unfold ret at 1.
    change (List.find _ (rev (catalog st)))
      with (List.find test (rev (catalog st))).
    rewrite Efind. unfold bind at 1.
    rewrite updateCurrentSymlink_ok by assumption.
    unfold bind.
    destruct Hparse as [[prefix slug] Hp].
    assert (slug = label) as -> by (unfold label_of in Hl; now rewrite Hp in Hl).
    erewrite getTaskInfo_dir; [reflexivity|exact Hcomp|exact Hp|].
    cbn [entries_of]. rewrite lookup_insert_ne by congruence.
    now rewrite lookup_delete_ne by congruence.
Qed.

Lemma probe_some (today : Clock.date) (allDirs : list jsstring)
    (slug todayStr : jsstring) (remaining : nat) (i : N) (name : jsstring) :
  probe today allDirs todayStr slug remaining i = Some name ->
  exists k, i <= k < i + N.of_nat remaining /\ name = candidate today slug k /\
            ~ In name allDirs /\
            forall j, i <= j < k -> In (candidate today slug j) allDirs.
Proof.
  revert i. induction remaining as [|remaining IH]; intros i; [discriminate|].
  cbn [probe].
  destruct (negb (Js.startsWith (getDateSuffix today i) todayStr)); [discriminate|].
  fold (candidate today slug i).
  destruct (Js.includes allDirs (candidate today slug i)) eqn:E; cbn [negb].
  - intros H. destruct (IH _ H) as (k & Hk & -> & Hfree & Hbelow).
    exists k. split; [lia|]. split; [reflexivity|]. split; [assumption|].
    intros j Hj. destruct (N.eq_dec j i) as [->|]; [now apply includes_In|].
    apply Hbelow. lia.
  - intros [= <-]. exists i. split; [lia|]. split; [reflexivity|].
    split; [now apply includes_false|]. intros j Hj. lia.
Qed.

(** X14.  Freshness.  A name that [findNextTaskDirName] returns is not in
    the catalog: it is the candidate of the first disambiguator, among 0 to
    25, whose name is not an existing task directory, and all the smaller
    ones are taken.  The call leaves the entries of the root as they were. *)
Theorem X14_next_task_name_is_fresh (today : Clock.date) (slug name : jsstring)
    (st st' : Fs.t) :
  findNextTaskDirName today slug st = (Ok name, st') ->
  st' = Root (entries_of st) /\
  ~ In name (catalog st) /\
  exists k, k < 26 /\ name = candidate today slug k /\
            forall j, j < k -> In (candidate today slug j) (catalog st).
Proof.
  unfold findNextTaskDirName, bind. rewrite getAllTaskDirs_catalog.
  destruct (probe today (catalog st) (Clock.toISODate today) slug 26 0)
    as [name'|] eqn:E; [|discriminate].
  intros [= <- <-]. split; [reflexivity|].
  destruct (probe_some _ _ _ _ _ _ _ E) as (k & Hk & -> & Hfree & Hbelow).
  split; [assumption|]. exists k. split; [lia|]. split; [reflexivity|].
  intros j Hj. apply Hbelow. lia.
Qed.

(** X15.  A full day.  When the 26 names of a label are all task
    directories, [start_new_task] answers the error
    [Too many tasks for today (max 26)], creates no directory and leaves the
    pointer as it was. *)
Theorem X15_twenty_seventh_task_refused (today : Clock.date) (label : jsstring)
    (st : Fs.t) :
  label <> [] ->
  (forall j, j < 26 -> In (candidate today label j) (catalog st)) ->
  start_new_task today label st
  = (Ok (IsError (Js.str "Too many tasks for today (max 26)")),
     Root (entries_of st)).
Proof.
  intros Hne Htaken. unfold start_new_task, handle, try_catch.
  destruct label as [|c0 label0] eqn:El; [congruence|]. rewrite <- El in *.
  unfold bind at 1. unfold findNextTaskDirName, bind at 1.
  rewrite getAllTaskDirs_catalog.
  rewrite probe_all_taken; [reflexivity|].
  intros j Hj. apply Htaken. lia.
Qed.

Lemma candidate_inj (today : Clock.date) (label : jsstring) (i j : N) :
  i <= 25 -> j <= 25 ->
  candidate today label i = candidate today label j -> i = j.
Proof.
  intros Hi Hj E.
  destruct (candidate_tail today label i Hi) as (c1 & E1 & C1).
  destruct (candidate_tail today label j Hj) as (c2 & E2 & C2).
  rewrite E1, E2 in E. apply app_inv_head in E.
  assert (c1 = c2) as Ec by congruence.
  subst c1 c2. unfold Re.dash in Ec.
  destruct (N.eqb_spec i 0); destruct (N.eqb_spec j 0); lia.
Qed.

(** The root after [n] tasks of one label on one day. *)
Lemma started_invariant (today : Clock.date) (label : jsstring) (n : nat)
    (st : Fs.t) :
  Clock.valid today -> four_digit_year today -> slug_shaped label = true ->
  (n <= 26)%nat ->
  (forall j, j <= 25 -> entries_of st !! candidate today label j = None) ->
  (forall names, entries_of st !! current <> Some (Dir names)) ->
  (forall j, j < N.of_nat n ->
     entries_of (started today label n st) !! candidate today label j
     = Some (Dir ∅)) /\
  (forall j, N.of_nat n <= j <= 25 ->
     entries_of (started today label n st) !! candidate today label j = None) /\
  (forall names,
     entries_of (started today label n st) !! current <> Some (Dir names)) /\
  (forall m, n = S m ->
     start_new_task today label (started today label m st)
     = (Ok (TaskInfoResult
              {| task_slug := label;
                 reports_dir :=
                   Path.join [Js.str "_tasks"; candidate today label (N.of_nat m)];
                 report_file_names := [] |}),
        started today label n st) /\
     entries_of (started today label n st) !! current
     = Some (Symlink (candidate today label (N.of_nat m)))).
Proof.
  intros Hv Hy Hs Hn Hfree Hcur. induction n as [|n IH].
  - split; [intros j Hj; lia|]. split; [intros j Hj; apply Hfree; lia|].
    split; [exact Hcur|]. intros m Hm. discriminate Hm.
  - destruct (IH ltac:(lia)) as (Hdone & Htodo & Hc & _).
    pose proof (start_new_task_step today label (N.of_nat n)
                  (started today label n st) Hv Hy Hs ltac:(lia)) as Hstep.
    assert (forall j, j < N.of_nat n ->
              In (candidate today label j) (catalog (started today label n st)))
      as Hcat.
    { intros j Hj. apply catalog_In. split; [exists ∅; now apply Hdone|].
      rewrite (candidate_parse today label j) by (assumption || lia). eauto. }
    specialize (Hstep Hcat (Htodo (N.of_nat n) ltac:(lia)) Hc).
    change (started today label (S n) st)
      with (snd (start_new_task today label (started today label n st))).
    rewrite Hstep. cbn [snd entries_of].
    pose proof (candidate_not_current today label) as Hnc.
    split; [|split; [|split]].
    + intros j Hj. rewrite lookup_insert_ne by (apply not_eq_sym, Hnc; assumption).
      destruct (N.eq_dec j (N.of_nat n)) as [->|Hne]; [apply lookup_insert_eq|].
      rewrite lookup_insert_ne
        by (intros E; apply candidate_inj in E; lia).
      rewrite lookup_delete_ne by (apply not_eq_sym, Hnc; assumption).
      apply Hdone. lia.
    + intros j Hj. rewrite lookup_insert_ne by (apply not_eq_sym, Hnc; assumption).
      rewrite lookup_insert_ne
        by (intros E; apply candidate_inj in E; lia).
      rewrite lookup_delete_ne by (apply not_eq_sym, Hnc; assumption).
      apply Htodo. lia.
    + intros names. now rewrite lookup_insert_eq.
    + intros m [= <-]. split; [exact Hstep|apply lookup_insert_eq].
Qed.

(** X16.  The tasks of one day.  From a root where none of the 26 names of
    a label is in use, the call number [n+1] of [start_new_task] with that
    label on that day (for [n] from 0 to 25) creates the directory of the
    disambiguator [n], answers its task info with no reports, and leaves
    the pointer on it; the directories of the earlier calls are still
    there. *)
Theorem X16_nth_task_of_the_day (today : Clock.date) (label : jsstring) (n : nat)
    (st : Fs.t) :
  Clock.valid today -> four_digit_year today -> slug_shaped label = true ->
  (n <= 25)%nat ->
  (forall j, j <= 25 -> entries_of st !! candidate today label j = None) ->
  (forall names, entries_of st !! current <> Some (Dir names)) ->
  start_new_task today label (started today label n st)
  = (Ok (TaskInfoResult
           {| task_slug := label;
              reports_dir :=
                Path.join [Js.str "_tasks"; candidate today label (N.of_nat n)];
              report_file_names := [] |}),
     started today label (S n) st) /\
  entries_of (started today label (S n) st) !! current
  = Some (Symlink (candidate today label (N.of_nat n))) /\
  (forall j, j <= N.of_nat n ->
     In (candidate today label j) (catalog (started today label (S n) st))).
Proof.
  intros Hv Hy Hs Hn Hfree Hcur.
  destruct (started_invariant today label (S n) st Hv Hy Hs ltac:(lia) Hfree Hcur)
    as (Hdone & _ & _ & Hlast).
  destruct (Hlast n eq_refl) as [Hcall Hptr].
  split; [exact Hcall|]. split; [exact Hptr|].
  intros j Hj. apply catalog_In. split; [exists ∅; apply Hdone; lia|].
  rewrite (candidate_parse today label j) by (assumption || lia). eauto.
Qed.

End Allocator.

(* ===================================================================== *)
(** * Further properties: recency of a new task, odd labels, the dispatcher *)
(* ===================================================================== *)

Section Calls.

Import Fs Bureau.
Local Open Scope N_scope.

Lemma recent_by_date_today (today cutoff : Clock.date) (label : jsstring) (k : N) :
  Clock.valid today -> four_digit_year today -> k <= 25 ->
  Re.dot_plus_end label = true ->
  Clock.before cutoff today ->
  recent_by_date cutoff (candidate today label k) = true.
Proof.
  intros Hv Hy Hk Hl Hb. unfold recent_by_date.
  rewrite candidate_parse_line by assumption. cbn [datePrefix fst].
  rewrite dateOfPrefix_getDateSuffix by assumption.
  now apply before_not_afterb.
Qed.

(** X17.  A task that [start_new_task] has just created is among the
    answers of [list_recent_tasks] on the same day, whatever the time of
    day and the change of the local offset. *)
Theorem X17_started_task_is_recent (today : Clock.date) (timeOfDay offsetChange : Z)
    (label : jsstring) (k : N) (st : Fs.t) :
  Clock.valid today -> four_digit_year today ->
  Clock.reading timeOfDay offsetChange ->
  four_digit_year (Clock.thirtyDaysAgo today timeOfDay offsetChange) ->
  slug_shaped label = true -> k <= 25 ->
  (forall j, j < k -> In (candidate today label j) (catalog st)) ->
  entries_of st !! candidate today label k = None ->
  (forall names, entries_of st !! current <> Some (Dir names)) ->
  exists slugs,
    fst (list_recent_tasks today timeOfDay offsetChange
           (snd (start_new_task today label st)))
    = Ok (RecentTaskSlugs slugs) /\
    In label slugs.
Proof.
  intros Hv Hy Hclock Hyc Hs Hk Hbelow Hfree Hcur.
  rewrite (start_new_task_step today label k st) by assumption. cbn [snd].
  set (st' := Root _).
  destruct (slug_shaped_dots label Hs) as [Hne Hdots].
  assert (Re.dot_plus_end label = true) as Hline
    by (unfold slug_shaped in Hs; apply andb_true_iff in Hs; tauto).
  pose proof (candidate_not_current today label k Hv Hy) as Hnc.
  destruct (thirtyDaysAgo_days today _ _ Hclock) as (n & Hn & En).
  assert (Clock.before (Clock.thirtyDaysAgo today timeOfDay offsetChange) today)
    as Hbefore
    by (rewrite En; apply (sub_days_before 0 n today Hv); lia).
  unfold list_recent_tasks, handle, try_catch, bind.
  rewrite (getRecentTaskDirs_by_date today timeOfDay offsetChange st')
    by (assumption || (rewrite En; now apply sub_days_valid)).
  unfold ret. eexists. split; [reflexivity|].
  apply filter_In. split; [|now apply negb_true_iff, eqb_neq].
  apply in_map_iff. exists (candidate today label k). split.
  - now rewrite (candidate_parse_line today label k).
  - apply filter_In. split; [|now apply recent_by_date_today].
    apply catalog_In. split.
    + exists ∅. unfold st'. cbn [entries_of].
      rewrite lookup_insert_ne by congruence. apply lookup_insert_eq.
    + rewrite (candidate_parse_line today label k) by assumption. eauto.
Qed.

Lemma plain_candidate_component (today : Clock.date) (label : jsstring) :
  Clock.valid today -> four_digit_year today ->
  forallb (fun c => negb (c =? Path.slash) && negb (c =? 0)) label = true ->
  Path.component (candidate today label 0) = true.
Proof.
  intros Hv Hy Hp. destruct (valid_small today Hv) as [Hm Hd].
  destruct (toISODate_shape today Hy Hm Hd)
    as (y1 & y2 & y3 & y4 & m1 & m2 & d1 & d2 & E & D & _).
  rewrite !andb_true_iff in D.
  destruct D as [[[[[[[Y1 Y2] Y3] Y4] M1] M2] D1] D2].
  unfold candidate, getDateSuffix. cbn [N.eqb]. rewrite E.
  cbn [app]. apply component_intro; [assumption|].
  change (Js.str "-" ++ label) with (45 :: label). cbn [forallb].
  now rewrite Hp, (digit_plain y2), (digit_plain y3), (digit_plain y4),
    (digit_plain m1), (digit_plain m2), (digit_plain d1), (digit_plain d2).
Qed.

Lemma getTaskInfo_unparsable (taskDir : jsstring) (st : Fs.t) :
  parseTaskDirName taskDir = None -> getTaskInfo (Some taskDir) st = (Ok None, st).
Proof.
  intros Hp. unfold getTaskInfo. destruct taskDir; [reflexivity|]. now rewrite Hp.
Qed.

Lemma start_new_task_nonempty (today : Clock.date) (label : jsstring) (st : Fs.t) :
  label <> [] ->
  start_new_task today label st
  = handle
      (Fs.bind (findNextTaskDirName today label)
         (fun taskDirName =>
            Fs.bind (mkdir taskDirName)
              (fun _ =>
                 Fs.bind (updateCurrentSymlink taskDirName)
                   (fun _ =>
                      Fs.bind (getTaskInfo (Some taskDirName))
                        (fun taskInfo => ret (jsonTaskInfo taskInfo)))))) st.
Proof. intros H. unfold start_new_task. destruct label; [congruence|reflexivity]. Qed.

(** X18.  A label with a line break.  The directory and the pointer are
    made as for any label, but the name does not parse: [start_new_task]
    answers [null], the catalog does not list the new directory,
    [current_task] answers [No current task], and a second call with the
    same label lands on the same directory. *)
Theorem X18_label_with_line_terminator (cwd : jsstring) (today : Clock.date)
    (label : jsstring) (st : Fs.t) :
  Clock.valid today -> four_digit_year today ->
  label <> [] ->
  forallb (fun c => negb (c =? Path.slash) && negb (c =? 0)) label = true ->
  Re.dot_plus_end label = false ->
  entries_of st !! candidate today label 0 = None ->
  (forall names, entries_of st !! current <> Some (Dir names)) ->
  let made := candidate today label 0 in
  let st' := Root (<[current := Symlink made]>
                     (<[made := Dir ∅]> (delete current (entries_of st)))) in
  start_new_task today label st = (Ok NullResult, st') /\
  ~ In made (catalog st') /\
  current_task cwd st' = (Ok NoCurrentTask, st') /\
  start_new_task today label st' = (Ok NullResult, st').
Proof.
  intros Hv Hy Hne Hplain Hline Hfree Hcur made st'.
  pose proof (plain_candidate_component today label Hv Hy Hplain) as Hc.
  fold made in Hc.
  assert (parseTaskDirName made = None) as Hp.
  { unfold made, candidate, getDateSuffix, parseTaskDirName, Re.task_dir.
    cbn [N.eqb]. rewrite iso_date_toISODate by assumption.
    change (Js.str "-" ++ label) with (Re.dash :: label). cbv beta iota.
    now rewrite b_to_z_dash, N.eqb_refl, Hline. }
  pose proof (candidate_not_current today label 0 Hv Hy) as Hnc. fold made in Hnc.
  assert (~ In made (catalog st')) as Hnot.
  { intros Hin. apply catalog_In in Hin. destruct Hin as [_ [p Hs]]. congruence. }
  assert (forall s : Fs.t,
            ~ In made (catalog s) ->
            (entries_of s !! made = None \/ exists ns, entries_of s !! made = Some (Dir ns)) ->
            (forall names, entries_of s !! current <> Some (Dir names)) ->
            start_new_task today label s
            = (Ok NullResult,
               Root (<[current := Symlink made]>
                       (delete current
                          (match entries_of s !! made with
                           | None => <[made := Dir ∅]> (entries_of s)
                           | Some _ => entries_of s
                           end))))) as Hcall.
  { intros s Hfresh Hmade Hcs.
    rewrite start_new_task_nonempty by assumption. unfold handle, try_catch.
    unfold bind at 1. unfold findNextTaskDirName, bind at 1.
    rewrite getAllTaskDirs_catalog.
    rewrite (probe_first_free today (catalog s) label 26 0 0);
      [|lia|intros j Hj; lia|exact Hfresh].
    fold made. unfold ret at 1. unfold bind at 1. unfold mkdir.
    rewrite Hc. cbn [negb entries_of].
    destruct Hmade as [Hm|[ns Hm]]; rewrite Hm.
    - unfold bind at 1.
      rewrite updateCurrentSymlink_ok;
        [|assumption|intros names; rewrite lookup_insert_ne by congruence; apply Hcs].
      unfold bind. now rewrite getTaskInfo_unparsable.
    - unfold bind at 1.
      destruct s as [|ms];
        [cbn [entries_of] in Hm; rewrite lookup_empty in Hm; discriminate|].
      cbn [entries_of] in *.
      rewrite updateCurrentSymlink_ok by assumption.
      unfold bind. now rewrite getTaskInfo_unparsable. }
  split; [|split; [assumption|split]].
  - rewrite Hcall; [|now apply catalog_absent|now left|assumption].
    fold made in Hfree. rewrite Hfree. unfold st'.
    now rewrite delete_insert_ne by congruence.
  - unfold st', current_task, handle, try_catch. unfold bind at 1.
    rewrite (getCurrentTaskDir_link cwd made); [|assumption|apply lookup_insert_eq].
    unfold bind. now rewrite getTaskInfo_unparsable.
  - assert (entries_of st' !! made = Some (Dir ∅)) as Hm.
    { unfold st'. cbn [entries_of]. rewrite lookup_insert_ne by congruence.
      apply lookup_insert_eq. }
    rewrite Hcall; [|assumption|right; now exists ∅|].
    + rewrite Hm. unfold st'. cbn [entries_of].
      now rewrite delete_insert_eq, insert_delete_eq.
    + intros names. unfold st'. cbn [entries_of]. now rewrite lookup_insert_eq.
Qed.

Lemma handle_no_throw (body : M response) (st : Fs.t) (message : jsstring) :
  fst (handle body st) <> Throw message.
Proof.
  unfold handle, try_catch, ret. now destruct (body st) as [[r|e|] st'].
Qed.

(** X19.  The dispatcher.  No error escapes a tool call: whatever the tool
    name, the arguments and the state, the call answers (errors are answers
    flagged as errors).  An unknown tool name, a missing argument object
    and a required argument that is missing or empty are each answered by
    an error and leave the file system exactly as it was. *)
Theorem X19_call_tool_answers (cwd : jsstring) (today : Clock.date)
    (timeOfDay offsetChange : Z)
    (name : jsstring) (args : option arguments) (st : Fs.t) :
  (forall message, fst (callTool cwd today timeOfDay offsetChange name args st) <> Throw message) /\
  (~ In name [Js.str "current_task"; Js.str "start_new_task"; Js.str "switch_task";
              Js.str "list_recent_tasks"; Js.str "start_new_report_file"] ->
   callTool cwd today timeOfDay offsetChange name args st
   = (Ok (IsError (Js.str "Unknown tool: " ++ name)), st)) /\
  (In name [Js.str "start_new_task"; Js.str "switch_task";
            Js.str "start_new_report_file"] ->
   args = None ->
   exists message,
     callTool cwd today timeOfDay offsetChange name args st
     = (Ok (IsError message), st)) /\
  (forall a,
     In name [Js.str "start_new_task"; Js.str "switch_task"] ->
     args = Some a -> default [] (arg_task_slug a) = [] ->
     callTool cwd today timeOfDay offsetChange name args st
     = (Ok (IsError (Js.str "task_slug is required")), st)) /\
  (forall a,
     name = Js.str "start_new_report_file" ->
     args = Some a -> default [] (arg_suffix a) = [] ->
     callTool cwd today timeOfDay offsetChange name args st
     = (Ok (IsError (Js.str "suffix is required")), st)).
Proof.
  split; [|split; [|split; [|split]]].
  - intros message. unfold callTool.
    repeat match goal with
           | |- context [if Js.eqb ?a ?b then _ else _] => destruct (Js.eqb a b)
           end;
      try destruct args; apply handle_no_throw.
  - intros Hnot. unfold callTool. cbn [In] in Hnot.
    repeat match goal with
           | |- context [if Js.eqb ?a ?b then _ else _] =>
               destruct (Js.eqb a b) eqn:?E
           end;
      try reflexivity;
      match goal with H : Js.eqb _ _ = true |- _ => apply eqb_eq in H end;
      subst name; exfalso; apply Hnot; auto 10.
  - intros Hin ->. cbn [In] in Hin.
    destruct Hin as [<-|[<-|[<-|[]]]]; eexists; reflexivity.
  - intros a Hin -> Hslug. cbn [In] in Hin.
    destruct Hin as [<-|[<-|[]]]; unfold callTool;
      repeat (rewrite (proj2 (eqb_neq _ _)) by discriminate);
      rewrite (proj2 (eqb_eq _ _) eq_refl), Hslug; reflexivity.
  - intros a -> -> Hsuffix. unfold callTool.
    repeat (rewrite (proj2 (eqb_neq _ _)) by discriminate).
    rewrite (proj2 (eqb_eq _ _) eq_refl), Hsuffix. reflexivity.
Qed.

End Calls.

(* ===================================================================== *)
(** * Worked instances of the further properties *)
(* ===================================================================== *)

Section MoreInstances.

Import Fs Bureau.
Local Open Scope N_scope.

Lemma absent_pointer_free :
  forall names : gset jsstring, entries_of Absent !! current <> Some (Dir names).
Proof. intros names. cbn [entries_of]. rewrite lookup_empty. discriminate. Defined.

Lemma X4_sticks_after_999 :
  let st := Root {[ sample_task := Dir {[ Js.str "999-last.md" ]} ]} in
  fst (findNextReportNumber sample_task st) = Ok 1000 /\
  reportFileName 1000 (Js.str "plan") = Js.str "1000-" ++ Js.str "plan" ++ Js.str ".md" /\
  Re.report_file (reportFileName 1000 (Js.str "plan")) = false /\
  fst (findNextReportNumber sample_task
         (createReport sample_task (reportFileName 1000 (Js.str "plan")) st)) = Ok 1000.
Proof.
  apply (X4_allocation_sticks_at_1000 sample_task (Js.str "plan")
           (Js.str "999-last.md") {[ Js.str "999-last.md" ]}).
  - vm_compute. reflexivity.
  - apply lookup_singleton_eq.
  - now apply elem_of_singleton.
  - vm_compute. reflexivity.
  - vm_compute. reflexivity.
  - vm_compute. reflexivity.
Defined.

Lemma X5_yesterday_d_before_today :
  Js.ltb (candidate (Clock.mkDate 2025 10 30) (Js.str "b") 3)
         (candidate sample_today (Js.str "a") 0) = true.
Proof.
  apply X5_names_sort_by_day_then_disambiguator.
  - unfold Clock.valid. cbn. lia.
  - unfold four_digit_year. cbn. lia.
  - exact sample_today_valid.
  - exact sample_today_four_digit.
  - lia.
  - lia.
  - left. unfold Clock.before. cbn. lia.
Defined.

Lemma X6_second_task_name :
  Js.str "2025-10-01b-second-task"
  = Js.str "2025-10-01b" ++ Js.str "-" ++ Js.str "second-task" /\
  Re.dot_plus_end (Js.str "second-task") = true /\
  exists date,
    length date = 10%nat /\ Re.iso_date date = Some (date, []) /\
    (Js.str "2025-10-01b" = date \/
     exists c, Re.b_to_z c = true /\ Js.str "2025-10-01b" = date ++ [c]).
Proof.
  apply (X6_parse_reconstructs_name (Js.str "2025-10-01b-second-task")).
  vm_compute. reflexivity.
Defined.

Lemma X7_index_26 :
  getDateSuffix sample_today 26 = Clock.toISODate sample_today ++ [97 + 26] /\
  parseTaskDirName (candidate sample_today (Js.str "x") 26) = None.
Proof.
  apply X7_index_past_z_does_not_parse;
    [exact sample_today_valid|exact sample_today_four_digit|lia].
Defined.

Lemma X8_pointer_in_an_empty_root :
  ((forall names, (∅ : gmap jsstring node) !! current <> Some (Dir names)) ->
   let st' := Root (<[current := Symlink sample_task]> (delete current ∅)) in
   updateCurrentSymlink sample_task (Root ∅) = (Ok tt, st') /\
   getCurrentTaskDir (Js.str "/work") st' = (Ok (Some sample_task), st') /\
   (forall other, other <> current ->
      entries_of st' !! other = (∅ : gmap jsstring node) !! other)) /\
  (forall names, (∅ : gmap jsstring node) !! current = Some (Dir names) ->
   exists message,
     updateCurrentSymlink sample_task (Root ∅) = (Throw message, Root ∅)).
Proof.
  apply (X8_pointer_round_trip (Js.str "/work") sample_task ∅).
  vm_compute. reflexivity.
Defined.

Lemma X9_first_task_then_current_task :
  current_task (Js.str "/work")
    (snd (start_new_task sample_today (Js.str "x") Absent))
  = start_new_task sample_today (Js.str "x") Absent.
Proof.
  apply (X9_current_task_after_start (Js.str "/work") sample_today (Js.str "x") 0).
  - exact sample_today_valid.
  - exact sample_today_four_digit.
  - reflexivity.
  - lia.
  - intros j Hj. lia.
  - apply lookup_empty.
  - exact absent_pointer_free.
Defined.

Lemma X11_absent_root_has_no_current_task :
  current_task (Js.str "/work") Absent = (Ok NoCurrentTask, Absent) /\
  (Js.str "plan" <> [] ->
   start_new_report_file (Js.str "/work") (Js.str "plan") Absent
   = (Ok (IsError (Js.str "No current task")), Absent)).
Proof.
  apply X11_no_pointer.
  intros target. cbn [entries_of]. rewrite lookup_empty. discriminate.
Defined.

Lemma sample_root_well_formed : well_formed sample_root.
Proof.
  intros name [v Hv]. unfold sample_root in Hv. cbn [entries_of] in Hv.
  apply lookup_insert_Some in Hv. destruct Hv as [[<- _]|[_ Hv]].
  - vm_compute. reflexivity.
  - apply lookup_singleton_Some in Hv. destruct Hv as [<- _].
    vm_compute. reflexivity.
Defined.

Lemma X13_switch_to_the_sample_task :
  exists chosen names,
    In chosen (catalog sample_root) /\ label_of chosen = Js.str "t" /\
    (forall other, In other (catalog sample_root) -> label_of other = Js.str "t" ->
                   Js.leb other chosen = true) /\
    entries_of sample_root !! chosen = Some (Dir names) /\
    switch_task (Js.str "t") sample_root
    = (Ok (TaskInfoResult
             {| task_slug := Js.str "t";
                reports_dir := Path.join [Js.str "_tasks"; chosen];
                report_file_names := reportFilesOf (elements names) |}),
       Root (<[current := Symlink chosen]> (delete current (entries_of sample_root)))).
Proof.
  apply (X13_switch_task_takes_the_last (Js.str "t") sample_task sample_root).
  - discriminate.
  - exact sample_root_well_formed.
  - intros names. unfold sample_root. cbn [entries_of].
    rewrite lookup_insert_eq. discriminate.
  - assert (catalog sample_root = [sample_task]) as -> by (vm_compute; reflexivity).
    now left.
  - vm_compute. reflexivity.
Defined.

Lemma X14_first_name_in_an_absent_root :
  Root ∅ = Root (entries_of Absent) /\
  ~ In (candidate sample_today (Js.str "x") 0) (catalog Absent) /\
  exists k, k < 26 /\
            candidate sample_today (Js.str "x") 0 = candidate sample_today (Js.str "x") k /\
            forall j, j < k -> In (candidate sample_today (Js.str "x") j) (catalog Absent).
Proof.
  apply (X14_next_task_name_is_fresh sample_today (Js.str "x")
           (candidate sample_today (Js.str "x") 0) Absent (Root ∅)).
  vm_compute. reflexivity.
Defined.

Lemma X15_after_26_tasks :
  start_new_task sample_today (Js.str "x")
    (started sample_today (Js.str "x") 26 Absent)
  = (Ok (IsError (Js.str "Too many tasks for today (max 26)")),
     Root (entries_of (started sample_today (Js.str "x") 26 Absent))).
Proof.
  apply X15_twenty_seventh_task_refused; [discriminate|].
  intros j Hj.
  assert (forallb
            (fun j => Js.includes (catalog (started sample_today (Js.str "x") 26 Absent))
                        (candidate sample_today (Js.str "x") j))
            (upto 0 26) = true) as T by (vm_compute; reflexivity).
  rewrite forallb_forall in T.
  specialize (T j (upto_In 0 26 j ltac:(lia))). cbv beta in T.
  exact (proj1 (includes_In _ _) T).
Defined.

Lemma X16_third_task_of_the_day :
  start_new_task sample_today (Js.str "x") (started sample_today (Js.str "x") 2 Absent)
  = (Ok (TaskInfoResult
           {| task_slug := Js.str "x";
              reports_dir :=
                Path.join [Js.str "_tasks";
                           candidate sample_today (Js.str "x") (N.of_nat 2)];
              report_file_names := [] |}),
     started sample_today (Js.str "x") 3 Absent) /\
  entries_of (started sample_today (Js.str "x") 3 Absent) !! current
  = Some (Symlink (candidate sample_today (Js.str "x") (N.of_nat 2))) /\
  (forall j, j <= N.of_nat 2 ->
     In (candidate sample_today (Js.str "x") j)
        (catalog (started sample_today (Js.str "x") 3 Absent))).
Proof.
  apply (X16_nth_task_of_the_day sample_today (Js.str "x") 2 Absent).
  - exact sample_today_valid.
  - exact sample_today_four_digit.
  - reflexivity.
  - lia.
  - intros j Hj. apply lookup_empty.
  - exact absent_pointer_free.
Defined.

Lemma X17_new_task_is_listed :
  exists slugs,
    fst (list_recent_tasks sample_today sample_timeOfDay sample_offsetChange
           (snd (start_new_task sample_today (Js.str "x") Absent)))
    = Ok (RecentTaskSlugs slugs) /\
    In (Js.str "x") slugs.
Proof.
  apply (X17_started_task_is_recent sample_today sample_timeOfDay sample_offsetChange
           (Js.str "x") 0 Absent).
  - exact sample_today_valid.
  - exact sample_today_four_digit.
  - exact sample_reading.
  - unfold four_digit_year.
    assert (Clock.year (Clock.thirtyDaysAgo sample_today sample_timeOfDay
                          sample_offsetChange) = 2025%Z) as ->
      by (vm_compute; reflexivity).
    lia.
  - reflexivity.
  - lia.
  - intros j Hj. lia.
  - apply lookup_empty.
  - exact absent_pointer_free.
Defined.

Lemma X18_label_of_two_lines :
  let label := [97; 10; 98] in
  let made := candidate sample_today label 0 in
  let st' := Root (<[current := Symlink made]>
                     (<[made := Dir ∅]> (delete current (entries_of Absent)))) in
  start_new_task sample_today label Absent = (Ok NullResult, st') /\
  ~ In made (catalog st') /\
  current_task (Js.str "/work") st' = (Ok NoCurrentTask, st') /\
  start_new_task sample_today label st' = (Ok NullResult, st').
Proof.
  apply (X18_label_with_line_terminator (Js.str "/work") sample_today [97; 10; 98] Absent).
  - exact sample_today_valid.
  - exact sample_today_four_digit.
  - discriminate.
  - reflexivity.
  - reflexivity.
  - apply lookup_empty.
  - exact absent_pointer_free.
Defined.

Lemma X2_listing_of_the_sample_task :
  getReportFiles sample_task sample_root
  = (Ok (reportFilesOf (elements sample_reports)), sample_root) /\
  getReportFiles (Js.str "2025-10-02-gone") sample_root = (Ok [], sample_root).
Proof.
  destruct (X2_report_listing sample_task sample_root []) as (_ & Hdir & _ & _).
  destruct (X2_report_listing (Js.str "2025-10-02-gone") sample_root [])
    as (_ & _ & Hgone & _).
  split.
  - apply Hdir; vm_compute; reflexivity.
  - apply Hgone; [vm_compute; reflexivity|left; vm_compute; reflexivity].
Defined.

Lemma X19_unknown_tool :
  callTool (Js.str "/work") sample_today sample_timeOfDay sample_offsetChange
    (Js.str "delete_task") None sample_root
  = (Ok (IsError (Js.str "Unknown tool: " ++ Js.str "delete_task")), sample_root).
Proof.
  apply (X19_call_tool_answers (Js.str "/work") sample_today sample_timeOfDay
           sample_offsetChange (Js.str "delete_task") None sample_root).
  cbn [In]. intros [H|[H|[H|[H|[H|[]]]]]]; discriminate H.
Defined.

End MoreInstances.
